(** * Spreadsheet utilities: the match/merge engine, the result validator
      and the session store

    A shallow embedding of
      - [src/lib/duplicate-checker.ts] (module [DuplicateChecker]),
      - [src/lib/result-processor.ts], [validateResults] (module [ResultProcessor]),
      - [src/lib/session.ts] (module [SessionStore]),
    over a model of the JavaScript values and built-ins that this code calls
    (module [Js]).  The definitions come first, the theorems about them after.

    Around these, the rest of the library and one route:
      - [cleanupExpiredSessions] of [src/lib/session.ts] (module [SessionSweep])
        and [src/lib/session-utils.ts] (module [SessionUtils]),
      - [src/lib/data-validator.ts] (modules [DataValidator], [DataTypeStats]),
      - [src/lib/file-processor.ts], but for the parsers (module [FileProcessor]),
      - the columns, the search and the export data of
        [src/lib/result-processor.ts] (module [ResultViews]),
      - [sanitizeString] of [src/lib/export.ts] (module [ExportLib]),
      - the POST handler of [src/app/api/process/route.ts] (module [ProcessRoute]),
    with the string built-ins they call (module [JsText]). *)

From Stdlib Require Import ZArith List String Ascii Bool Lia SpecFloat DecimalString
  Sorted.
From stdpp Require Import base option list gmap strings.
Import ListNotations.
Open Scope Z_scope.

(* ===================================================================== *)
(** ** The JavaScript values and built-ins used by the code              *)
(* ===================================================================== *)

Module Js.

(** *** Numbers: IEEE 754 binary64, as [SpecFloat] specifies them *)

Definition prec : Z := 53.
Definition emax : Z := 1024.
Definition number := spec_float.
Definition NaN : number := S754_nan.

Definition of_Z (n : Z) : number := binary_normalize prec emax n 0 false.

Definition add : number -> number -> number := SFadd prec emax.
Definition sub : number -> number -> number := SFsub prec emax.
Definition mul : number -> number -> number := SFmul prec emax.
Definition div : number -> number -> number := SFdiv prec emax.

Definition isNaN (x : number) : bool :=
  match x with S754_nan => true | _ => false end.

(** [x !== 0] is false for both zeros. *)
Definition is_zero (x : number) : bool :=
  match x with S754_zero _ => true | _ => false end.

(** [x === y] on numbers: NaN differs from itself, the two zeros are equal. *)
Definition number_strict_eq (x y : number) : bool := SFeqb x y.

(** The same float, constructor by constructor (NaN is itself, the zeros differ). *)
Definition same_number (x y : number) : bool :=
  match x, y with
  | S754_zero s, S754_zero t => Bool.eqb s t
  | S754_infinity s, S754_infinity t => Bool.eqb s t
  | S754_nan, S754_nan => true
  | S754_finite s m e, S754_finite t n f => Bool.eqb s t && Pos.eqb m n && Z.eqb e f
  | _, _ => false
  end.

(** [Math.min] and [Math.max] of two numbers: NaN if either is, and -0 below +0. *)
Definition Math_min (x y : number) : number :=
  match SFcompare x y with
  | None => NaN
  | Some Lt => x
  | Some Gt => y
  | Some Eq =>
      match x, y with
      | S754_zero true, _ => x
      | _, S754_zero true => y
      | _, _ => x
      end
  end.

Definition Math_max (x y : number) : number :=
  match SFcompare x y with
  | None => NaN
  | Some Lt => y
  | Some Gt => x
  | Some Eq =>
      match x, y with
      | S754_zero false, _ => x
      | _, S754_zero false => y
      | _, _ => x
      end
  end.

(** [Math.round]: the nearest integer, a tie going towards +Infinity; a zero
    result keeps the sign of [x].  [floor (x + 1/2)] is computed exactly. *)
Definition Math_round (x : number) : number :=
  match x with
  | S754_finite s m e =>
      if 0 <=? e then x
      else
        let n := (2 * cond_Zopp s (Zpos m) + 2 ^ (- e)) / 2 ^ (1 - e) in
        if n =? 0 then S754_zero s else of_Z n
  | _ => x
  end.

(** *** Strings: sequences of code units below 256 *)

Definition code (c : ascii) : Z := Z.of_nat (nat_of_ascii c).

(** White space and line terminators among the code units below 256. *)
Definition isWhiteSpace (c : ascii) : bool :=
  let n := code c in
  (n =? 9) || (n =? 10) || (n =? 11) || (n =? 12) || (n =? 13) || (n =? 32)
  || (n =? 160).

Fixpoint trimStart (s : string) : string :=
  match s with
  | String c s' => if isWhiteSpace c then trimStart s' else s
  | EmptyString => EmptyString
  end.

Definition reverse_string (s : string) : string :=
  string_of_list_ascii (List.rev (list_ascii_of_string s)).

Definition trimEnd (s : string) : string :=
  reverse_string (trimStart (reverse_string s)).

(** [s.trim()] *)
Definition trim (s : string) : string := trimEnd (trimStart s).

(** Lower case of one code unit: A-Z, and the Latin-1 capitals but the
    multiplication sign. *)
Definition lower_char (c : ascii) : ascii :=
  let n := code c in
  if ((65 <=? n) && (n <=? 90)) || ((192 <=? n) && (n <=? 222) && negb (n =? 215))
  then ascii_of_nat (Z.to_nat (n + 32))
  else c.

(** [s.toLowerCase()] *)
Fixpoint toLowerCase (s : string) : string :=
  match s with
  | String c s' => String (lower_char c) (toLowerCase s')
  | EmptyString => EmptyString
  end.

(** *** Decimal text to number *)

Definition digits_of (n : Z) : string :=
  NilZero.string_of_uint (N.to_uint (Z.to_N n)).

(** The number nearest to [s * 10^p] (ties to even), signed by [neg]. Far
    outside the range of the finite numbers the answer is given directly. *)
Definition of_decimal (neg : bool) (s p : Z) : number :=
  match s with
  | Zpos sp =>
      let d := Z.of_nat (String.length (digits_of s)) in
      if 310 <? d + p then S754_infinity neg
      else if d + p <? -330 then S754_zero neg
      else if 0 <=? p then binary_round prec emax neg (sp * Z.to_pos (10 ^ p)) 0
      else SFdiv prec emax (S754_finite neg sp 0)
                           (S754_finite false (Z.to_pos (10 ^ (- p))) 0)
  | _ => S754_zero neg
  end.

Definition digit_value (c : ascii) : option Z :=
  let n := code c in
  if (48 <=? n) && (n <=? 57) then Some (n - 48) else None.

(** The longest run of decimal digits at the head of [s]: its value continuing
    [acc], how many digits it has on top of [count], and what follows it. *)
Fixpoint take_digits (s : string) (acc count : Z) : Z * Z * string :=
  match s with
  | String c s' =>
      match digit_value c with
      | Some d => take_digits s' (10 * acc + d) (count + 1)
      | None => (acc, count, s)
      end
  | EmptyString => (acc, count, s)
  end.

(** The value of an exponent part at the head of [s]; 0 when there is none. *)
Definition exponent_part (s : string) : Z :=
  match s with
  | String c s' =>
      if (code c =? 101) || (code c =? 69) then
        let '(neg, s'') :=
          match s' with
          | String "+" t => (false, t)
          | String "-" t => (true, t)
          | _ => (false, s')
          end in
        let '(v, n, _) := take_digits s'' 0 0 in
        if 0 <? n then (if neg then - v else v) else 0
      else 0
  | EmptyString => 0
  end.

(** [parseFloat(input)]: leading white space is skipped, the longest prefix
    that is a decimal literal is read, NaN when there is none. *)
Definition parseFloat (input : string) : number :=
  let s := trimStart input in
  let '(neg, s) :=
    match s with
    | String "+" t => (false, t)
    | String "-" t => (true, t)
    | _ => (false, s)
    end in
  if String.prefix "Infinity" s then S754_infinity neg
  else
    let '(ip, n1, r1) := take_digits s 0 0 in
    let '(m, n2, r2) :=
      match r1 with
      | String "." t => take_digits t ip 0
      | _ => (ip, 0, r1)
      end in
    if (n1 =? 0) && (n2 =? 0) then NaN
    else of_decimal neg m (exponent_part r2 - n2).

(** *** Number to decimal text ([Number::toString], radix 10) *)

(** [num/den < 10^n] *)
Definition below_pow10 (num den n : Z) : bool :=
  if 0 <=? n then num <? den * 10 ^ n else num * 10 ^ (- n) <? den.

(** The least [n] from [start] on with [num/den < 10^n]. *)
Fixpoint decimal_exponent (fuel : nat) (num den start : Z) : Z :=
  match fuel with
  | O => start
  | S fuel' =>
      if below_pow10 num den start then start
      else decimal_exponent fuel' num den (start + 1)
  end.

(** [floor ((num/den) * 10^p)] *)
Definition scaled_floor (num den p : Z) : Z :=
  if 0 <=? p then (num * 10 ^ p) / den else num / (den * 10 ^ (- p)).

(** [(num/den) * 10^p] against [s + 1/2]. *)
Definition against_half (num den p s : Z) : comparison :=
  if 0 <=? p then (2 * num * 10 ^ p ?= (2 * s + 1) * den)
  else (2 * num ?= (2 * s + 1) * den * 10 ^ (- p)).

(** The digits [s] and the exponent [n] of [Number::toString] for a positive
    [x = num/den] with [10^(n-1) <= x < 10^n]: the least number [k] of digits
    with an [s] of [k] digits such that [s * 10^(n-k)] reads back as [x], the
    [s] nearest to [x] of the two candidates (the even one on a tie). *)
Fixpoint shortest_digits (fuel : nat) (x : number) (num den n k : Z) : Z * Z :=
  let lo := scaled_floor num den (k - n) in
  let hi := lo + 1 in
  let ok_lo := (10 ^ (k - 1) <=? lo) && same_number (of_decimal false lo (n - k)) x in
  let ok_hi := same_number (of_decimal false hi (n - k)) x in
  let pick s := if s =? 10 ^ k then (1, n + 1) else (s, n) in
  match fuel with
  | O => (lo, n)
  | S fuel' =>
      match ok_lo, ok_hi with
      | true, true =>
          match against_half num den (k - n) lo with
          | Lt => pick lo
          | Gt => pick hi
          | Eq => if Z.even lo then pick lo else pick hi
          end
      | true, false => pick lo
      | false, true => pick hi
      | false, false => shortest_digits fuel' x num den n (k + 1)
      end
  end.

Fixpoint zeros (n : nat) : string :=
  match n with
  | O => EmptyString
  | S n' => String "0" (zeros n')
  end.

(** The text for the digits [ds] (k of them) and the exponent [n]. *)
Definition format_digits (ds : string) (n : Z) : string :=
  let k := Z.of_nat (String.length ds) in
  if (k <=? n) && (n <=? 21) then ds +:+ zeros (Z.to_nat (n - k))
  else if (0 <? n) && (n <=? 21) then
    String.substring 0 (Z.to_nat n) ds +:+ "." +:+
    String.substring (Z.to_nat n) (Z.to_nat (k - n)) ds
  else if (-6 <? n) && (n <=? 0) then "0." +:+ zeros (Z.to_nat (- n)) +:+ ds
  else
    let e := n - 1 in
    let es := (if e <? 0 then "-" else "+") +:+ digits_of (Z.abs e) in
    if k =? 1 then ds +:+ "e" +:+ es
    else String.substring 0 1 ds +:+ "." +:+
         String.substring 1 (Z.to_nat (k - 1)) ds +:+ "e" +:+ es.

Definition Number_toString (x : number) : string :=
  match x with
  | S754_nan => "NaN"
  | S754_zero _ => "0"
  | S754_infinity s => if s then "-Infinity" else "Infinity"
  | S754_finite s m e =>
      let num := if 0 <=? e then Zpos m * 2 ^ e else Zpos m in
      let den := if 0 <=? e then 1 else 2 ^ (- e) in
      let n := decimal_exponent 800 num den (-400) in
      let '(d, n') := shortest_digits 17 (S754_finite false m e) num den n 1 in
      (if s then "-" else "") +:+ format_digits (digits_of d) n'
  end.

(** *** Values *)

(** What a cell of a row can hold.  An object (a Date, a rich-text cell) is
    seen by this code only through its identity ([===]) and through the text
    [String] gives for it, so it is modelled as these two. *)
Inductive Value :=
| VUndefined
| VNull
| VBoolean (b : bool)
| VNumber (x : number)
| VString (s : string)
| VObject (ref : nat) (text : string).

(** [v === null || v === undefined] *)
Definition isNullish (v : Value) : bool :=
  match v with
  | VUndefined | VNull => true
  | _ => false
  end.

(** [v1 === v2] *)
Definition strict_eq (v1 v2 : Value) : bool :=
  match v1, v2 with
  | VUndefined, VUndefined => true
  | VNull, VNull => true
  | VBoolean a, VBoolean b => Bool.eqb a b
  | VNumber x, VNumber y => number_strict_eq x y
  | VString s, VString t => String.eqb s t
  | VObject r _, VObject r' _ => Nat.eqb r r'
  | _, _ => false
  end.

(** [String(v)] *)
Definition String_ (v : Value) : string :=
  match v with
  | VUndefined => "undefined"
  | VNull => "null"
  | VBoolean b => if b then "true" else "false"
  | VNumber x => Number_toString x
  | VString s => s
  | VObject _ text => text
  end.

(** [v ?? d] *)
Definition nullish_coalesce (v d : Value) : Value :=
  if isNullish v then d else v.

End Js.

(* ===================================================================== *)
(** ** src/lib/duplicate-checker.ts                                      *)
(* ===================================================================== *)

Module DuplicateChecker.
Import Js.

(** *** Rows, files and options (src/types) *)

(** The own properties of an object, in the order [Object.keys] lists them.
    (JavaScript lists keys that are array indices first; column names of
    that form are not told apart here.  Properties inherited from
    [Object.prototype], such as [toString], are not modelled: a column is
    taken not to bear such a name.) *)
Definition Fields := list (string * Value).

Fixpoint lookup_field (key : string) (fs : Fields) : option Value :=
  match fs with
  | [] => None
  | (k, v) :: rest => if String.eqb key k then Some v else lookup_field key rest
  end.

(** [fields[key]]: a missing property reads as [undefined]. *)
Definition get (fs : Fields) (key : string) : Value :=
  default VUndefined (lookup_field key fs).

(** [key in fields] *)
Definition has (key : string) (fs : Fields) : bool :=
  match lookup_field key fs with Some _ => true | None => false end.

(** [fields[key] = v]: in place when the key is there, else added last. *)
Fixpoint set_field (key : string) (v : Value) (fs : Fields) : Fields :=
  match fs with
  | [] => [(key, v)]
  | (k, w) :: rest =>
      if String.eqb key k then (k, v) :: rest else (k, w) :: set_field key v rest
  end.

(** [Object.keys(fields)] *)
Definition keys (fs : Fields) : list string := map fst fs.

(** A row of a file ([Record<string, any>]): an object, that is an identity
    (compared by [===]) and its properties.  Rows are never mutated once they
    are shared, so the properties travel with the reference. *)
Record Row := { row_ref : nat; row_fields : Fields }.

(** [record === record'] *)
Definition same_object (record record' : Row) : bool :=
  Nat.eqb (row_ref record) (row_ref record').

(** [{ ...record }], as the object allocated at [ref]. *)
Definition spread (ref : nat) (record : Row) : Row :=
  {| row_ref := ref; row_fields := row_fields record |}.

Inductive FileType := excel | csv.

Record FileData := {
  fd_id : string;
  fd_name : string;
  fd_originalName : string;
  fd_data : list Row;
  fd_columns : list string;
  fd_rowCount : Z;
  fd_type : FileType;
  fd_uploadedAt : Z
}.

Record ColumnMapping := { file1Column : string; file2Column : string }.

(** [operation] is a string at run time (it arrives in a JSON body), and
    [applyMergeOperation] has a default case for the unknown ones. *)
Record MergeOperation := { column : string; operation : string }.

Record MergeOptions := { operations : list MergeOperation }.

Record DuplicatePair := { file1Record : Row; file2Record : Row }.

Record Stats := {
  totalFile1 : Z;
  totalFile2 : Z;
  duplicateCount : Z;
  uniqueFile1Count : Z;
  uniqueFile2Count : Z;
  mergedCount : Z
}.

Record ProcessedData := {
  duplicates : list Row;
  uniqueInFile1 : list Row;
  uniqueInFile2 : list Row;
  merged : list Row;
  stats : Stats;
  processedAt : Z
}.

(** *** Exceptions *)

Inductive outcome (A : Type) :=
| Returns (a : A)
| Throws (message : string).
Arguments Returns {A} a.
Arguments Throws {A} message.

Definition bind {A B : Type} (c : outcome A) (k : A -> outcome B) : outcome B :=
  match c with
  | Returns a => k a
  | Throws message => Throws message
  end.

Notation "c ;;; k" := (bind c (fun _ => k)) (at level 90, right associativity).

(** A [for ... of] loop whose body may throw: the first throw ends it. *)
Fixpoint forEach_check {A : Type} (body : A -> outcome unit) (l : list A) : outcome unit :=
  match l with
  | [] => Returns tt
  | x :: rest => body x ;;; forEach_check body rest
  end.

Definition check (failed : bool) (message : string) : outcome unit :=
  if failed then Throws message else Returns tt.

(** *** isValueMatch, getColumnValue *)

Definition isValueMatch (value1 value2 : Value) : bool :=
  if isNullish value1 || isNullish value2 then strict_eq value1 value2
  else
    let str1 := toLowerCase (trim (String_ value1)) in
    let str2 := toLowerCase (trim (String_ value2)) in
    String.eqb str1 str2.

(** A row is an object, so [!record] is false; [!columnName] holds for the
    empty name. *)
Definition getColumnValue (record : Row) (columnName : string) : Value :=
  if String.eqb columnName "" then VNull
  else nullish_coalesce (get (row_fields record) columnName) VNull.

(** *** findDuplicatesAndUnique *)

(** The inner [for] loop: the index and the record of the first row of
    [uniqueInFile2], from index [i] on, whose value matches. *)
Fixpoint scanFile2 (file1Value : Value) (file2Column : string)
    (rows : list Row) (i : nat) : option (nat * Row) :=
  match rows with
  | [] => None
  | file2Record :: rest =>
      let file2Value := getColumnValue file2Record file2Column in
      if isValueMatch file1Value file2Value then Some (i, file2Record)
      else scanFile2 file1Value file2Column rest (S i)
  end.

(** The three arrays the function builds. *)
Record Matching := {
  m_duplicates : list DuplicatePair;
  m_uniqueInFile1 : list Row;
  m_uniqueInFile2 : list Row
}.

(** One turn of the outer loop. *)
Definition matchRecord (columnMapping : ColumnMapping) (st : Matching)
    (file1Record : Row) : Matching :=
  let file1Value := getColumnValue file1Record (file1Column columnMapping) in
  match scanFile2 file1Value (file2Column columnMapping) (m_uniqueInFile2 st) 0 with
  | Some (i, file2Record) =>
      {| m_duplicates :=
           m_duplicates st ++
           [{| file1Record := file1Record; file2Record := file2Record |}];
         m_uniqueInFile1 := m_uniqueInFile1 st;
         m_uniqueInFile2 := delete i (m_uniqueInFile2 st) |}
  | None =>
      {| m_duplicates := m_duplicates st;
         m_uniqueInFile1 := m_uniqueInFile1 st ++ [file1Record];
         m_uniqueInFile2 := m_uniqueInFile2 st |}
  end.

Definition findDuplicatesAndUnique (file1 file2 : FileData)
    (columnMapping : ColumnMapping) : Matching :=
  fold_left (matchRecord columnMapping) (fd_data file1)
    {| m_duplicates := []; m_uniqueInFile1 := []; m_uniqueInFile2 := fd_data file2 |}.

(** *** applyMergeOperation, performNumericOperation *)

Definition performNumericOperation (value1 value2 : Value)
    (operation : number -> number -> number) : Value :=
  let num1 := parseFloat (String_ value1) in
  let num2 := parseFloat (String_ value2) in
  if isNaN num1 || isNaN num2 then value1
  else
    let result := operation num1 num2 in
    VNumber (div (Math_round (mul result (of_Z 100))) (of_Z 100)).

Definition applyMergeOperation (value1 value2 : Value) (operation : string) : Value :=
  if isNullish value1 then
    (if String.eqb operation "TAKE_OLD" then value1 else value2)
  else if isNullish value2 then
    (if String.eqb operation "TAKE_NEW" then value2 else value1)
  else if String.eqb operation "MERGE_ALL" then value1
  else if String.eqb operation "TAKE_NEW" then value2
  else if String.eqb operation "TAKE_OLD" then value1
  else if String.eqb operation "SUM" then
    performNumericOperation value1 value2 (fun a b => add a b)
  else if String.eqb operation "SUBTRACT" then
    performNumericOperation value1 value2 (fun a b => sub a b)
  else if String.eqb operation "MULTIPLY" then
    performNumericOperation value1 value2 (fun a b => mul a b)
  else if String.eqb operation "DIVIDE" then
    performNumericOperation value1 value2
      (fun a b => if negb (is_zero b) then div a b else a)
  else if String.eqb operation "AVG" then
    performNumericOperation value1 value2 (fun a b => div (add a b) (of_Z 2))
  else if String.eqb operation "MIN" then
    performNumericOperation value1 value2 (fun a b => Math_min a b)
  else if String.eqb operation "MAX" then
    performNumericOperation value1 value2 (fun a b => Math_max a b)
  else if String.eqb operation "CONCATENATE" then
    VString (String_ value1 +:+ " | " +:+ String_ value2)
  else value1.

(** *** mergeDuplicateRecords *)

(** [mergeOptions.operations.find((op) => op.operation === "MERGE_ALL")] *)
Definition findMergeAll (mergeOptions : MergeOptions) : option MergeOperation :=
  List.find (fun op => String.eqb (operation op) "MERGE_ALL") (operations mergeOptions).

(** The [forEach] over [Object.keys(file2Record)] of the MERGE_ALL branch. *)
Definition mergeAllColumns (file2Fields : Fields) (mergedRecord : Fields) : Fields :=
  fold_left
    (fun mergedRecord key =>
       if has key mergedRecord
          && negb (strict_eq (get mergedRecord key) (get file2Fields key))
       then set_field ("file2_" +:+ key) (get file2Fields key) mergedRecord
       else if negb (has key mergedRecord)
       then set_field key (get file2Fields key) mergedRecord
       else mergedRecord)
    (keys file2Fields) mergedRecord.

(** The loop over [mergeOptions.operations] of the column-specific branch. *)
Definition applyOperations (file1Fields file2Fields : Fields)
    (ops : list MergeOperation) (mergedRecord : Fields) : Fields :=
  fold_left
    (fun mergedRecord op =>
       if String.eqb (operation op) "MERGE_ALL" then mergedRecord
       else
         let value1 := get file1Fields (column op) in
         let value2 := get file2Fields (column op) in
         set_field (column op) (applyMergeOperation value1 value2 (operation op))
           mergedRecord)
    ops mergedRecord.

(** The function mapped over the pairs; its result is the object allocated
    at [ref]. *)
Definition mergePair (mergeOptions : MergeOptions) (ref : nat)
    (dup : DuplicatePair) : Row :=
  let file1Fields := row_fields (file1Record dup) in
  let file2Fields := row_fields (file2Record dup) in
  match findMergeAll mergeOptions with
  | Some _ =>
      {| row_ref := ref; row_fields := mergeAllColumns file2Fields file1Fields |}
  | None =>
      {| row_ref := ref;
         row_fields :=
           applyOperations file1Fields file2Fields (operations mergeOptions) file1Fields |}
  end.

(** [duplicates.map(...)]; the merged records are allocated from [next] on. *)
Fixpoint mergeDuplicateRecords (duplicates : list DuplicatePair)
    (mergeOptions : MergeOptions) (next : nat) : list Row :=
  match duplicates with
  | [] => []
  | dup :: rest =>
      mergePair mergeOptions next dup
      :: mergeDuplicateRecords rest mergeOptions (S next)
  end.

(** *** calculateStatistics *)

Definition calculateStatistics (file1 file2 : FileData)
    (duplicates : list DuplicatePair) (uniqueInFile1 uniqueInFile2 merged : list Row)
    : Stats :=
  {| totalFile1 := Z.of_nat (length (fd_data file1));
     totalFile2 := Z.of_nat (length (fd_data file2));
     duplicateCount := Z.of_nat (length duplicates);
     uniqueFile1Count := Z.of_nat (length uniqueInFile1);
     uniqueFile2Count := Z.of_nat (length uniqueInFile2);
     mergedCount := Z.of_nat (length merged) |}.

(** *** validateProcessingInputs *)

(** [columns.includes(name)], [allColumns.has(name)] *)
Definition includes (name : string) (columns : list string) : bool :=
  existsb (String.eqb name) columns.

Definition hasMergeAll (mergeOptions : MergeOptions) : bool :=
  existsb (fun op => String.eqb (operation op) "MERGE_ALL") (operations mergeOptions).

Definition validateProcessingInputs (file1 file2 : FileData)
    (columnMapping : ColumnMapping) (mergeOptions : MergeOptions) : outcome unit :=
  check (Nat.eqb (length (fd_data file1)) 0) "File 1 is empty or invalid" ;;;
  check (Nat.eqb (length (fd_data file2)) 0) "File 2 is empty or invalid" ;;;
  check (String.eqb (file1Column columnMapping) ""
         || String.eqb (file2Column columnMapping) "")
        "Column mapping is incomplete" ;;;
  check (negb (includes (file1Column columnMapping) (fd_columns file1)))
        ("Column '" +:+ file1Column columnMapping +:+ "' not found in File 1") ;;;
  check (negb (includes (file2Column columnMapping) (fd_columns file2)))
        ("Column '" +:+ file2Column columnMapping +:+ "' not found in File 2") ;;;
  check (Nat.eqb (length (operations mergeOptions)) 0)
        "No merge operations specified" ;;;
  (if hasMergeAll mergeOptions then Returns tt
   else
     let allColumns := fd_columns file1 ++ fd_columns file2 in
     forEach_check
       (fun op =>
          check (String.eqb (column op) "" || String.eqb (operation op) "")
                "Invalid merge operation configuration" ;;;
          check (negb (includes (column op) allColumns))
                ("Column '" +:+ column op
                 +:+ "' specified in merge operations not found in either file"))
       (operations mergeOptions)) ;;;
  forEach_check
    (fun op =>
       check (String.eqb (operation op) "")
             "Invalid merge operation configuration - missing operation")
    (operations mergeOptions).

(** *** processDuplicates *)

(** The [forEach] over [file2.data] of the MERGE_ALL branch: a copy of every
    row that is no [file2Record] of a pair is pushed (the loop over the keys
    of the copy has an empty body).  Copies are allocated from [next] on; the
    result carries the next free reference. *)
Fixpoint appendUnmatched (duplicates : list DuplicatePair) (file2Data : list Row)
    (merged : list Row) (next : nat) : list Row * nat :=
  match file2Data with
  | [] => (merged, next)
  | file2Record' :: rest =>
      let isDuplicate :=
        existsb (fun dup => same_object (file2Record dup) file2Record') duplicates in
      if negb isDuplicate
      then appendUnmatched duplicates rest (merged ++ [spread next file2Record']) (S next)
      else appendUnmatched duplicates rest merged next
  end.

(** [merged.findIndex(p)], [None] standing for -1. *)
Fixpoint findIndex (p : Row -> bool) (rows : list Row) (i : nat) : option nat :=
  match rows with
  | [] => None
  | record :: rest => if p record then Some i else findIndex p rest (S i)
  end.

(** One turn of the last [forEach] of the MERGE_ALL branch, for the pair at
    some index and [duplicateMerged] at that index. *)
Definition replaceWithMerged (merged : list Row) (entry : DuplicatePair * Row)
    : list Row :=
  match findIndex (fun record => same_object record (file1Record (fst entry))) merged 0 with
  | Some file1Index => <[file1Index := snd entry]> merged
  | None => merged
  end.

(** The body of the [try]: [next] is the next free object reference and
    [now] the clock read by [new Date()]. *)
Definition processDuplicates_body (next : nat) (now : Z) (file1 file2 : FileData)
    (columnMapping : ColumnMapping) (mergeOptions : MergeOptions)
    : outcome ProcessedData :=
  validateProcessingInputs file1 file2 columnMapping mergeOptions ;;;
  let found := findDuplicatesAndUnique file1 file2 columnMapping in
  let duplicates := m_duplicates found in
  let merged :=
    match findMergeAll mergeOptions with
    | Some _ =>
        let '(merged, next') := appendUnmatched duplicates (fd_data file2) (fd_data file1) next in
        let duplicateMerged := mergeDuplicateRecords duplicates mergeOptions next' in
        (* [duplicateMerged] is as long as [duplicates]: index by index *)
        fold_left replaceWithMerged (combine duplicates duplicateMerged) merged
    | None => mergeDuplicateRecords duplicates mergeOptions next
    end in
  let stats :=
    calculateStatistics file1 file2 duplicates
      (m_uniqueInFile1 found) (m_uniqueInFile2 found) merged in
  Returns
    {| duplicates := map file1Record duplicates;
       uniqueInFile1 := m_uniqueInFile1 found;
       uniqueInFile2 := m_uniqueInFile2 found;
       merged := merged;
       stats := stats;
       processedAt := now |}.

Definition processDuplicates (next : nat) (now : Z) (file1 file2 : FileData)
    (columnMapping : ColumnMapping) (mergeOptions : MergeOptions)
    : outcome ProcessedData :=
  match processDuplicates_body next now file1 file2 columnMapping mergeOptions with
  | Returns result => Returns result
  | Throws message => Throws ("Duplicate processing failed: " +:+ message)
  end.

End DuplicateChecker.

(* ===================================================================== *)
(** ** src/lib/result-processor.ts: validateResults                      *)
(* ===================================================================== *)

Module ResultProcessor.
Import Js DuplicateChecker.

(** [validateResults] tests at run time what its parameter holds, so the
    model takes what may really be there: in the place of an array, an
    array, [undefined] or [null], or some other value (a string, a
    number, an object) with the number its [length] property holds, if any. *)
Inductive ArrayLike :=
| Nullish
| NotArray (length_property : option Z)
| IsArray (items : list Row).

Record Results := {
  r_duplicates : ArrayLike;
  r_uniqueInFile1 : ArrayLike;
  r_uniqueInFile2 : ArrayLike;
  r_merged : ArrayLike;
  r_stats : option Stats
}.

(** A well-typed [ProcessedData], as [processDuplicates] returns it. *)
Definition of_ProcessedData (results : ProcessedData) : Results :=
  {| r_duplicates := IsArray (duplicates results);
     r_uniqueInFile1 := IsArray (uniqueInFile1 results);
     r_uniqueInFile2 := IsArray (uniqueInFile2 results);
     r_merged := IsArray (merged results);
     r_stats := Some (stats results) |}.

Record Validation := { valid : bool; errors : list string }.

(** The function returns a [Validation], or a [TypeError] is thrown. *)
Inductive completion :=
| Return (v : Validation)
| TypeError.

(** [Array.isArray(a)] *)
Definition isArray (a : ArrayLike) : bool :=
  match a with IsArray _ => true | _ => false end.

(** [a.length]: reading a property of [undefined] or [null] throws. *)
Definition length_of (a : ArrayLike) : option (option Z) :=
  match a with
  | Nullish => None
  | NotArray l => Some l
  | IsArray items => Some (Some (Z.of_nat (length items)))
  end.

(** [count !== len], where [len] may be [undefined]. *)
Definition strict_ne (count : Z) (len : option Z) : bool :=
  match len with
  | Some l => negb (count =? l)
  | None => true
  end.

(** [if (failed) errors.push(message)] *)
Definition push_if (failed : bool) (message : string) (errors : list string)
    : list string :=
  if failed then errors ++ [message] else errors.

Definition finish (errors : list string) : completion :=
  Return {| valid := Nat.eqb (length errors) 0; errors := errors |}.

Definition validateResults (results : option Results) : completion :=
  let errors : list string := [] in
  match results with
  | None =>
      let errors := errors ++ ["Results data is missing"] in
      Return {| valid := false; errors := errors |}
  | Some results =>
      let errors := push_if (negb (isArray (r_duplicates results)))
                      "Duplicates data is invalid" errors in
      let errors := push_if (negb (isArray (r_uniqueInFile1 results)))
                      "Unique File 1 data is invalid" errors in
      let errors := push_if (negb (isArray (r_uniqueInFile2 results)))
                      "Unique File 2 data is invalid" errors in
      let errors := push_if (negb (isArray (r_merged results)))
                      "Merged data is invalid" errors in
      match r_stats results with
      | None => finish (errors ++ ["Statistics data is missing"])
      | Some stats =>
          match length_of (r_duplicates results) with
          | None => TypeError
          | Some len =>
          let errors := push_if (strict_ne (duplicateCount stats) len)
                          "Duplicate count mismatch" errors in
          match length_of (r_uniqueInFile1 results) with
          | None => TypeError
          | Some len =>
          let errors := push_if (strict_ne (uniqueFile1Count stats) len)
                          "Unique File 1 count mismatch" errors in
          match length_of (r_uniqueInFile2 results) with
          | None => TypeError
          | Some len =>
          let errors := push_if (strict_ne (uniqueFile2Count stats) len)
                          "Unique File 2 count mismatch" errors in
          match length_of (r_merged results) with
          | None => TypeError
          | Some len =>
          let errors := push_if (strict_ne (mergedCount stats) len)
                          "Merged count mismatch" errors in
          let errors :=
            push_if (negb (duplicateCount stats + uniqueFile1Count stats
                           =? totalFile1 stats))
              "File 1 total count mismatch" errors in
          let errors :=
            push_if (negb (duplicateCount stats + uniqueFile2Count stats
                           =? totalFile2 stats))
              "File 2 total count mismatch" errors in
          finish errors
          end end end end
      end
  end.

End ResultProcessor.

(* ===================================================================== *)
(** ** src/lib/session.ts                                                *)
(* ===================================================================== *)

Module SessionStore.
Import DuplicateChecker.

(** Times are milliseconds ([Date.getTime()]). *)
Definition SESSION_TIMEOUT : Z := 15 * 60 * 1000.

Record Files := { file1 : option FileData; file2 : option FileData }.

Record UserSession := {
  s_id : string;
  s_files : Files;
  s_columnMapping : option ColumnMapping;
  s_mergeOptions : option MergeOptions;
  s_results : option ProcessedData;
  s_createdAt : Z;
  s_lastActivity : Z
}.

(** [Partial<UserSession>]: [None] for a key that is not there.  An optional
    field that is there may hold [undefined] (the inner [None]). *)
Record PartialSession := {
  p_id : option string;
  p_files : option Files;
  p_columnMapping : option (option ColumnMapping);
  p_mergeOptions : option (option MergeOptions);
  p_results : option (option ProcessedData);
  p_createdAt : option Z;
  p_lastActivity : option Z
}.

(** A timer of the event loop set by [scheduleSessionCleanup]: its callback
    closes over the session id only; it is due [SESSION_TIMEOUT] after it
    was set. *)
Record Timer := { timer_session : string; timer_due : Z }.

(** The module's state: the two maps, and the timers that are set and have
    neither fired nor been cleared, by handle. *)
Record Store := {
  sessions : gmap string UserSession;
  cleanupTimeouts : gmap string nat;
  timers : gmap nat Timer;
  nextTimer : nat
}.

Definition emptyStore : Store :=
  {| sessions := ∅; cleanupTimeouts := ∅; timers := ∅; nextTimer := 0 |}.

Definition with_sessions (f : gmap string UserSession -> gmap string UserSession)
    (st : Store) : Store :=
  {| sessions := f (sessions st); cleanupTimeouts := cleanupTimeouts st;
     timers := timers st; nextTimer := nextTimer st |}.

Definition with_cleanupTimeouts (f : gmap string nat -> gmap string nat)
    (st : Store) : Store :=
  {| sessions := sessions st; cleanupTimeouts := f (cleanupTimeouts st);
     timers := timers st; nextTimer := nextTimer st |}.

(** [clearTimeout(handle)] *)
Definition clearTimeout (handle : nat) (st : Store) : Store :=
  {| sessions := sessions st; cleanupTimeouts := cleanupTimeouts st;
     timers := delete handle (timers st); nextTimer := nextTimer st |}.

(** [setTimeout(callback, delay)] at time [now], for the callback of
    [sessionId]: the new handle and the store. *)
Definition setTimeout (sessionId : string) (delay now : Z) (st : Store) : nat * Store :=
  (nextTimer st,
   {| sessions := sessions st; cleanupTimeouts := cleanupTimeouts st;
      timers := <[nextTimer st := {| timer_session := sessionId;
                                      timer_due := now + delay |}]> (timers st);
      nextTimer := S (nextTimer st) |}).

(** *** deleteSession *)

Definition deleteSession (sessionId : string) (st : Store) : bool * Store :=
  match sessions st !! sessionId with
  | Some session =>
      let st :=
        match cleanupTimeouts st !! sessionId with
        | Some timeout =>
            with_cleanupTimeouts (delete sessionId) (clearTimeout timeout st)
        | None => st
        end in
      (true, with_sessions (delete sessionId) st)
  | None => (false, st)
  end.

(** *** scheduleSessionCleanup and the callback it sets *)

Definition scheduleSessionCleanup (sessionId : string) (now : Z) (st : Store) : Store :=
  let st :=
    match cleanupTimeouts st !! sessionId with
    | Some existingTimeout => clearTimeout existingTimeout st
    | None => st
    end in
  let '(timeout, st) := setTimeout sessionId SESSION_TIMEOUT now st in
  with_cleanupTimeouts (insert sessionId timeout) st.

(** The arrow function given to [setTimeout], run at time [now]. *)
Definition cleanupCallback (sessionId : string) (now : Z) (st : Store) : Store :=
  let st :=
    match sessions st !! sessionId with
    | Some session =>
        let timeSinceLastActivity := now - s_lastActivity session in
        if SESSION_TIMEOUT <=? timeSinceLastActivity
        then snd (deleteSession sessionId st)
        else scheduleSessionCleanup sessionId now st
    | None => st
    end in
  with_cleanupTimeouts (delete sessionId) st.

(** The event loop runs the callback of the timer [handle] at time [now]: the
    timer has to be set still, and due. *)
Definition fireTimer (handle : nat) (now : Z) (st : Store) : Store :=
  match timers st !! handle with
  | Some timer =>
      if timer_due timer <=? now
      then cleanupCallback (timer_session timer) now (clearTimeout handle st)
      else st
  | None => st
  end.

(** *** createSession, getSession, updateSession *)

(** [sessionId] is what [uuidv4()] returns. *)
Definition createSession (sessionId : string) (now : Z) (st : Store)
    : UserSession * Store :=
  let session :=
    {| s_id := sessionId;
       s_files := {| file1 := None; file2 := None |};
       s_columnMapping := None; s_mergeOptions := None; s_results := None;
       s_createdAt := now; s_lastActivity := now |} in
  let st := with_sessions (insert sessionId session) st in
  (session, scheduleSessionCleanup sessionId now st).

Definition set_lastActivity (t : Z) (session : UserSession) : UserSession :=
  {| s_id := s_id session; s_files := s_files session;
     s_columnMapping := s_columnMapping session;
     s_mergeOptions := s_mergeOptions session;
     s_results := s_results session;
     s_createdAt := s_createdAt session; s_lastActivity := t |}.

Definition getSession (sessionId : string) (now : Z) (st : Store)
    : option UserSession * Store :=
  match sessions st !! sessionId with
  | None => (None, st)
  | Some session =>
      let timeSinceLastActivity := now - s_lastActivity session in
      if SESSION_TIMEOUT <? timeSinceLastActivity
      then (None, snd (deleteSession sessionId st))
      else
        let session := set_lastActivity now session in
        let st := with_sessions (insert sessionId session) st in
        (Some session, scheduleSessionCleanup sessionId now st)
  end.

(** [{ ...session, ...updates, id: sessionId, lastActivity: updates.lastActivity || now }] *)
Definition mergeUpdates (sessionId : string) (now : Z)
    (session : UserSession) (updates : PartialSession) : UserSession :=
  {| s_id := sessionId;
     s_files := default (s_files session) (p_files updates);
     s_columnMapping := default (s_columnMapping session) (p_columnMapping updates);
     s_mergeOptions := default (s_mergeOptions session) (p_mergeOptions updates);
     s_results := default (s_results session) (p_results updates);
     s_createdAt := default (s_createdAt session) (p_createdAt updates);
     s_lastActivity := default now (p_lastActivity updates) |}.

Definition updateSession (sessionId : string) (updates : PartialSession)
    (now : Z) (st : Store) : bool * Store :=
  match sessions st !! sessionId with
  | None => (false, st)
  | Some session =>
      let updatedSession := mergeUpdates sessionId now session updates in
      let st := with_sessions (insert sessionId updatedSession) st in
      (true, scheduleSessionCleanup sessionId now st)
  end.

End SessionStore.

(* ===================================================================== *)
(** ** What the theorems are stated with                                 *)
(* ===================================================================== *)

Module Specs.
Import Js DuplicateChecker.

(** A value that a numeric operator computes with: neither [null] nor
    [undefined], and [parseFloat(String(v))] is not NaN. *)
Definition numeric (v : Value) : bool :=
  negb (isNullish v) && negb (isNaN (parseFloat (String_ v))).

(** [isValueMatch] on the mapped columns of a row of each file. *)
Definition keysMatch (columnMapping : ColumnMapping) (recordA recordB : Row) : bool :=
  isValueMatch (getColumnValue recordA (file1Column columnMapping))
               (getColumnValue recordB (file2Column columnMapping)).

(** The matching policy in the words of the specification: the records of A
    are taken in order against a working copy of B; a record of A pairs with
    the first record of the working copy that matches it, which leaves the
    working copy; a record of A that nothing matches is unique to A; what
    stays in the working copy is unique to B. *)
Inductive Greedy (columnMapping : ColumnMapping)
    : list Row -> list Row -> Matching -> Prop :=
| Greedy_done (working : list Row) :
    Greedy columnMapping [] working
      {| m_duplicates := []; m_uniqueInFile1 := []; m_uniqueInFile2 := working |}
| Greedy_pair (recordA : Row) (restA before : list Row) (recordB : Row)
    (after : list Row) (m : Matching) :
    Forall (fun r => keysMatch columnMapping recordA r = false) before ->
    keysMatch columnMapping recordA recordB = true ->
    Greedy columnMapping restA (before ++ after) m ->
    Greedy columnMapping (recordA :: restA) (before ++ recordB :: after)
      {| m_duplicates :=
           {| file1Record := recordA; file2Record := recordB |} :: m_duplicates m;
         m_uniqueInFile1 := m_uniqueInFile1 m;
         m_uniqueInFile2 := m_uniqueInFile2 m |}
| Greedy_unique (recordA : Row) (restA working : list Row) (m : Matching) :
    Forall (fun r => keysMatch columnMapping recordA r = false) working ->
    Greedy columnMapping restA working m ->
    Greedy columnMapping (recordA :: restA) working
      {| m_duplicates := m_duplicates m;
         m_uniqueInFile1 := recordA :: m_uniqueInFile1 m;
         m_uniqueInFile2 := m_uniqueInFile2 m |}.

(** The columns that the operations name. *)
Definition namedColumns (mergeOptions : MergeOptions) : list string :=
  map column (operations mergeOptions).


End Specs.

(** *** The checks of validateResults, as a list *)

Module ValidationSpecs.
Import Js DuplicateChecker ResultProcessor.

(** The ten checks of [validateResults] on a result whose statistics are
    there, each with its message: whether it failed, in the order of the code. *)
Definition checks (results : Results) (stats : Stats) : list (bool * string) :=
  [ (negb (isArray (r_duplicates results)), "Duplicates data is invalid");
    (negb (isArray (r_uniqueInFile1 results)), "Unique File 1 data is invalid");
    (negb (isArray (r_uniqueInFile2 results)), "Unique File 2 data is invalid");
    (negb (isArray (r_merged results)), "Merged data is invalid");
    (strict_ne (duplicateCount stats) (mjoin (length_of (r_duplicates results))),
     "Duplicate count mismatch");
    (strict_ne (uniqueFile1Count stats) (mjoin (length_of (r_uniqueInFile1 results))),
     "Unique File 1 count mismatch");
    (strict_ne (uniqueFile2Count stats) (mjoin (length_of (r_uniqueInFile2 results))),
     "Unique File 2 count mismatch");
    (strict_ne (mergedCount stats) (mjoin (length_of (r_merged results))),
     "Merged count mismatch");
    (negb (duplicateCount stats + uniqueFile1Count stats =? totalFile1 stats),
     "File 1 total count mismatch");
    (negb (duplicateCount stats + uniqueFile2Count stats =? totalFile2 stats),
     "File 2 total count mismatch") ].

(** The messages of the checks that failed. *)
Definition failures (cs : list (bool * string)) : list string :=
  map snd (List.filter fst cs).

(** No property that should be an array is [undefined] or [null]. *)
Definition lengths_readable (results : Results) : bool :=
  match length_of (r_duplicates results), length_of (r_uniqueInFile1 results),
        length_of (r_uniqueInFile2 results), length_of (r_merged results) with
  | Some _, Some _, Some _, Some _ => true
  | _, _, _, _ => false
  end.

End ValidationSpecs.

(* ===================================================================== *)
(** ** Sample inputs                                                    *)
(* ===================================================================== *)

Module Samples.
Import Js DuplicateChecker.

Definition row (ref : nat) (fields : Fields) : Row :=
  {| row_ref := ref; row_fields := fields |}.

Definition file (name : string) (rows : list Row) (columns : list string) : FileData :=
  {| fd_id := name; fd_name := name; fd_originalName := name;
     fd_data := rows; fd_columns := columns;
     fd_rowCount := Z.of_nat (length rows); fd_type := csv; fd_uploadedAt := 0 |}.

Definition by_key : ColumnMapping := {| file1Column := "key"; file2Column := "key" |}.

(** Two rows with key "X" in A, one row with key "X" in B. *)
Definition twoX : FileData :=
  file "a.csv" [row 0 [("key", VString "X")]; row 1 [("key", VString "X")]] ["key"].
Definition oneX : FileData :=
  file "b.csv" [row 2 [("key", VString "X")]] ["key"].

(** Files with a row in common, a row only in A and a row only in B. *)
Definition fileA : FileData :=
  file "a.csv"
    [row 0 [("key", VString "X"); ("qty", VNumber (of_Z 5))];
     row 1 [("key", VString "Y"); ("qty", VNumber (of_Z 1))]]
    ["key"; "qty"].
Definition fileB : FileData :=
  file "b.csv"
    [row 2 [("key", VString "Z"); ("qty", VString "2"); ("note", VString "n")];
     row 3 [("key", VString " x "); ("qty", VString "3"); ("note", VString "m")]]
    ["key"; "qty"; "note"].

Definition sum_qty : MergeOptions :=
  {| operations := [{| column := "qty"; operation := "SUM" |}] |}.
Definition take_note : MergeOptions :=
  {| operations := [{| column := "note"; operation := "TAKE_NEW" |}] |}.
Definition merge_all : MergeOptions :=
  {| operations := [{| column := "ALL_COLUMNS"; operation := "MERGE_ALL" |}] |}.

End Samples.

(* ===================================================================== *)
(** ** src/lib/session.ts: cleanupExpiredSessions; src/lib/session-utils.ts *)
(* ===================================================================== *)

Module SessionSweep.
Import DuplicateChecker SessionStore.

(** One turn of the [for ... of sessions.entries()] loop of
    [cleanupExpiredSessions]. *)
Definition sweepEntry (now : Z) (acc : nat * Store) (entry : string * UserSession)
    : nat * Store :=
  let '(cleanedCount, st) := acc in
  let '(sessionId, session) := entry in
  let timeSinceLastActivity := now - s_lastActivity session in
  if SESSION_TIMEOUT <? timeSinceLastActivity
  then (S cleanedCount, snd (deleteSession sessionId st))
  else (cleanedCount, st).

(** The loop over the entries in the order [entries] lists them. *)
Definition sweep (now : Z) (entries : list (string * UserSession)) (st : Store)
    : nat * Store :=
  fold_left (sweepEntry now) entries (0%nat, st).

(** [cleanupExpiredSessions()], [now] being the clock it reads once.  A
    JavaScript [Map] is visited in insertion order, which the finite map
    does not record; the loop is run over the entries in the order
    [map_to_list] gives, and the theorems about it hold for every order. *)
Definition cleanupExpiredSessions (now : Z) (st : Store) : nat * Store :=
  sweep now (map_to_list (sessions st)) st.

End SessionSweep.

Module SessionUtils.
Import DuplicateChecker SessionStore.

Inductive FileKey := key_file1 | key_file2.

(** [{ ...files, [fileKey]: fileData }] *)
Definition setFile (fileKey : FileKey) (fileData : FileData) (files : Files) : Files :=
  match fileKey with
  | key_file1 => {| file1 := Some fileData; file2 := file2 files |}
  | key_file2 => {| file1 := file1 files; file2 := Some fileData |}
  end.

(** The updates object of [addFileToSession]: only [files] is there. *)
Definition filesUpdate (files : Files) : PartialSession :=
  {| p_id := None; p_files := Some files; p_columnMapping := None;
     p_mergeOptions := None; p_results := None; p_createdAt := None;
     p_lastActivity := None |}.

(** [addFileToSession]: [t1] is the clock [getSession] reads, [t2] the one
    [updateSession] reads. *)
Definition addFileToSession (sessionId : string) (fileKey : FileKey)
    (fileData : FileData) (t1 t2 : Z) (st : Store) : bool * Store :=
  match getSession sessionId t1 st with
  | (None, st) => (false, st)
  | (Some session, st) =>
      let updates := filesUpdate (setFile fileKey fileData (s_files session)) in
      updateSession sessionId updates t2 st
  end.

(** [!!(session?.files.file1 && session?.files.file2)] *)
Definition hasBothFiles (sessionId : string) (now : Z) (st : Store) : bool * Store :=
  match getSession sessionId now st with
  | (None, st) => (false, st)
  | (Some session, st) =>
      (match file1 (s_files session), file2 (s_files session) with
       | Some _, Some _ => true
       | _, _ => false
       end, st)
  end.

(** [getRemainingTime]: [t1] is the clock [getSession] reads, [t2] the
    [new Date()] after it.  The result is a whole number of minutes. *)
Definition getRemainingTime (sessionId : string) (t1 t2 : Z) (st : Store) : Z * Store :=
  match getSession sessionId t1 st with
  | (None, st) => (0, st)
  | (Some session, st) =>
      let SESSION_TIMEOUT := 15 * 60 * 1000 in
      let timeSinceLastActivity := t2 - s_lastActivity session in
      let remainingMs := SESSION_TIMEOUT - timeSinceLastActivity in
      (Z.max 0 (remainingMs / (60 * 1000)), st)
  end.

Definition needsExpirationWarning (sessionId : string) (t1 t2 : Z) (st : Store)
    : bool * Store :=
  let '(remainingMinutes, st) := getRemainingTime sessionId t1 t2 st in
  ((remainingMinutes <=? 5) && (0 <? remainingMinutes), st).

Record SessionCheck := { sc_valid : bool; sc_error : option string }.

Definition validateSession (sessionId : string) (now : Z) (st : Store)
    : SessionCheck * Store :=
  if String.eqb sessionId "" then
    ({| sc_valid := false; sc_error := Some "Session ID is required" |}, st)
  else
    match getSession sessionId now st with
    | (None, st) =>
        ({| sc_valid := false; sc_error := Some "Session not found or expired" |}, st)
    | (Some _, st) => ({| sc_valid := true; sc_error := None |}, st)
    end.

End SessionUtils.

Module InputSpecs.
Import DuplicateChecker.

(** What [validateProcessingInputs] asks of its four arguments. *)
Definition namesColumn (file1 file2 : FileData) (op : MergeOperation) : Prop :=
  column op <> ""%string /\ In (column op) (fd_columns file1 ++ fd_columns file2).

Definition acceptable (file1 file2 : FileData) (columnMapping : ColumnMapping)
    (mergeOptions : MergeOptions) : Prop :=
  fd_data file1 <> [] /\
  fd_data file2 <> [] /\
  file1Column columnMapping <> ""%string /\
  file2Column columnMapping <> ""%string /\
  In (file1Column columnMapping) (fd_columns file1) /\
  In (file2Column columnMapping) (fd_columns file2) /\
  operations mergeOptions <> [] /\
  (forall op, In op (operations mergeOptions) -> operation op <> ""%string) /\
  (hasMergeAll mergeOptions = true \/
   forall op, In op (operations mergeOptions) -> namesColumn file1 file2 op).

End InputSpecs.

Module SweepSpecs.
Import DuplicateChecker SessionStore.

(** A session that the sweep deletes at time [now]. *)
Definition stale (now : Z) (session : UserSession) : bool :=
  SESSION_TIMEOUT <? now - s_lastActivity session.

End SweepSpecs.

Module SessionSpecs.
Import DuplicateChecker SessionStore SessionUtils.

(** The session after [addFileToSession] has stored a file. *)
Definition withFile (sessionId : string) (fileKey : FileKey) (fileData : FileData)
    (t : Z) (session : UserSession) : UserSession :=
  {| s_id := sessionId;
     s_files := setFile fileKey fileData (s_files session);
     s_columnMapping := s_columnMapping session;
     s_mergeOptions := s_mergeOptions session;
     s_results := s_results session;
     s_createdAt := s_createdAt session;
     s_lastActivity := t |}.

End SessionSpecs.

Module SessionSamples.
Import DuplicateChecker SessionStore Samples.

(** Session "a" created at 0 and session "b" created ten minutes later. *)
Definition twoSessions : Store :=
  snd (createSession "b" 600000 (snd (createSession "a" 0 emptyStore))).

(** Session "s" created at 0. *)
Definition oneSession : Store := snd (createSession "s" 0 emptyStore).

Definition newSession : UserSession := fst (createSession "s" 0 emptyStore).

End SessionSamples.

(* ===================================================================== *)
(** ** More string built-ins                                             *)
(* ===================================================================== *)

Module JsText.
Import Js.

(** [\w]: a letter of A-Z or a-z, a digit, or the underscore. *)
Definition isWordChar (c : ascii) : bool :=
  let n := code c in
  ((65 <=? n) && (n <=? 90)) || ((97 <=? n) && (n <=? 122))
  || ((48 <=? n) && (n <=? 57)) || (n =? 95).

(** [s.replace(/\s+/g, " ")]: every maximal run of white space becomes one
    space.  [inRun] tells that the code unit before was white space. *)
Fixpoint replaceWhiteSpaceRuns (inRun : bool) (s : string) : string :=
  match s with
  | String c s' =>
      if isWhiteSpace c
      then (if inRun then replaceWhiteSpaceRuns true s'
            else String " " (replaceWhiteSpaceRuns true s'))
      else String c (replaceWhiteSpaceRuns false s')
  | EmptyString => EmptyString
  end.

(** [s.replace(/[class]/g, "")]: the code units of the class are dropped. *)
Fixpoint removeChars (class : ascii -> bool) (s : string) : string :=
  match s with
  | String c s' =>
      if class c then removeChars class s' else String c (removeChars class s')
  | EmptyString => EmptyString
  end.

(** [s.replace(/[class]/g, r)] for a replacement [r] of one code unit. *)
Fixpoint replaceChars (class : ascii -> bool) (r : ascii) (s : string) : string :=
  match s with
  | String c s' => String (if class c then r else c) (replaceChars class r s')
  | EmptyString => EmptyString
  end.

(** [s.slice(0, n)] *)
Fixpoint slice0 (n : nat) (s : string) : string :=
  match n, s with
  | S n', String c s' => String c (slice0 n' s')
  | _, _ => EmptyString
  end.





(** [s.includes(pattern)] *)
Fixpoint String_includes (s pattern : string) : bool :=
  String.prefix pattern s ||
  match s with
  | String _ s' => String_includes s' pattern
  | EmptyString => false
  end.

(** [items.join(separator)] for an array of strings. *)
Fixpoint join (separator : string) (items : list string) : string :=
  match items with
  | [] => ""
  | [item] => item
  | item :: rest => item +:+ separator +:+ join separator rest
  end.

(** [new Set(items)], as the list of its elements in insertion order. *)
Definition Set_add (set : list string) (item : string) : list string :=
  if existsb (String.eqb item) set then set else set ++ [item].

Definition Set_of (items : list string) : list string :=
  fold_left Set_add items [].

(** [items.sort()] on an array of strings: the default order compares code
    unit by code unit, a proper prefix coming first.  (The algorithm is the
    engine's; on strings the result does not depend on it.) *)
Fixpoint sort_insert (item : string) (sorted : list string) : list string :=
  match sorted with
  | [] => [item]
  | head :: rest =>
      match String.compare item head with
      | Gt => head :: sort_insert item rest
      | _ => item :: sorted
      end
  end.

Definition sort (items : list string) : list string :=
  fold_right sort_insert [] items.

End JsText.

(* ===================================================================== *)
(** ** src/lib/data-validator.ts                                         *)
(* ===================================================================== *)

Module DataValidator.
Import Js JsText DuplicateChecker ResultProcessor.

(** *** validateFileData *)

(** [validateFileData] tests at run time whether [data] and [columns] are
    there, so the model takes what may be in their place: an array, or
    nothing ([undefined] or [null]). *)
Record RawFileData := {
  raw_data : option (list Row);
  raw_columns : option (list string);
  raw_rowCount : Z
}.

(** A well-typed [FileData], as the file processor returns it. *)
Definition of_FileData (fileData : FileData) : RawFileData :=
  {| raw_data := Some (fd_data fileData);
     raw_columns := Some (fd_columns fileData);
     raw_rowCount := fd_rowCount fileData |}.

(** [!a || a.length === 0] *)
Definition missingOrEmpty {A : Type} (a : option (list A)) : bool :=
  match a with
  | None => true
  | Some items => Nat.eqb (length items) 0
  end.

(** [`Row ${i + 1} is completely empty`] *)
Definition emptyRowMessage (i : nat) : string :=
  "Row " +:+ digits_of (Z.of_nat i + 1) +:+ " is completely empty".

(** [`Row ${i + 1} contains unexpected columns: ${unexpectedColumns.join(", ")}`] *)
Definition unexpectedColumnsMessage (i : nat) (unexpectedColumns : list string) : string :=
  "Row " +:+ digits_of (Z.of_nat i + 1) +:+ " contains unexpected columns: "
  +:+ join ", " unexpectedColumns.

(** The [for] loop over the sampled rows, [rows] being the rows from index
    [i] on. *)
Fixpoint checkRows (columns : list string) (rows : list Row) (i : nat)
    (errors : list string) : list string :=
  match rows with
  | [] => errors
  | row :: rest =>
      let rowKeys := keys (row_fields row) in
      if Nat.eqb (length rowKeys) 0
      then checkRows columns rest (S i) (errors ++ [emptyRowMessage i])
      else
        let unexpectedColumns :=
          List.filter (fun key => negb (includes key columns)) rowKeys in
        let errors :=
          push_if (Nat.ltb 0 (length unexpectedColumns))
            (unexpectedColumnsMessage i unexpectedColumns) errors in
        checkRows columns rest (S i) errors
  end.

(** Reading [length] of a missing [columns] or [data] throws a TypeError. *)
Definition validateFileData (fileData : RawFileData) : completion :=
  let errors : list string := [] in
  let errors := push_if (missingOrEmpty (raw_data fileData))
                  "File contains no data rows" errors in
  let errors := push_if (missingOrEmpty (raw_columns fileData))
                  "File contains no column headers" errors in
  match raw_columns fileData with
  | None => TypeError
  | Some columns =>
      let errors := push_if (Nat.ltb (length columns) 1)
                      "File must have at least one column" errors in
      let uniqueColumns :=
        Set_of (map (fun col => trim (toLowerCase col)) columns) in
      let errors := push_if (negb (Nat.eqb (length uniqueColumns) (length columns)))
                      "File contains duplicate column names" errors in
      let emptyColumns :=
        List.filter (fun col => String.eqb col "" || String.eqb (trim col) "") columns in
      let errors := push_if (Nat.ltb 0 (length emptyColumns))
                      "File contains empty column names" errors in
      match raw_data fileData with
      | None => TypeError
      | Some data =>
          let errors := push_if (negb (raw_rowCount fileData =? Z.of_nat (length data)))
                          "Row count mismatch in file data" errors in
          let errors := push_if (100000 <? Z.of_nat (length data))
                          "File contains too many rows (maximum 100,000 allowed)" errors in
          let errors :=
            if Nat.ltb 0 (length data) then
              let sampleSize := Nat.min 100 (length data) in
              checkRows columns (firstn sampleSize data) 0 errors
            else errors in
          finish errors
      end
  end.

(** *** sanitizeColumnName, sanitizeValue, sanitizeDataRow, sanitizeFileData *)

(** [[^\w\s.-]] *)
Definition isSpecialChar (c : ascii) : bool :=
  negb (isWordChar c || isWhiteSpace c || (code c =? 46) || (code c =? 45)).

Definition sanitizeColumnName (columnName : string) : string :=
  if String.eqb columnName "" then ""
  else
    slice0 100
      (removeChars isSpecialChar
         (replaceWhiteSpaceRuns false (trim columnName))).

(** [isFinite(x)] *)
Definition isFinite (x : number) : bool :=
  match x with
  | S754_nan | S754_infinity _ => false
  | _ => true
  end.

(** Of an object, [sanitizeValue] asks whether it is a [Date] and, if so,
    its time value ([NaN] for an invalid date): [dateTime ref] is that of
    the object at [ref], [None] when it is no [Date].  The text of any other
    object is the one its [VObject] carries, so [String(value)] does not
    throw here and the [catch] is not entered. *)
Definition sanitizeValue (dateTime : nat -> option number) (value : Value) : Value :=
  match value with
  | VUndefined | VNull => VNull
  | VString s =>
      let trimmed := trim s in
      if String.eqb trimmed "" then VNull else VString (slice0 1000 trimmed)
  | VNumber x => if isNaN x || negb (isFinite x) then VNull else value
  | VBoolean _ => value
  | VObject ref text =>
      match dateTime ref with
      | Some time => if isNaN time then VNull else value
      | None =>
          let stringValue := trim text in
          if String.eqb stringValue "" then VNull
          else VString (slice0 1000 stringValue)
      end
  end.

(** The new object is the one allocated at [ref]. *)
Definition sanitizeDataRow (dateTime : nat -> option number) (ref : nat)
    (row : Row) (validColumns : list string) : Row :=
  {| row_ref := ref;
     row_fields :=
       fold_left
         (fun sanitized column =>
            set_field column (sanitizeValue dateTime (get (row_fields row) column))
              sanitized)
         validColumns [] |}.

(** [data.map((row) => sanitizeDataRow(row, cleanedColumns))], the new rows
    allocated from [next] on. *)
Fixpoint sanitizeRows (dateTime : nat -> option number) (next : nat)
    (data : list Row) (cleanedColumns : list string) : list Row :=
  match data with
  | [] => []
  | row :: rest =>
      sanitizeDataRow dateTime next row cleanedColumns
      :: sanitizeRows dateTime (S next) rest cleanedColumns
  end.

Definition sanitizeFileData (dateTime : nat -> option number) (next : nat)
    (fileData : FileData) : FileData :=
  let cleanedColumns :=
    List.filter (fun col => negb (String.eqb col ""))
      (map sanitizeColumnName (fd_columns fileData)) in
  let cleanedData :=
    List.filter (fun row => Nat.ltb 0 (length (keys (row_fields row))))
      (sanitizeRows dateTime next (fd_data fileData) cleanedColumns) in
  {| fd_id := fd_id fileData;
     fd_name := fd_name fileData;
     fd_originalName := fd_originalName fileData;
     fd_data := cleanedData;
     fd_columns := cleanedColumns;
     fd_rowCount := Z.of_nat (length cleanedData);
     fd_type := fd_type fileData;
     fd_uploadedAt := fd_uploadedAt fileData |}.

End DataValidator.

Module DataValidatorSpecs.
Import Js JsText DuplicateChecker DataValidator.

(** The code units of a string. *)
Definition chars (s : string) : list ascii := list_ascii_of_string s.

(** [trimStart] on the list of code units. *)
Fixpoint dropWhiteSpace (l : list ascii) : list ascii :=
  match l with
  | c :: l' => if isWhiteSpace c then dropWhiteSpace l' else l
  | [] => []
  end.

(** A row whose keys are some of the columns, and which has a key. *)
Definition rowFits (columns : list string) (row : Row) : Prop :=
  keys (row_fields row) <> [] /\
  forall key, In key (keys (row_fields row)) -> In key columns.

(** What [validateFileData] asks of a file. *)
Definition wellFormed (columns : list string) (data : list Row) (rowCount : Z) : Prop :=
  data <> [] /\
  columns <> [] /\
  List.NoDup (map (fun col => trim (toLowerCase col)) columns) /\
  (forall col, In col columns -> trim col <> ""%string) /\
  rowCount = Z.of_nat (length data) /\
  Z.of_nat (length data) <= 100000 /\
  forall row, In row (firstn 100 data) -> rowFits columns row.

(** A character that [sanitizeColumnName] lets through. *)
Definition nameChar (c : ascii) : Prop :=
  isWordChar c = true \/ c = " "%char \/ c = "."%char \/ c = "-"%char.

(** A cell as [sanitizeValue] leaves it: null, a boolean, a finite number, a
    valid date, or a text of 1 to 1000 code units that does not begin with
    white space. *)
Definition cleanCell (dateTime : nat -> option number) (value : Value) : Prop :=
  match value with
  | VUndefined => False
  | VNull => True
  | VBoolean _ => True
  | VNumber x => isNaN x = false /\ isFinite x = true
  | VString s =>
      (1 <= String.length s <= 1000)%nat /\
      exists c rest, s = String c rest /\ isWhiteSpace c = false
  | VObject ref _ => exists time, dateTime ref = Some time /\ isNaN time = false
  end.

(** One turn of the loop of [sanitizeDataRow], [g column] being the cell
    written under [column]. *)
Definition setColumn (g : string -> Value) (sanitized : Fields) (column : string)
    : Fields :=
  set_field column (g column) sanitized.

End DataValidatorSpecs.

Module DataSamples.
Import Js DuplicateChecker DataValidator Samples.

(** A hundred rows that fit the header [["key"]], then one more row. *)
Definition hundredRows : list Row :=
  map (fun ref => row ref [("key"%string, VString "X")]) (seq 0 100).

Definition fittingRow : Row := row 100 [("key"%string, VString "Y")].

Definition strayRow : Row :=
  row 100 [("key"%string, VString "Y"); ("stray"%string, VString "Z")].

Definition rawFile (rows : list Row) : RawFileData :=
  {| raw_data := Some rows; raw_columns := Some ["key"%string];
     raw_rowCount := Z.of_nat (length rows) |}.

(** No object is a [Date]. *)
Definition noDates : nat -> option number := fun _ => None.

(** A file whose second header, "Price ($)", changes under
    [sanitizeColumnName]. *)
Definition priced : FileData :=
  file "p.csv"
    [row 0 [("Item"%string, VString " pen "); ("Price ($)"%string, VNumber (of_Z 3))];
     row 1 [("Item"%string, VString "ink"); ("Price ($)"%string, VNumber (of_Z 7))]]
    ["Item"%string; "Price ($)"%string].

End DataSamples.

(* ===================================================================== *)
(** ** src/lib/file-processor.ts                                         *)
(* ===================================================================== *)

Module FileProcessor.
Import Js JsText DuplicateChecker.

(** *** cleanDataRow *)

(** What the three branches of the loop body store under the cleaned key. *)
Definition cleanValue (value : Value) : Value :=
  match value with
  | VString s => VString (trim s)
  | _ =>
      if strict_eq value (VString "") || strict_eq value VNull
         || strict_eq value VUndefined
      then VNull
      else value
  end.

(** One turn of the loop over [Object.entries(row)]. *)
Definition cleanEntry (cleaned : Fields) (entry : string * Value) : Fields :=
  let '(key, value) := entry in
  let cleanKey := trim key in
  if String.eqb cleanKey "" then cleaned
  else set_field cleanKey (cleanValue value) cleaned.

(** The new object is the one allocated at [ref]. *)
Definition cleanDataRow (ref : nat) (row : Row) : Row :=
  {| row_ref := ref; row_fields := fold_left cleanEntry (row_fields row) [] |}.

(** *** generateFileName *)

(** [[a-zA-Z0-9.-]] *)
Definition isFileNameChar (c : ascii) : bool :=
  let n := code c in
  ((97 <=? n) && (n <=? 122)) || ((65 <=? n) && (n <=? 90))
  || ((48 <=? n) && (n <=? 57)) || (n =? 46) || (n =? 45).

(** [s.replace(/_{2,}/g, "_")]: every run of underscores becomes one.
    [inRun] tells that the code unit before was an underscore. *)
Fixpoint collapseUnderscores (inRun : bool) (s : string) : string :=
  match s with
  | String c s' =>
      if code c =? 95
      then (if inRun then collapseUnderscores true s'
            else String c (collapseUnderscores true s'))
      else String c (collapseUnderscores false s')
  | EmptyString => EmptyString
  end.

Definition safeName (originalName : string) : string :=
  toLowerCase
    (collapseUnderscores false
       (replaceChars (fun c => negb (isFileNameChar c)) "_" originalName)).

(** [timestamp] is what [Date.now()] returns, a whole number that is not
    negative; its text is its decimal digits. *)
Definition generateFileName (timestamp : Z) (originalName : string) : string :=
  digits_of timestamp +:+ "_" +:+ safeName originalName.

(** *** validateFile, detectFileType *)








End FileProcessor.

Module FileProcessorSpecs.
Import Js JsText DuplicateChecker FileProcessor DataValidatorSpecs.


(** A code unit of a generated file name: a letter of a-z, a digit, a dot,
    a dash or an underscore. *)
Definition generatedChar (c : ascii) : Prop :=
  let n := code c in
  97 <= n <= 122 \/ 48 <= n <= 57 \/ n = 46 \/ n = 45 \/ n = 95.

(** A cell as [cleanDataRow] stores it: never [undefined], and a text only
    with no white space at either end. *)
Definition tidyCell (value : Value) : Prop :=
  match value with
  | VUndefined => False
  | VString s => trim s = s
  | _ => True
  end.


End FileProcessorSpecs.

(* ===================================================================== *)
(** ** src/lib/result-processor.ts: columns, search and export           *)
(* ===================================================================== *)

Module ResultViews.
Import Js JsText DuplicateChecker.

(** *** getResultsColumns *)

Definition getResultsColumns (results : ProcessedData) : list string :=
  let rows :=
    duplicates results ++ uniqueInFile1 results ++ uniqueInFile2 results
    ++ merged results in
  let allColumns := Set_of (flat_map (fun row => keys (row_fields row)) rows) in
  sort allColumns.

(** *** filterResults *)

(** The test of one row: some searched column holds a value that is
    neither null nor [undefined] and whose text, in lower case, includes
    the term. *)
Definition rowMatches (term : string) (searchColumns : list string) (row : Row) : bool :=
  existsb
    (fun column =>
       let value := get (row_fields row) column in
       if isNullish value then false
       else String_includes (toLowerCase (String_ value)) term)
    searchColumns.

(** [columns] is [None] when the argument is left out. *)
Definition filterResults (data : list Row) (searchTerm : string)
    (columns : option (list string)) : list Row :=
  if String.eqb (trim searchTerm) "" then data
  else
    let term := trim (toLowerCase searchTerm) in
    let searchColumns :=
      match columns with
      | Some columns => columns
      | None =>
          match data with
          | first :: _ => keys (row_fields first)
          | [] => []
          end
      end in
    List.filter (rowMatches term searchColumns) data.

(** *** getExportData *)

(** [{ ...row, _record_type: tag }], as the object allocated at [ref]. *)
Definition tagged (tag : string) (ref : nat) (row : Row) : Row :=
  {| row_ref := ref;
     row_fields := set_field "_record_type" (VString tag) (row_fields row) |}.

(** [rows.map((row) => ({ ...row, _record_type: tag }))], the new objects
    allocated from [next] on. *)
Fixpoint tagAll (tag : string) (next : nat) (rows : list Row) : list Row :=
  match rows with
  | [] => []
  | row :: rest => tagged tag next row :: tagAll tag (S next) rest
  end.

Record ExportData := { export_data : list Row; export_fileName : string }.

(** [isoNow] is what [new Date().toISOString()] returns and [next] the next
    free object reference; [exportType] is a string at run time, and the
    [default] case throws. *)
Definition getExportData (isoNow : string) (next : nat) (results : ProcessedData)
    (exportType : string) : outcome ExportData :=
  let timestamp :=
    replaceChars (fun c => code c =? 58) "-" (slice0 19 isoNow) in
  if String.eqb exportType "duplicates" then
    Returns {| export_data := duplicates results;
               export_fileName := "duplicates_" +:+ timestamp |}
  else if String.eqb exportType "unique_file1" then
    Returns {| export_data := uniqueInFile1 results;
               export_fileName := "unique_file1_" +:+ timestamp |}
  else if String.eqb exportType "unique_file2" then
    Returns {| export_data := uniqueInFile2 results;
               export_fileName := "unique_file2_" +:+ timestamp |}
  else if String.eqb exportType "merged" then
    Returns {| export_data := merged results;
               export_fileName := "merged_" +:+ timestamp |}
  else if String.eqb exportType "all" then
    let n1 := length (duplicates results) in
    let n2 := length (uniqueInFile1 results) in
    let n3 := length (uniqueInFile2 results) in
    let allData :=
      tagAll "duplicate" next (duplicates results)
      ++ tagAll "unique_file1" (next + n1) (uniqueInFile1 results)
      ++ tagAll "unique_file2" (next + n1 + n2) (uniqueInFile2 results)
      ++ tagAll "merged" (next + n1 + n2 + n3) (merged results) in
    Returns {| export_data := allData;
               export_fileName := "complete_results_" +:+ timestamp |}
  else Throws ("Invalid export type: " +:+ exportType).

End ResultViews.

(* ===================================================================== *)
(** ** src/lib/export.ts: sanitizeString                                 *)
(* ===================================================================== *)

Module ExportLib.
Import Js JsText.





End ExportLib.

Module ViewSpecs.
Import Js JsText DuplicateChecker ResultViews ExportLib DataValidatorSpecs.

(** [a] comes before [b] in the order of [sort]. *)
Definition before (a b : string) : Prop := String.compare a b = Lt.

(** All the rows of a result. *)
Definition rowsOf (results : ProcessedData) : list Row :=
  duplicates results ++ uniqueInFile1 results ++ uniqueInFile2 results
  ++ merged results.


End ViewSpecs.

Module ExportSpecs.
Import Js JsText DuplicateChecker ResultViews.

(** [row'] is [row] with its [_record_type] set to [tag]: every other
    column reads as in [row]. *)
Definition taggedAs (tag : string) (row row' : Row) : Prop :=
  get (row_fields row') "_record_type" = VString tag /\
  forall column, column <> "_record_type"%string ->
    get (row_fields row') column = get (row_fields row) column.

End ExportSpecs.

(* ===================================================================== *)
(** ** src/app/api/process/route.ts: POST                                *)
(* ===================================================================== *)

Module ProcessRoute.
Import Js JsText DuplicateChecker ResultProcessor SessionStore.









End ProcessRoute.

Module RouteSamples.
Import Js DuplicateChecker SessionStore SessionUtils ProcessRoute Samples SessionSamples.




End RouteSamples.

(* ===================================================================== *)
(** ** src/lib/data-validator.ts: getDataTypeStats                       *)
(* ===================================================================== *)

Module DataTypeStats.
Import Js JsText DuplicateChecker.








End DataTypeStats.

(* ===================================================================== *)
(** ** Facts about the numbers                                           *)
(* ===================================================================== *)

Module JsFacts.
Import Js.

Lemma add_comm (x y : number) : add x y = add y x.
Proof.
  unfold add.
  destruct x as [sx|sx| |sx mx ex], y as [sy|sy| |sy my ey];
    try reflexivity; try (destruct sx, sy; reflexivity).
  unfold SFadd. rewrite (Z.min_comm ey ex).
  f_equal. apply Z.add_comm.
Qed.

Lemma SFcompare_antisym (x y : number) :
  SFcompare y x = option_map CompOpp (SFcompare x y).
Proof.
  destruct x as [sx|sx| |sx mx ex], y as [sy|sy| |sy my ey];
    try reflexivity; try (destruct sx, sy; reflexivity);
    try (destruct sx; reflexivity); try (destruct sy; reflexivity).
  unfold SFcompare.
  rewrite (Z.compare_antisym ex ey).
  pose proof (Pos.compare_cont_antisym mx my Eq) as Hm. cbn [CompOpp] in Hm.
  destruct sx, sy; cbn [option_map]; try reflexivity;
    destruct (ex ?= ey); cbn [CompOpp]; try reflexivity.
  - now rewrite CompOpp_involutive, <- Hm, CompOpp_involutive.
  - now rewrite Hm.
Qed.

Lemma SFcompare_Eq (x y : number) :
  SFcompare x y = Some Eq -> x = y \/ (is_zero x = true /\ is_zero y = true).
Proof.
  destruct x as [sx|sx| |sx mx ex], y as [sy|sy| |sy my ey]; cbn;
    try discriminate; try (destruct sx; discriminate);
    try (destruct sy; discriminate).
  - auto.
  - destruct sx, sy; try discriminate; auto.
  - destruct sx, sy; try discriminate; intros H; left;
      destruct (ex ?= ey) eqn:He; try discriminate;
      apply Z.compare_eq in He; subst;
      injection H as H.
    + apply (f_equal CompOpp) in H. rewrite CompOpp_involutive in H. cbn in H.
      apply (Pos.compare_eq mx my) in H. now subst.
    + apply (Pos.compare_eq mx my) in H. now subst.
Qed.

Lemma Math_min_comm (x y : number) : Math_min x y = Math_min y x.
Proof.
  unfold Math_min. rewrite (SFcompare_antisym x y).
  destruct (SFcompare x y) as [[| |]|] eqn:Hc; cbn; try reflexivity.
  apply SFcompare_Eq in Hc as [->|[Hx Hy]].
  - destruct y as [[|]| | |]; reflexivity.
  - destruct x as [[|]| | |], y as [[|]| | |]; try discriminate; reflexivity.
Qed.

Lemma Math_max_comm (x y : number) : Math_max x y = Math_max y x.
Proof.
  unfold Math_max. rewrite (SFcompare_antisym x y).
  destruct (SFcompare x y) as [[| |]|] eqn:Hc; cbn; try reflexivity.
  apply SFcompare_Eq in Hc as [->|[Hx Hy]].
  - destruct y as [[|]| | |]; reflexivity.
  - destruct x as [[|]| | |], y as [[|]| | |]; try discriminate; reflexivity.
Qed.

End JsFacts.

(* ===================================================================== *)
(** ** applyMergeOperation                                               *)
(* ===================================================================== *)

Module MergeOperationFacts.
Import Js DuplicateChecker Specs.

Lemma performNumericOperation_comm (a b : Value) (f : number -> number -> number) :
  (forall x y, f x y = f y x) ->
  numeric a = true -> numeric b = true ->
  performNumericOperation a b f = performNumericOperation b a f.
Proof.
  intros Hf Ha Hb. unfold numeric in Ha, Hb.
  apply andb_true_iff in Ha as [_ Ha], Hb as [_ Hb].
  apply negb_true_iff in Ha, Hb.
  unfold performNumericOperation. rewrite Ha, Hb. cbn [orb].
  now rewrite Hf.
Qed.

(** C5.  Null handling comes before the operator table, for every
    operator: with [a] null or absent the result is [b], unless the
    operator is TAKE_OLD (then [a]); otherwise, with [b] null or absent, the
    result is [a], unless the operator is TAKE_NEW (then [b]). *)
Theorem null_handling_precedence (a b : Value) (op : string) :
  (isNullish a = true ->
   applyMergeOperation a b op = if String.eqb op "TAKE_OLD" then a else b) /\
  (isNullish a = false -> isNullish b = true ->
   applyMergeOperation a b op = if String.eqb op "TAKE_NEW" then b else a).
Proof.
  unfold applyMergeOperation. split.
  - intros ->. reflexivity.
  - intros -> ->. reflexivity.
Qed.

Lemma null_handling_precedence_witness :
  applyMergeOperation VNull (VString "7") "SUM" = VString "7" /\
  applyMergeOperation (VString "7") VUndefined "CONCATENATE" = VString "7".
Proof.
  split.
  - exact (proj1 (null_handling_precedence VNull (VString "7") "SUM") eq_refl).
  - exact (proj2 (null_handling_precedence (VString "7") VUndefined "CONCATENATE")
             eq_refl eq_refl).
Defined.

(** C6, as the code has it.  TAKE_NEW returns the new value and TAKE_OLD
    the old one whether or not it is null: with a null new value TAKE_NEW
    gives null, and with a null old value TAKE_OLD gives null. *)
Theorem take_new_take_old (a b : Value) :
  applyMergeOperation a b "TAKE_NEW" = b /\
  applyMergeOperation a b "TAKE_OLD" = a.
Proof.
  unfold applyMergeOperation.
  destruct (isNullish a) eqn:Ha, (isNullish b) eqn:Hb; split; reflexivity.
Qed.

(** C6 as stated fails: both results are null, not 5. *)
Lemma take_new_null_is_null :
  applyMergeOperation (VNumber (of_Z 5)) VNull "TAKE_NEW" = VNull /\
  applyMergeOperation VNull (VNumber (of_Z 5)) "TAKE_OLD" = VNull /\
  VNull <> VNumber (of_Z 5).
Proof. repeat split. discriminate. Qed.


(** C7, as the code has it.  SUM, AVG, MIN and MAX give the same result in
    both orders when both values are numbers to the code (not null, and
    parsed by [parseFloat]), and when exactly one is null the other one is
    the result in both orders; SUBTRACT and DIVIDE depend on the order. *)
Theorem numeric_operators_commute :
  (forall (a b : Value) (op : string),
     In op ["SUM"; "AVG"; "MIN"; "MAX"]%string ->
     numeric a = true -> numeric b = true ->
     applyMergeOperation a b op = applyMergeOperation b a op) /\
  (forall (a b : Value) (op : string),
     In op ["SUM"; "AVG"; "MIN"; "MAX"]%string ->
     isNullish a = true -> isNullish b = false ->
     applyMergeOperation a b op = b /\ applyMergeOperation b a op = b) /\
  (exists a b, applyMergeOperation a b "SUBTRACT" <> applyMergeOperation b a "SUBTRACT") /\
  (exists a b, applyMergeOperation a b "DIVIDE" <> applyMergeOperation b a "DIVIDE").
Proof.
  split; [|split; [|split]].
  - intros a b op Hop Ha Hb.
    assert (Hna : isNullish a = false).
    { unfold numeric in Ha. apply andb_true_iff in Ha as [Ha _].
      now apply negb_true_iff in Ha. }
    assert (Hnb : isNullish b = false).
    { unfold numeric in Hb. apply andb_true_iff in Hb as [Hb _].
      now apply negb_true_iff in Hb. }
    unfold applyMergeOperation. rewrite Hna, Hnb.
    cbn [In] in Hop.
    destruct Hop as [<-|[<-|[<-|[<-|[]]]]]; cbn [String.eqb Ascii.eqb Bool.eqb];
      apply performNumericOperation_comm; try assumption; intros x y.
    + apply JsFacts.add_comm.
    + now rewrite JsFacts.add_comm.
    + apply JsFacts.Math_min_comm.
    + apply JsFacts.Math_max_comm.
  - intros a b op Hop Ha Hb. unfold applyMergeOperation. rewrite Ha, Hb.
    cbn [In] in Hop.
    destruct Hop as [<-|[<-|[<-|[<-|[]]]]]; split; reflexivity.
  - exists (VString "5"), (VString "3"). vm_compute. discriminate.
  - exists (VString "6"), (VString "3"). vm_compute. discriminate.
Qed.

Lemma numeric_operators_commute_witness :
  applyMergeOperation (VString "1.5") (VNumber (of_Z 2)) "AVG"
  = applyMergeOperation (VNumber (of_Z 2)) (VString "1.5") "AVG".
Proof.
  apply (proj1 numeric_operators_commute).
  - cbn. auto.
  - vm_compute. reflexivity.
  - vm_compute. reflexivity.
Defined.

(** C7 as stated fails: a value that is no number makes a numeric operator
    return its first operand, so the order shows. *)
Lemma sum_first_operand_fallback :
  applyMergeOperation (VString "abc") (VString "5") "SUM" = VString "abc" /\
  applyMergeOperation (VString "5") (VString "abc") "SUM" = VString "5" /\
  VString "abc" <> VString "5".
Proof. repeat split. discriminate. Qed.

End MergeOperationFacts.

(* ===================================================================== *)
(** ** findDuplicatesAndUnique                                           *)
(* ===================================================================== *)

Module MatchingFacts.
Import Js DuplicateChecker Specs.

Section Matching.
Variable columnMapping : ColumnMapping.

(** The inner loop stops at the first row that matches. *)
Lemma scanFile2_Some (recordA : Row) (rows : list Row) (i j : nat) (recordB : Row) :
  scanFile2 (getColumnValue recordA (file1Column columnMapping))
            (file2Column columnMapping) rows i = Some (j, recordB) ->
  exists before after,
    rows = before ++ recordB :: after /\ j = (i + length before)%nat /\
    Forall (fun r => keysMatch columnMapping recordA r = false) before /\
    keysMatch columnMapping recordA recordB = true.
Proof.
  revert i. induction rows as [|r rows IH]; intros i H; cbn in H; [discriminate|].
  destruct (isValueMatch _ _) eqn:Hm.
  - injection H as <- <-. exists [], rows. repeat split; auto; cbn; lia.
  - apply IH in H as (before & after & -> & -> & Hb & Hr).
    exists (r :: before), after. repeat split; auto; cbn; lia.
Qed.

Lemma scanFile2_None (recordA : Row) (rows : list Row) (i : nat) :
  scanFile2 (getColumnValue recordA (file1Column columnMapping))
            (file2Column columnMapping) rows i = None ->
  Forall (fun r => keysMatch columnMapping recordA r = false) rows.
Proof.
  revert i. induction rows as [|r rows IH]; intros i H; cbn in H; [constructor|].
  destruct (isValueMatch _ _) eqn:Hm; [discriminate|].
  constructor; eauto.
Qed.

(** The loop over the rows of file 1, from any state of the three arrays:
    what it adds is a greedy matching against the working copy. *)
Lemma fold_matchRecord (rowsA : list Row) (st : Matching) :
  exists m,
    Greedy columnMapping rowsA (m_uniqueInFile2 st) m /\
    fold_left (matchRecord columnMapping) rowsA st =
    {| m_duplicates := m_duplicates st ++ m_duplicates m;
       m_uniqueInFile1 := m_uniqueInFile1 st ++ m_uniqueInFile1 m;
       m_uniqueInFile2 := m_uniqueInFile2 m |}.
Proof.
  revert st. induction rowsA as [|a rowsA IH]; intros st.
  - eexists. split; [constructor|]. cbn. rewrite !app_nil_r. now destruct st.
  - cbn [fold_left]. unfold matchRecord at 2.
    destruct (scanFile2 _ _ _ _) as [[j b]|] eqn:Hscan.
    + apply scanFile2_Some in Hscan as (before & after & Hw & -> & Hb & Hm).
      rewrite Hw, Nat.add_0_l, delete_middle.
      edestruct IH as (m & Hg & ->). cbn in Hg |- *.
      eexists. split; [eapply Greedy_pair; eauto|].
      cbn. now rewrite <- app_assoc.
    + apply scanFile2_None in Hscan.
      edestruct IH as (m & Hg & ->). cbn in Hg |- *.
      eexists. split; [eapply Greedy_unique; eauto|].
      cbn. now rewrite <- app_assoc.
Qed.

Lemma findDuplicatesAndUnique_Greedy (file1 file2 : FileData) :
  Greedy columnMapping (fd_data file1) (fd_data file2)
    (findDuplicatesAndUnique file1 file2 columnMapping).
Proof.
  unfold findDuplicatesAndUnique.
  edestruct fold_matchRecord as (m & Hg & ->). cbn in Hg |- *.
  now destruct m.
Qed.

(** What a greedy matching is made of. *)
Lemma Greedy_lengths (rowsA working : list Row) (m : Matching) :
  Greedy columnMapping rowsA working m ->
  (length (m_duplicates m) + length (m_uniqueInFile1 m) = length rowsA)%nat /\
  (length (m_duplicates m) + length (m_uniqueInFile2 m) = length working)%nat.
Proof.
  induction 1 as [w|a rest before b after m Hb Hm Hg [IH1 IH2]|a rest w m Hw Hg [IH1 IH2]];
    cbn; rewrite ?length_app in *; cbn; lia.
Qed.

Lemma Greedy_pairs_match (rowsA working : list Row) (m : Matching) :
  Greedy columnMapping rowsA working m ->
  Forall (fun d => keysMatch columnMapping (file1Record d) (file2Record d) = true)
         (m_duplicates m).
Proof. induction 1; cbn; auto. Qed.

(** One-to-one: the rows of B that were paired, with the rows left over, are
    the rows of B, each once; the rows left over keep their order. *)
Lemma Greedy_file2 (rowsA working : list Row) (m : Matching) :
  Greedy columnMapping rowsA working m ->
  Permutation (map file2Record (m_duplicates m) ++ m_uniqueInFile2 m) working /\
  sublist (m_uniqueInFile2 m) working.
Proof.
  induction 1 as [w|a rest before b after m Hb Hm Hg [IH1 IH2]|a rest w m Hw Hg [IH1 IH2]];
    cbn; auto.
  split.
  - rewrite IH1. now rewrite Permutation_middle.
  - etrans; [exact IH2|]. apply sublist_app; [done|]. now apply sublist_cons.
Qed.

Lemma Greedy_file1 (rowsA working : list Row) (m : Matching) :
  Greedy columnMapping rowsA working m ->
  Permutation (map file1Record (m_duplicates m) ++ m_uniqueInFile1 m) rowsA /\
  sublist (map file1Record (m_duplicates m)) rowsA /\
  sublist (m_uniqueInFile1 m) rowsA.
Proof.
  induction 1 as [w|a rest before b after m Hb Hm Hg (IH1 & IH2 & IH3)
                 |a rest w m Hw Hg (IH1 & IH2 & IH3)]; cbn.
  - repeat split; constructor.
  - repeat split; [now rewrite IH1|now apply sublist_skip|now apply sublist_cons].
  - repeat split; [|now apply sublist_cons|now apply sublist_skip].
    now rewrite <- Permutation_middle, IH1.
Qed.

(** A row that is unique to A matches no row that is left in B. *)
Lemma Greedy_unique_unmatched (rowsA working : list Row) (m : Matching) :
  Greedy columnMapping rowsA working m ->
  Forall (fun a => Forall (fun b => keysMatch columnMapping a b = false)
                          (m_uniqueInFile2 m))
         (m_uniqueInFile1 m).
Proof.
  induction 1 as [w|a rest before b after m Hb Hm Hg IH|a rest w m Hw Hg IH];
    cbn; auto.
  constructor; [|exact IH].
  apply Greedy_file2 in Hg as [_ Hsub].
  rewrite Forall_forall in Hw |- *. intros r Hr. apply Hw.
  eapply elem_of_sublist; eauto.
Qed.

End Matching.

(** What [processDuplicates] returns counts every row of each file once. *)
Lemma processDuplicates_counts (next : nat) (now : Z) (file1 file2 : FileData)
    (columnMapping : ColumnMapping) (mergeOptions : MergeOptions)
    (result : ProcessedData) :
  processDuplicates next now file1 file2 columnMapping mergeOptions = Returns result ->
  (length (duplicates result) + length (uniqueInFile1 result)
   = length (fd_data file1))%nat /\
  (length (duplicates result) + length (uniqueInFile2 result)
   = length (fd_data file2))%nat /\
  duplicateCount (stats result) + uniqueFile1Count (stats result)
  = totalFile1 (stats result) /\
  duplicateCount (stats result) + uniqueFile2Count (stats result)
  = totalFile2 (stats result).
Proof.
  intros Hrun.
  destruct (Greedy_lengths columnMapping _ _ _
              (findDuplicatesAndUnique_Greedy columnMapping file1 file2)) as [H1 H2].
  unfold processDuplicates, processDuplicates_body in Hrun.
  destruct (validateProcessingInputs _ _ _ _); cbn in Hrun; [|discriminate].
  injection Hrun as <-. cbn. rewrite length_map. lia.
Qed.

(** C3.  The match output counts every row of each file once: the pairs
    and the rows unique to file 1 are as many as the rows of file 1, the pairs
    and the rows unique to file 2 as many as the rows of file 2; so for the
    statistics computed over them, and for those [processDuplicates] returns. *)
Theorem match_counts_partition (file1 file2 : FileData) (columnMapping : ColumnMapping) :
  let found := findDuplicatesAndUnique file1 file2 columnMapping in
  (length (m_duplicates found) + length (m_uniqueInFile1 found)
   = length (fd_data file1))%nat /\
  (length (m_duplicates found) + length (m_uniqueInFile2 found)
   = length (fd_data file2))%nat /\
  (forall merged : list Row,
     let stats := calculateStatistics file1 file2 (m_duplicates found)
                    (m_uniqueInFile1 found) (m_uniqueInFile2 found) merged in
     duplicateCount stats + uniqueFile1Count stats = totalFile1 stats /\
     duplicateCount stats + uniqueFile2Count stats = totalFile2 stats) /\
  (forall (next : nat) (now : Z) (mergeOptions : MergeOptions) (result : ProcessedData),
     processDuplicates next now file1 file2 columnMapping mergeOptions = Returns result ->
     (length (duplicates result) + length (uniqueInFile1 result)
      = length (fd_data file1))%nat /\
     (length (duplicates result) + length (uniqueInFile2 result)
      = length (fd_data file2))%nat /\
     duplicateCount (stats result) + uniqueFile1Count (stats result)
     = totalFile1 (stats result) /\
     duplicateCount (stats result) + uniqueFile2Count (stats result)
     = totalFile2 (stats result)).
Proof.
  intros found.
  destruct (Greedy_lengths columnMapping _ _ _
              (findDuplicatesAndUnique_Greedy columnMapping file1 file2)) as [H1 H2].
  fold found in H1, H2.
  split; [exact H1|]. split; [exact H2|]. split.
  - intros merged. cbn. lia.
  - intros next now mergeOptions result Hrun.
    exact (processDuplicates_counts _ _ _ _ _ _ _ Hrun).
Qed.


Lemma match_counts_partition_witness :
  exists result,
    processDuplicates 4 0 Samples.fileA Samples.fileB Samples.by_key Samples.sum_qty
    = Returns result /\
    duplicateCount (stats result) + uniqueFile1Count (stats result)
    = totalFile1 (stats result).
Proof.
  eexists. split.
  - vm_compute. reflexivity.
  - refine (proj1 (proj2 (proj2 (proj2 (proj2 (proj2
             (match_counts_partition Samples.fileA Samples.fileB Samples.by_key)))
             4%nat 0 Samples.sum_qty _ _)))).
    vm_compute. reflexivity.
Defined.

(** C4.  The match is greedy, first-match and one-to-one: it is the
    matching [Greedy] describes (the rows of A in order, each paired with
    the first row left in the working copy of B that matches, which leaves
    the copy; unmatched rows of A unique to A).  So every row of B is paired
    at most once and what is left of B keeps its order, both outputs for A
    keep the order of A, and a row unique to A matches no row left in B.  Two
    rows of A and one row of B that match each other give one pair and one
    row unique to A. *)
Theorem matching_is_greedy (file1 file2 : FileData) (columnMapping : ColumnMapping) :
  let found := findDuplicatesAndUnique file1 file2 columnMapping in
  Greedy columnMapping (fd_data file1) (fd_data file2) found /\
  (Permutation (map file2Record (m_duplicates found) ++ m_uniqueInFile2 found)
               (fd_data file2) /\
   sublist (m_uniqueInFile2 found) (fd_data file2)) /\
  (sublist (map file1Record (m_duplicates found)) (fd_data file1) /\
   sublist (m_uniqueInFile1 found) (fd_data file1)) /\
  Forall (fun a => Forall (fun b => keysMatch columnMapping a b = false)
                          (m_uniqueInFile2 found))
         (m_uniqueInFile1 found) /\
  (forall a1 a2 b : Row,
     fd_data file1 = [a1; a2] -> fd_data file2 = [b] ->
     keysMatch columnMapping a1 b = true ->
     keysMatch columnMapping a2 b = true ->
     found = {| m_duplicates := [{| file1Record := a1; file2Record := b |}];
                m_uniqueInFile1 := [a2];
                m_uniqueInFile2 := [] |}).
Proof.
  intros found.
  pose proof (findDuplicatesAndUnique_Greedy columnMapping file1 file2) as Hg.
  fold found in Hg.
  split; [exact Hg|]. split; [exact (Greedy_file2 _ _ _ _ Hg)|].
  split; [exact (proj2 (Greedy_file1 _ _ _ _ Hg))|].
  split; [exact (Greedy_unique_unmatched _ _ _ _ Hg)|].
  intros a1 a2 b HA HB H1 H2. subst found.
  unfold findDuplicatesAndUnique. rewrite HA, HB.
  unfold keysMatch in H1, H2.
  cbn [fold_left]. unfold matchRecord at 2. cbn [scanFile2 m_uniqueInFile2].
  rewrite H1. cbn. unfold matchRecord. cbn. reflexivity.
Qed.

Lemma matching_is_greedy_witness :
  findDuplicatesAndUnique Samples.twoX Samples.oneX Samples.by_key
  = {| m_duplicates :=
         [{| file1Record := Samples.row 0 [("key", VString "X")];
             file2Record := Samples.row 2 [("key", VString "X")] |}];
       m_uniqueInFile1 := [Samples.row 1 [("key", VString "X")]];
       m_uniqueInFile2 := [] |}.
Proof.
  apply (proj2 (proj2 (proj2 (proj2
           (matching_is_greedy Samples.twoX Samples.oneX Samples.by_key)))));
    reflexivity.
Defined.

End MatchingFacts.

(* ===================================================================== *)
(** ** mergeDuplicateRecords and processDuplicates                        *)
(* ===================================================================== *)

Module MergeFacts.
Import Js DuplicateChecker Specs.

(** *** Properties of objects *)

Lemma has_In (key : string) (fs : Fields) : has key fs = true <-> In key (keys fs).
Proof.
  unfold has. induction fs as [|[k v] fs IH]; cbn; [split; [discriminate|tauto]|].
  destruct (String.eqb_spec key k) as [->|Hne]; [tauto|].
  rewrite IH. split; [tauto|]. intros [H|H]; [congruence|exact H].
Qed.

Lemma lookup_set_field_eq (key : string) (v : Value) (fs : Fields) :
  lookup_field key (set_field key v fs) = Some v.
Proof.
  induction fs as [|[k w] fs IH]; cbn.
  - now rewrite String.eqb_refl.
  - destruct (String.eqb_spec key k) as [->|Hne]; cbn.
    + now rewrite String.eqb_refl.
    + destruct (String.eqb_spec key k); [congruence|exact IH].
Qed.

Lemma lookup_set_field_ne (key key' : string) (v : Value) (fs : Fields) :
  key <> key' -> lookup_field key' (set_field key v fs) = lookup_field key' fs.
Proof.
  intros Hne. induction fs as [|[k w] fs IH]; cbn.
  - destruct (String.eqb_spec key' key); [congruence|reflexivity].
  - destruct (String.eqb_spec key k) as [->|Hk]; cbn.
    + destruct (String.eqb_spec key' k); [congruence|reflexivity].
    + now rewrite IH.
Qed.

Lemma keys_set_field (key : string) (v : Value) (fs : Fields) :
  keys (set_field key v fs) = if has key fs then keys fs else keys fs ++ [key].
Proof.
  unfold has, keys. induction fs as [|[k w] fs IH]; cbn; [reflexivity|].
  destruct (String.eqb_spec key k) as [->|Hk]; cbn; [reflexivity|].
  rewrite IH. now destruct (lookup_field key fs).
Qed.

(** *** The loop over the operations *)

Section ColumnMode.
Variables file1Fields file2Fields : Fields.

Lemma applyOperations_other (ops : list MergeOperation) (mergedRecord : Fields)
    (c : string) :
  ~ In c (map column ops) ->
  lookup_field c (applyOperations file1Fields file2Fields ops mergedRecord)
  = lookup_field c mergedRecord.
Proof.
  revert mergedRecord. induction ops as [|op ops IH]; intros mergedRecord Hc;
    [reflexivity|].
  cbn in Hc. unfold applyOperations in *. cbn [fold_left].
  rewrite IH by tauto.
  destruct (String.eqb _ "MERGE_ALL"); [reflexivity|].
  apply lookup_set_field_ne. tauto.
Qed.

Lemma applyOperations_keys (ops : list MergeOperation) (mergedRecord : Fields)
    (c : string) :
  existsb (fun op => String.eqb (operation op) "MERGE_ALL") ops = false ->
  In c (keys (applyOperations file1Fields file2Fields ops mergedRecord)) <->
  In c (keys mergedRecord) \/ In c (map column ops).
Proof.
  revert mergedRecord. induction ops as [|op ops IH]; intros mergedRecord Hall;
    [cbn; tauto|].
  cbn in Hall. apply orb_false_iff in Hall as [Hop Hall].
  unfold applyOperations in *. cbn [fold_left]. rewrite Hop.
  rewrite (IH _ Hall), keys_set_field. cbn [map In].
  destruct (has (column op) mergedRecord) eqn:Hhas.
  - apply has_In in Hhas. split; [tauto|]. intros [H|[<-|H]]; tauto.
  - rewrite in_app_iff. cbn. tauto.
Qed.

Lemma applyOperations_same_keys (ops : list MergeOperation) (mergedRecord : Fields) :
  incl (map column ops) (keys mergedRecord) ->
  keys (applyOperations file1Fields file2Fields ops mergedRecord) = keys mergedRecord.
Proof.
  revert mergedRecord. induction ops as [|op ops IH]; intros mergedRecord Hincl;
    [reflexivity|].
  unfold applyOperations in *. cbn [fold_left].
  assert (Hop : has (column op) mergedRecord = true).
  { apply has_In, Hincl. now left. }
  assert (Hrest : incl (map column ops) (keys mergedRecord)).
  { intros c Hc. apply Hincl. now right. }
  destruct (String.eqb _ "MERGE_ALL"); [now apply IH|].
  rewrite IH; rewrite keys_set_field, Hop; auto.
Qed.

End ColumnMode.

Lemma findMergeAll_hasMergeAll (mergeOptions : MergeOptions) :
  findMergeAll mergeOptions = None <-> hasMergeAll mergeOptions = false.
Proof.
  unfold findMergeAll, hasMergeAll.
  induction (operations mergeOptions) as [|op ops IH]; cbn; [tauto|].
  destruct (String.eqb _ _); cbn; [split; discriminate|exact IH].
Qed.

(** C8, as the code has it.  In column-operation mode the merged record
    of a pair holds what recordA holds in every column no operation names,
    and its columns are those of recordA and those the operations name: the
    columns of recordA exactly when every operation names one of them. *)
Theorem column_mode_frame (duplicates : list DuplicatePair)
    (mergeOptions : MergeOptions) (next : nat) :
  hasMergeAll mergeOptions = false ->
  Forall2
    (fun dup mergedRecord =>
       let recordA := row_fields (file1Record dup) in
       (forall c, ~ In c (namedColumns mergeOptions) ->
                  lookup_field c (row_fields mergedRecord) = lookup_field c recordA) /\
       (forall c, In c (keys (row_fields mergedRecord)) <->
                  In c (keys recordA) \/ In c (namedColumns mergeOptions)) /\
       (incl (namedColumns mergeOptions) (keys recordA) ->
        keys (row_fields mergedRecord) = keys recordA))
    duplicates (mergeDuplicateRecords duplicates mergeOptions next).
Proof.
  intros Hmode. pose proof (proj2 (findMergeAll_hasMergeAll _) Hmode) as Hfind.
  revert next. induction duplicates as [|dup duplicates IH]; intros next; cbn;
    constructor; [|apply IH].
  unfold mergePair. rewrite Hfind. cbn [row_fields]. repeat split.
  - intros c Hc. now apply applyOperations_other.
  - now apply applyOperations_keys.
  - apply applyOperations_keys; assumption.
  - now apply applyOperations_same_keys.
Qed.


Lemma column_mode_frame_witness :
  Forall2
    (fun dup mergedRecord =>
       lookup_field "key" (row_fields mergedRecord)
       = lookup_field "key" (row_fields (file1Record dup)))
    (m_duplicates (findDuplicatesAndUnique Samples.fileA Samples.fileB Samples.by_key))
    (mergeDuplicateRecords
       (m_duplicates (findDuplicatesAndUnique Samples.fileA Samples.fileB Samples.by_key))
       Samples.sum_qty 4).
Proof.
  eapply Forall2_impl.
  - apply (column_mode_frame _ Samples.sum_qty 4). reflexivity.
  - cbn beta. intros dup mergedRecord (H & _). apply H.
    cbn. intros [H'|[]]. discriminate.
Defined.

(** C8 as stated fails: an operation may name a column that recordA does
    not have (here a column of file 2 only, which the validation accepts),
    and the merged record gets it. *)
Lemma column_mode_adds_named_column :
  exists result,
    processDuplicates 4 0 Samples.fileA Samples.fileB Samples.by_key Samples.take_note
    = Returns result /\
    map (fun r => keys (row_fields r)) (duplicates result) = [["key"; "qty"]]%string /\
    map (fun r => keys (row_fields r)) (merged result) = [["key"; "qty"; "note"]]%string.
Proof. eexists. split; [vm_compute; reflexivity|]. split; reflexivity. Qed.

(** *** The number of merged records *)

Lemma length_mergeDuplicateRecords (duplicates : list DuplicatePair)
    (mergeOptions : MergeOptions) (next : nat) :
  length (mergeDuplicateRecords duplicates mergeOptions next) = length duplicates.
Proof.
  revert next. induction duplicates as [|dup duplicates IH]; intros next; cbn;
    [reflexivity|]. now rewrite IH.
Qed.











End MergeFacts.

(* ===================================================================== *)
(** ** validateResults                                                   *)
(* ===================================================================== *)

Module ResultProcessorFacts.
Import Js DuplicateChecker ResultProcessor ValidationSpecs.

Lemma failures_push (failed : bool) (message : string) (cs : list (bool * string)) :
  push_if failed message (failures cs) = failures (cs ++ [(failed, message)]).
Proof.
  unfold failures, push_if. rewrite List.filter_app, map_app. cbn.
  destruct failed; cbn; [reflexivity|]. now rewrite app_nil_r.
Qed.

(** Whenever the lengths can be read, [validateResults] returns, and its
    errors are the messages of the checks that failed, all of them, in order. *)
Lemma validateResults_accumulates (results : Results) (stats : Stats) :
  r_stats results = Some stats ->
  lengths_readable results = true ->
  validateResults (Some results)
  = Return {| valid := Nat.eqb (length (failures (checks results stats))) 0;
              errors := failures (checks results stats) |}.
Proof.
  intros Hstats Hread. unfold validateResults, lengths_readable in *.
  rewrite Hstats.
  destruct (length_of (r_duplicates results)) as [l1|] eqn:H1; [|discriminate].
  destruct (length_of (r_uniqueInFile1 results)) as [l2|] eqn:H2; [|discriminate].
  destruct (length_of (r_uniqueInFile2 results)) as [l3|] eqn:H3; [|discriminate].
  destruct (length_of (r_merged results)) as [l4|] eqn:H4; [|discriminate].
  unfold finish, checks. rewrite H1, H2, H3, H4. cbn [mjoin option_join].
  change (@nil string) with (failures []).
  rewrite !failures_push. reflexivity.
Qed.


Lemma failures_nil (cs : list (bool * string)) :
  Nat.eqb (length (failures cs)) 0 = true <-> forallb (fun c => negb (fst c)) cs = true.
Proof.
  unfold failures. induction cs as [|[failed message] cs IH]; cbn; [tauto|].
  destruct failed; cbn; [split; discriminate|exact IH].
Qed.

Lemma strict_ne_false (count : Z) (len : option Z) :
  strict_ne count len = false <-> len = Some count.
Proof.
  destruct len as [l|]; cbn; [|split; discriminate].
  rewrite negb_false_iff, Z.eqb_eq. split; congruence.
Qed.

(** On a result with statistics whose lengths can be read, the result is
    valid exactly when the four properties are arrays, the four counts are
    their lengths and the two sums are the totals. *)
Lemma validateResults_valid_iff (results : Results) (stats : Stats) (v : Validation) :
  r_stats results = Some stats ->
  validateResults (Some results) = Return v ->
  valid v = true <->
  exists d u1 u2 m,
    r_duplicates results = IsArray d /\ r_uniqueInFile1 results = IsArray u1 /\
    r_uniqueInFile2 results = IsArray u2 /\ r_merged results = IsArray m /\
    duplicateCount stats = Z.of_nat (length d) /\
    uniqueFile1Count stats = Z.of_nat (length u1) /\
    uniqueFile2Count stats = Z.of_nat (length u2) /\
    mergedCount stats = Z.of_nat (length m) /\
    duplicateCount stats + uniqueFile1Count stats = totalFile1 stats /\
    duplicateCount stats + uniqueFile2Count stats = totalFile2 stats.
Proof.
  intros Hstats Hrun.
  assert (Hread : lengths_readable results = true).
  { unfold validateResults in Hrun. rewrite Hstats in Hrun. unfold lengths_readable.
    repeat match goal with
           | |- context [length_of ?a] => destruct (length_of a); try discriminate
           end.
    reflexivity. }
  rewrite (validateResults_accumulates _ _ Hstats Hread) in Hrun.
  injection Hrun as <-. cbn [valid]. rewrite failures_nil.
  unfold checks. cbn [forallb fst].
  rewrite !andb_true_iff, !negb_true_iff, !negb_false_iff, !strict_ne_false, !Z.eqb_eq.
  split.
  - intros (Hd & Hu1 & Hu2 & Hm & Hcd & Hcu1 & Hcu2 & Hcm & Hs1 & Hs2 & _).
    destruct (r_duplicates results) as [| |d]; try discriminate.
    destruct (r_uniqueInFile1 results) as [| |u1]; try discriminate.
    destruct (r_uniqueInFile2 results) as [| |u2]; try discriminate.
    destruct (r_merged results) as [| |m]; try discriminate.
    cbn in Hcd, Hcu1, Hcu2, Hcm.
    exists d, u1, u2, m. repeat split; congruence.
  - intros (d & u1 & u2 & m & -> & -> & -> & -> & -> & -> & -> & -> & Hs1 & Hs2).
    cbn. repeat split; assumption.
Qed.

(** A missing result, and missing statistics, are reported by one message. *)
Lemma validateResults_missing :
  validateResults None
  = Return {| valid := false; errors := ["Results data is missing"] |}.
Proof. reflexivity. Qed.

(** A well-typed result whose counts are the lengths and whose sums are
    the totals is valid, with no error. *)
Lemma validateResults_consistent (result : ProcessedData) :
  duplicateCount (stats result) = Z.of_nat (length (duplicates result)) ->
  uniqueFile1Count (stats result) = Z.of_nat (length (uniqueInFile1 result)) ->
  uniqueFile2Count (stats result) = Z.of_nat (length (uniqueInFile2 result)) ->
  mergedCount (stats result) = Z.of_nat (length (merged result)) ->
  duplicateCount (stats result) + uniqueFile1Count (stats result)
  = totalFile1 (stats result) ->
  duplicateCount (stats result) + uniqueFile2Count (stats result)
  = totalFile2 (stats result) ->
  validateResults (Some (of_ProcessedData result))
  = Return {| valid := true; errors := [] |}.
Proof.
  intros Hd Hu1 Hu2 Hm Hs1 Hs2.
  rewrite (validateResults_accumulates _ (stats result)) by reflexivity.
  apply Z.eqb_eq in Hd, Hu1, Hu2, Hm, Hs1, Hs2.
  unfold checks, failures, of_ProcessedData. cbn.
  now rewrite Hd, Hu1, Hu2, Hm, Hs1, Hs2.
Qed.

(** X1.  Every result that [processDuplicates] returns passes
    [validateResults], with no error. *)
Theorem processDuplicates_validates (next : nat) (now : Z) (file1 file2 : FileData)
    (columnMapping : ColumnMapping) (mergeOptions : MergeOptions)
    (result : ProcessedData) :
  processDuplicates next now file1 file2 columnMapping mergeOptions = Returns result ->
  validateResults (Some (of_ProcessedData result))
  = Return {| valid := true; errors := [] |}.
Proof.
  intros Hrun.
  destruct (MatchingFacts.processDuplicates_counts _ _ _ _ _ _ _ Hrun)
    as (_ & _ & Hs1 & Hs2).
  apply validateResults_consistent; try assumption;
    unfold processDuplicates, processDuplicates_body in Hrun;
    destruct (validateProcessingInputs _ _ _ _); cbn in Hrun; try discriminate;
    injection Hrun as <-; cbn; now rewrite ?length_map.
Qed.

(** C9: where the code leaves the claim.  A result whose [duplicates] is
    [null] or [undefined], with statistics, has its first check fail, and
    then reading [results.duplicates.length] throws: no [errors] list is
    returned. *)
Theorem validateResults_null_array_throws :
  validateResults
    (Some {| r_duplicates := Nullish;
             r_uniqueInFile1 := IsArray [];
             r_uniqueInFile2 := IsArray [];
             r_merged := IsArray [];
             r_stats := Some {| totalFile1 := 0; totalFile2 := 0;
                                duplicateCount := 0; uniqueFile1Count := 0;
                                uniqueFile2Count := 0; mergedCount := 0 |} |})
  = TypeError.
Proof. reflexivity. Qed.

End ResultProcessorFacts.

(* ===================================================================== *)
(** ** The session store                                                 *)
(* ===================================================================== *)

Module SessionStoreFacts.
Import DuplicateChecker SessionStore.

(** *** What each operation does to the map of sessions and to the timers *)

Lemma sessions_scheduleSessionCleanup (sessionId : string) (now : Z) (st : Store) :
  sessions (scheduleSessionCleanup sessionId now st) = sessions st.
Proof.
  unfold scheduleSessionCleanup. now destruct (cleanupTimeouts st !! sessionId).
Qed.

(** The timer that [scheduleSessionCleanup] sets. *)
Lemma timers_scheduleSessionCleanup (sessionId : string) (now : Z) (st : Store) :
  timers (scheduleSessionCleanup sessionId now st) !! nextTimer st
  = Some {| timer_session := sessionId; timer_due := now + SESSION_TIMEOUT |}.
Proof.
  unfold scheduleSessionCleanup.
  destruct (cleanupTimeouts st !! sessionId); cbn; apply lookup_insert_eq.
Qed.

Lemma sessions_deleteSession (sessionId : string) (st : Store) :
  sessions (snd (deleteSession sessionId st)) = delete sessionId (sessions st).
Proof.
  unfold deleteSession. destruct (sessions st !! sessionId) eqn:Hs; cbn.
  - now destruct (cleanupTimeouts st !! sessionId).
  - symmetry. now apply delete_id.
Qed.

(** The callback of one session leaves the other sessions alone. *)
Lemma cleanupCallback_other (sessionId other : string) (now : Z) (st : Store) :
  other <> sessionId ->
  sessions (cleanupCallback sessionId now st) !! other = sessions st !! other.
Proof.
  intros Hne. unfold cleanupCallback.
  destruct (sessions st !! sessionId) as [session|];
    cbn [sessions with_cleanupTimeouts]; [|reflexivity].
  destruct (SESSION_TIMEOUT <=? _).
  - rewrite sessions_deleteSession. now apply lookup_delete_ne.
  - now rewrite sessions_scheduleSessionCleanup.
Qed.

Lemma cleanupCallback_fresh (sessionId : string) (now : Z) (st : Store)
    (session : UserSession) :
  sessions st !! sessionId = Some session ->
  now - s_lastActivity session < SESSION_TIMEOUT ->
  sessions (cleanupCallback sessionId now st) = sessions st /\
  timers (cleanupCallback sessionId now st) !! nextTimer st
  = Some {| timer_session := sessionId; timer_due := now + SESSION_TIMEOUT |}.
Proof.
  intros Hs Hfresh. unfold cleanupCallback. rewrite Hs.
  destruct (Z.leb_spec SESSION_TIMEOUT (now - s_lastActivity session)); [lia|].
  cbn [sessions timers with_cleanupTimeouts]. split.
  - apply sessions_scheduleSessionCleanup.
  - apply timers_scheduleSessionCleanup.
Qed.

Lemma cleanupCallback_expired (sessionId : string) (now : Z) (st : Store)
    (session : UserSession) :
  sessions st !! sessionId = Some session ->
  SESSION_TIMEOUT <= now - s_lastActivity session ->
  sessions (cleanupCallback sessionId now st) = delete sessionId (sessions st).
Proof.
  intros Hs Hold. unfold cleanupCallback. rewrite Hs.
  destruct (Z.leb_spec SESSION_TIMEOUT (now - s_lastActivity session)); [|lia].
  cbn [sessions with_cleanupTimeouts]. apply sessions_deleteSession.
Qed.

Lemma sessions_fireTimer (handle : nat) (now : Z) (st : Store) :
  sessions (fireTimer handle now st) = sessions st \/
  exists timer,
    timers st !! handle = Some timer /\ timer_due timer <= now /\
    sessions (fireTimer handle now st)
    = sessions (cleanupCallback (timer_session timer) now (clearTimeout handle st)).
Proof.
  unfold fireTimer. destruct (timers st !! handle) as [timer|]; [|now left].
  destruct (Z.leb_spec (timer_due timer) now); [|now left].
  right. exists timer. auto.
Qed.

Lemma updateSession_present (sessionId : string) (updates : PartialSession)
    (now : Z) (st : Store) (session : UserSession) :
  sessions st !! sessionId = Some session ->
  fst (updateSession sessionId updates now st) = true /\
  sessions (snd (updateSession sessionId updates now st))
  = <[sessionId := mergeUpdates sessionId now session updates]> (sessions st).
Proof.
  intros Hs. unfold updateSession. rewrite Hs. cbn [fst snd].
  now rewrite sessions_scheduleSessionCleanup.
Qed.


(** C2, as the code has it.  The timer callback decides on the
    [lastActivity] the session has when it runs: it deletes the session
    exactly when the idle time has reached the timeout (is at least 15
    minutes), and otherwise keeps it and sets a new timer, due a timeout
    later.  So after [updateSession] has refreshed a session, no timer that
    fires before a timeout has passed since the new [lastActivity] deletes it. *)
Theorem timer_rechecks_before_delete (sessionId : string) (now : Z) (st : Store)
    (session : UserSession) :
  sessions st !! sessionId = Some session ->
  (now - s_lastActivity session < SESSION_TIMEOUT ->
   sessions (cleanupCallback sessionId now st) !! sessionId = Some session /\
   timers (cleanupCallback sessionId now st) !! nextTimer st
   = Some {| timer_session := sessionId; timer_due := now + SESSION_TIMEOUT |}) /\
  (sessions (cleanupCallback sessionId now st) !! sessionId = None <->
   SESSION_TIMEOUT <= now - s_lastActivity session) /\
  (forall (updates : PartialSession) (refreshed : Z) (handle : nat),
     now - default refreshed (p_lastActivity updates) < SESSION_TIMEOUT ->
     sessions (fireTimer handle now (snd (updateSession sessionId updates refreshed st)))
       !! sessionId
     = Some (mergeUpdates sessionId refreshed session updates)).
Proof.
  intros Hs. split; [|split].
  - intros Hfresh.
    destruct (cleanupCallback_fresh _ _ _ _ Hs Hfresh) as [-> Ht]. auto.
  - destruct (Z.lt_ge_cases (now - s_lastActivity session) SESSION_TIMEOUT) as [Hlt|Hge].
    + destruct (cleanupCallback_fresh _ _ _ _ Hs Hlt) as [-> _].
      rewrite Hs. split; [discriminate|lia].
    + rewrite (cleanupCallback_expired _ _ _ _ Hs Hge), lookup_delete_eq. tauto.
  - intros updates refreshed handle Hfresh.
    destruct (updateSession_present sessionId updates refreshed st session Hs)
      as [_ Hup].
    set (st1 := snd (updateSession sessionId updates refreshed st)) in *.
    assert (Hs1 : sessions st1 !! sessionId
                  = Some (mergeUpdates sessionId refreshed session updates)).
    { rewrite Hup. apply lookup_insert_eq. }
    destruct (sessions_fireTimer handle now st1) as [->|(timer & _ & _ & ->)];
      [exact Hs1|].
    destruct (decide (timer_session timer = sessionId)) as [->|Hne].
    + destruct (cleanupCallback_fresh sessionId now (clearTimeout handle st1) _ Hs1)
        as [-> _]; [exact Hfresh|exact Hs1].
    + rewrite cleanupCallback_other by congruence. exact Hs1.
Qed.

Lemma timer_rechecks_before_delete_witness :
  exists session,
    sessions (cleanupCallback "s" 600000 (snd (createSession "s" 0 emptyStore))) !! "s"
    = Some session.
Proof.
  eexists.
  refine (proj1 (proj1 (timer_rechecks_before_delete "s" 600000
                          (snd (createSession "s" 0 emptyStore)) _ _) _)).
  - vm_compute. reflexivity.
  - vm_compute. reflexivity.
Defined.

(** C2 as stated fails at the boundary: a session idle for exactly the
    timeout (which does not exceed it, and which [getSession] still serves)
    is deleted by the callback. *)
Lemma timer_deletes_at_the_timeout :
  sessions (fireTimer 0 900000 (snd (createSession "s" 0 emptyStore))) !! "s" = None /\
  (SESSION_TIMEOUT <? 900000 - 0) = false /\
  exists session,
    fst (getSession "s" 900000 (snd (createSession "s" 0 emptyStore))) = Some session.
Proof.
  split; [vm_compute; reflexivity|]. split; [reflexivity|].
  eexists. vm_compute. reflexivity.
Qed.

(** C10.  [updateSession] succeeds on every session that is in the map,
    however long it has been idle: it stores the merged session with a
    [lastActivity] of its own (the one supplied, else the current time), where
    [getSession] would have deleted a stale session and returned nothing; after
    an update that supplies no [lastActivity], [getSession] finds the session
    again. *)
Theorem updateSession_ignores_staleness (sessionId : string) (updates : PartialSession)
    (now : Z) (st : Store) (session : UserSession) :
  sessions st !! sessionId = Some session ->
  fst (updateSession sessionId updates now st) = true /\
  sessions (snd (updateSession sessionId updates now st)) !! sessionId
  = Some (mergeUpdates sessionId now session updates) /\
  s_lastActivity (mergeUpdates sessionId now session updates)
  = default now (p_lastActivity updates) /\
  (SESSION_TIMEOUT < now - s_lastActivity session ->
   fst (getSession sessionId now st) = None /\
   sessions (snd (getSession sessionId now st)) !! sessionId = None /\
   (p_lastActivity updates = None ->
    fst (getSession sessionId now (snd (updateSession sessionId updates now st)))
    = Some (mergeUpdates sessionId now session updates))).
Proof.
  intros Hs.
  destruct (updateSession_present sessionId updates now st session Hs) as [Hok Hup].
  split; [exact Hok|]. split; [rewrite Hup; apply lookup_insert_eq|].
  split; [reflexivity|].
  intros Hstale. unfold getSession at 1 2. rewrite Hs.
  destruct (Z.ltb_spec SESSION_TIMEOUT (now - s_lastActivity session)); [|lia].
  cbn [fst snd]. split; [reflexivity|]. split.
  - rewrite sessions_deleteSession. apply lookup_delete_eq.
  - intros Hnone. unfold getSession. rewrite Hup, lookup_insert_eq.
    unfold mergeUpdates at 1. rewrite Hnone. cbn [s_lastActivity default].
    destruct (Z.ltb_spec SESSION_TIMEOUT (now - now)); [unfold SESSION_TIMEOUT in *; lia|].
    cbn [fst]. f_equal. unfold set_lastActivity, mergeUpdates. rewrite Hnone.
    reflexivity.
Qed.

Lemma updateSession_ignores_staleness_witness :
  fst (updateSession "s"
         {| p_id := None; p_files := None; p_columnMapping := None;
            p_mergeOptions := None; p_results := None; p_createdAt := None;
            p_lastActivity := None |}
         5000000 (snd (createSession "s" 0 emptyStore)))
  = true.
Proof.
  refine (proj1 (updateSession_ignores_staleness "s" _ 5000000
                   (snd (createSession "s" 0 emptyStore)) _ _)).
  vm_compute. reflexivity.
Defined.

End SessionStoreFacts.

(* ===================================================================== *)
(** ** Further properties of the merge engine, the validator and the store *)
(* ===================================================================== *)

Module MoreMergeFacts.
Import Js DuplicateChecker Specs.

(** X4.  Matching ignores case and surrounding white space, and a null
    key matches a null key only. *)
Theorem isValueMatch_policy :
  (forall s t : string,
     isValueMatch (VString s) (VString t)
     = String.eqb (toLowerCase (trim s)) (toLowerCase (trim t))) /\
  isValueMatch (VString "Acme") (VString " acme ") = true /\
  (forall v : Value, isValueMatch VNull v = true <-> v = VNull) /\
  (forall v : Value, isValueMatch v VNull = true <-> v = VNull).
Proof.
  split; [reflexivity|]. split; [reflexivity|].
  split; intros v; (split; [|intros ->; reflexivity]);
    destruct v; cbn; intros H; try discriminate; reflexivity.
Qed.

(** X5.  A numeric operator whose operands are not both numbers returns
    its first operand unchanged. *)
Theorem numeric_operator_fallback (a b : Value) (op : string) :
  In op ["SUM"; "SUBTRACT"; "MULTIPLY"; "DIVIDE"; "AVG"; "MIN"; "MAX"]%string ->
  isNullish a = false -> isNullish b = false ->
  isNaN (parseFloat (String_ a)) || isNaN (parseFloat (String_ b)) = true ->
  applyMergeOperation a b op = a.
Proof.
  intros Hop Ha Hb Hnan. unfold applyMergeOperation. rewrite Ha, Hb.
  cbn [In] in Hop.
  destruct Hop as [<-|[<-|[<-|[<-|[<-|[<-|[<-|[]]]]]]]];
    cbn [String.eqb Ascii.eqb Bool.eqb];
    unfold performNumericOperation; now rewrite Hnan.
Qed.

Lemma numeric_operator_fallback_witness :
  applyMergeOperation (VString "abc") (VString "5") "MAX" = VString "abc".
Proof.
  apply numeric_operator_fallback.
  - cbn. tauto.
  - reflexivity.
  - reflexivity.
  - vm_compute. reflexivity.
Defined.







End MoreMergeFacts.

Module MoreValidationFacts.
Import Js DuplicateChecker ResultProcessor ValidationSpecs.

Lemma processDuplicates_validates_witness :
  exists result,
    processDuplicates 4 0 Samples.fileA Samples.fileB Samples.by_key Samples.merge_all
    = Returns result /\
    validateResults (Some (of_ProcessedData result))
    = Return {| valid := true; errors := [] |}.
Proof.
  eexists. split.
  - vm_compute. reflexivity.
  - refine (ResultProcessorFacts.processDuplicates_validates 4 0 Samples.fileA Samples.fileB
              Samples.by_key Samples.merge_all _ _).
    vm_compute. reflexivity.
Defined.

(** X2.  On a result with statistics in which no property that should
    be an array is null or undefined, [validateResults] returns; its errors
    are the messages of all the checks that failed, in the order of the
    checks, and it is valid exactly when none failed. *)
Theorem validateResults_reports_every_failure (results : Results) (stats : Stats) :
  r_stats results = Some stats ->
  lengths_readable results = true ->
  exists v,
    validateResults (Some results) = Return v /\
    errors v = failures (checks results stats) /\
    (valid v = true <-> Forall (fun c => fst c = false) (checks results stats)).
Proof.
  intros Hstats Hread. eexists. split; [|split].
  - exact (ResultProcessorFacts.validateResults_accumulates _ _ Hstats Hread).
  - reflexivity.
  - cbn [valid]. rewrite ResultProcessorFacts.failures_nil, forallb_forall, Forall_forall.
    split; intros H c Hc.
    + apply list_elem_of_In in Hc. specialize (H c Hc). now apply negb_true_iff in H.
    + apply list_elem_of_In in Hc. specialize (H c Hc). now apply negb_true_iff.
Qed.

Lemma validateResults_reports_every_failure_witness :
  exists v,
    validateResults
      (Some {| r_duplicates := NotArray (Some 3);
               r_uniqueInFile1 := IsArray [];
               r_uniqueInFile2 := IsArray [];
               r_merged := NotArray None;
               r_stats := Some {| totalFile1 := 1; totalFile2 := 0;
                                  duplicateCount := 0; uniqueFile1Count := 0;
                                  uniqueFile2Count := 0; mergedCount := 0 |} |})
    = Return v /\
    errors v = ["Duplicates data is invalid"; "Merged data is invalid";
                "Duplicate count mismatch"; "Merged count mismatch";
                "File 1 total count mismatch"]%string.
Proof.
  edestruct (validateResults_reports_every_failure
    {| r_duplicates := NotArray (Some 3);
       r_uniqueInFile1 := IsArray [];
       r_uniqueInFile2 := IsArray [];
       r_merged := NotArray None;
       r_stats := Some {| totalFile1 := 1; totalFile2 := 0;
                          duplicateCount := 0; uniqueFile1Count := 0;
                          uniqueFile2Count := 0; mergedCount := 0 |} |})
    as (v & Hrun & Herr & _); [reflexivity|reflexivity|].
  exists v. split; [exact Hrun|]. rewrite Herr. reflexivity.
Defined.

End MoreValidationFacts.

Module MoreSessionFacts.
Import DuplicateChecker SessionStore SessionStoreFacts.

(** X6.  [deleteSession] removes the session and clears the timer that is
    recorded for it; a second call finds nothing and returns false. *)
Theorem deleteSession_idempotent (sessionId : string) (st : Store) :
  fst (deleteSession sessionId st)
  = match sessions st !! sessionId with Some _ => true | None => false end /\
  sessions (snd (deleteSession sessionId st)) !! sessionId = None /\
  fst (deleteSession sessionId (snd (deleteSession sessionId st))) = false /\
  snd (deleteSession sessionId (snd (deleteSession sessionId st)))
  = snd (deleteSession sessionId st).
Proof.
  assert (Hgone : sessions (snd (deleteSession sessionId st)) !! sessionId = None).
  { rewrite sessions_deleteSession. apply lookup_delete_eq. }
  split; [|split; [exact Hgone|]].
  - unfold deleteSession. now destruct (sessions st !! sessionId).
  - unfold deleteSession at 1 3. rewrite Hgone. auto.
Qed.

(** X8.  [getSession] is a sliding window: within the timeout (idle time
    at most 15 minutes) it returns the session with [lastActivity] set to
    the current time, stores it, and sets a timer due a timeout later; past
    the timeout it returns nothing and the session is removed. *)
Theorem getSession_sliding_window (sessionId : string) (now : Z) (st : Store)
    (session : UserSession) :
  sessions st !! sessionId = Some session ->
  (now - s_lastActivity session <= SESSION_TIMEOUT ->
   fst (getSession sessionId now st) = Some (set_lastActivity now session) /\
   sessions (snd (getSession sessionId now st)) !! sessionId
   = Some (set_lastActivity now session) /\
   timers (snd (getSession sessionId now st)) !! nextTimer st
   = Some {| timer_session := sessionId; timer_due := now + SESSION_TIMEOUT |}) /\
  (SESSION_TIMEOUT < now - s_lastActivity session ->
   fst (getSession sessionId now st) = None /\
   sessions (snd (getSession sessionId now st)) !! sessionId = None).
Proof.
  intros Hs. unfold getSession. rewrite Hs.
  destruct (Z.ltb_spec SESSION_TIMEOUT (now - s_lastActivity session)) as [Hold|Hfresh];
    cbn [fst snd]; (split; [|]); intros H; try lia.
  - split; [reflexivity|]. rewrite sessions_deleteSession. apply lookup_delete_eq.
  - split; [reflexivity|]. split.
    + rewrite sessions_scheduleSessionCleanup. apply lookup_insert_eq.
    + apply (timers_scheduleSessionCleanup sessionId now
               (with_sessions (insert sessionId (set_lastActivity now session)) st)).
Qed.

Lemma getSession_sliding_window_witness :
  exists session,
    fst (getSession "s" 840000 (snd (createSession "s" 0 emptyStore))) = Some session /\
    s_lastActivity session = 840000.
Proof.
  eexists. split.
  - refine (proj1 (proj1 (getSession_sliding_window "s" 840000
                            (snd (createSession "s" 0 emptyStore)) _ _) _)).
    + vm_compute. reflexivity.
    + vm_compute. discriminate.
  - reflexivity.
Defined.


(** X3.  The timer that the callback sets for a session it finds fresh is
    pending but is not recorded in [cleanupTimeouts] (the callback's last
    statement removes the entry), so the next [getSession] does not clear it:
    it sets a second timer for the session beside it. *)
Theorem rescheduled_timer_is_not_recorded (sessionId : string) (now later : Z)
    (st : Store) (session : UserSession) :
  sessions st !! sessionId = Some session ->
  now - s_lastActivity session < SESSION_TIMEOUT ->
  later - s_lastActivity session <= SESSION_TIMEOUT ->
  let st1 := cleanupCallback sessionId now st in
  let st2 := snd (getSession sessionId later st1) in
  cleanupTimeouts st1 !! sessionId = None /\
  timers st1 !! nextTimer st
  = Some {| timer_session := sessionId; timer_due := now + SESSION_TIMEOUT |} /\
  timers st2 !! nextTimer st
  = Some {| timer_session := sessionId; timer_due := now + SESSION_TIMEOUT |} /\
  timers st2 !! S (nextTimer st)
  = Some {| timer_session := sessionId; timer_due := later + SESSION_TIMEOUT |}.
Proof.
  intros Hs Hfresh Hlater st1 st2.
  assert (H1 : cleanupTimeouts st1 !! sessionId = None).
  { unfold st1, cleanupCallback. cbn [cleanupTimeouts with_cleanupTimeouts].
    apply lookup_delete_eq. }
  destruct (cleanupCallback_fresh _ _ _ _ Hs Hfresh) as [Hsess Ht].
  fold st1 in Hsess, Ht.
  assert (Hnext : nextTimer st1 = S (nextTimer st)).
  { unfold st1, cleanupCallback. rewrite Hs.
    destruct (Z.leb_spec SESSION_TIMEOUT (now - s_lastActivity session)); [lia|].
    unfold scheduleSessionCleanup.
    now destruct (cleanupTimeouts st !! sessionId). }
  split; [exact H1|]. split; [exact Ht|].
  assert (Hs1 : sessions st1 !! sessionId = Some session) by now rewrite Hsess.
  unfold st2, getSession. rewrite Hs1.
  destruct (Z.ltb_spec SESSION_TIMEOUT (later - s_lastActivity session)); [lia|].
  cbn [snd]. unfold scheduleSessionCleanup.
  cbn [cleanupTimeouts with_sessions]. rewrite H1.
  cbn [setTimeout timers with_cleanupTimeouts with_sessions nextTimer].
  rewrite Hnext. split.
  - rewrite lookup_insert_ne by lia. exact Ht.
  - apply lookup_insert_eq.
Qed.

Lemma rescheduled_timer_is_not_recorded_witness :
  cleanupTimeouts (cleanupCallback "s" 600000 (snd (createSession "s" 0 emptyStore)))
    !! "s" = None.
Proof.
  refine (proj1 (rescheduled_timer_is_not_recorded "s" 600000 600000
                   (snd (createSession "s" 0 emptyStore)) _ _ _ _)).
  - vm_compute. reflexivity.
  - vm_compute. reflexivity.
  - vm_compute. discriminate.
Defined.

End MoreSessionFacts.

(* ===================================================================== *)
(** ** Facts about the rest of the library and the process route       *)
(* ===================================================================== *)

Module SweepFacts.
Import DuplicateChecker SessionStore SessionStoreFacts SessionSweep SweepSpecs.

Lemma sweep_from (now : Z) (entries : list (string * UserSession)) (count : nat)
    (st : Store) :
  fst (fold_left (sweepEntry now) entries (count, st))
  = (count + length (List.filter (fun e => stale now (snd e)) entries))%nat /\
  forall k,
    sessions (snd (fold_left (sweepEntry now) entries (count, st))) !! k
    = if existsb (fun e => String.eqb (fst e) k && stale now (snd e)) entries
      then None else sessions st !! k.
Proof.
  revert count st. induction entries as [|[sid s] entries IH]; intros count st.
  - cbn. split; [lia|reflexivity].
  - cbn [fold_left sweepEntry List.filter snd fst existsb]. fold (stale now s).
    destruct (stale now s) eqn:Hs.
    + destruct (IH (S count) (snd (deleteSession sid st))) as [-> Hk].
      split; [cbn; lia|]. intros k. rewrite Hk, sessions_deleteSession.
      destruct (existsb _ entries); [now rewrite orb_true_r|].
      rewrite orb_false_r, andb_true_r.
      destruct (String.eqb_spec sid k) as [->|Hne].
      * apply lookup_delete_eq.
      * now apply lookup_delete_ne.
    + destruct (IH count st) as [-> Hk]. split; [reflexivity|].
      intros k. rewrite Hk. now rewrite andb_false_r.
Qed.

(** X9.  The periodic sweep, in whatever order the map is visited,
    removes exactly the sessions that have been idle for more than the
    timeout, leaves every other session as it is, and returns how many it
    removed. *)
Theorem sweep_removes_the_stale (now : Z) (entries : list (string * UserSession))
    (st : Store) :
  Permutation entries (map_to_list (sessions st)) ->
  (forall k,
     sessions (snd (sweep now entries st)) !! k
     = match sessions st !! k with
       | Some session => if stale now session then None else Some session
       | None => None
       end) /\
  fst (sweep now entries st)
  = length (List.filter (fun e => stale now (snd e)) (map_to_list (sessions st))).
Proof.
  intros Hperm. unfold sweep. destruct (sweep_from now entries 0 st) as [-> Hk].
  split.
  - intros k. rewrite Hk.
    destruct (existsb _ entries) eqn:Hex.
    + apply existsb_exists in Hex as ([sid s] & Hin & Hks). cbn in Hks.
      apply andb_true_iff in Hks as [Hsid Hs]. apply String.eqb_eq in Hsid. subst sid.
      apply list_elem_of_In in Hin. rewrite Hperm in Hin.
      apply elem_of_map_to_list in Hin. now rewrite Hin, Hs.
    + destruct (sessions st !! k) as [s|] eqn:Hlook; [|reflexivity].
      destruct (stale now s) eqn:Hs; [|reflexivity].
      assert (Hin : (k, s) ∈ entries).
      { rewrite Hperm. now apply elem_of_map_to_list. }
      apply list_elem_of_In in Hin.
      assert (existsb (fun e => String.eqb (fst e) k && stale now (snd e)) entries = true).
      { apply existsb_exists. exists (k, s). cbn. now rewrite String.eqb_refl, Hs. }
      congruence.
  - cbn. clear Hk. induction Hperm; cbn; repeat destruct (stale now _); cbn; congruence.
Qed.

End SweepFacts.

Module SessionUtilsFacts.
Import DuplicateChecker SessionStore SessionStoreFacts SessionUtils SessionSpecs.

(** What [getSession] does to a stored session, by its idle time. *)
Lemma getSession_fresh (sessionId : string) (now : Z) (st : Store)
    (session : UserSession) :
  sessions st !! sessionId = Some session ->
  now - s_lastActivity session <= SESSION_TIMEOUT ->
  fst (getSession sessionId now st) = Some (set_lastActivity now session) /\
  sessions (snd (getSession sessionId now st))
  = <[sessionId := set_lastActivity now session]> (sessions st).
Proof.
  intros Hs Hfresh. unfold getSession. rewrite Hs.
  destruct (Z.ltb_spec SESSION_TIMEOUT (now - s_lastActivity session)); [lia|].
  cbn [fst snd]. split; [reflexivity|]. now rewrite sessions_scheduleSessionCleanup.
Qed.

Lemma getSession_stale (sessionId : string) (now : Z) (st : Store)
    (session : UserSession) :
  sessions st !! sessionId = Some session ->
  SESSION_TIMEOUT < now - s_lastActivity session ->
  fst (getSession sessionId now st) = None /\
  sessions (snd (getSession sessionId now st)) = delete sessionId (sessions st).
Proof.
  intros Hs Hstale. unfold getSession. rewrite Hs.
  destruct (Z.ltb_spec SESSION_TIMEOUT (now - s_lastActivity session)); [|lia].
  cbn [fst snd]. split; [reflexivity|]. apply sessions_deleteSession.
Qed.

Lemma getSession_absent (sessionId : string) (now : Z) (st : Store) :
  sessions st !! sessionId = None -> getSession sessionId now st = (None, st).
Proof. intros Hs. unfold getSession. now rewrite Hs. Qed.

(** X10.  [addFileToSession] on a stored session that is not stale
    returns true and stores the file under its key, keeping the other file
    and the rest of the session, with [lastActivity] the time of the update;
    on a stale session it returns false and the session is gone; on an
    unknown id it returns false and changes nothing. *)
Theorem addFileToSession_stores_the_file (sessionId : string) (fileKey : FileKey)
    (fileData : FileData) (t1 t2 : Z) (st : Store) :
  (forall session,
     sessions st !! sessionId = Some session ->
     t1 - s_lastActivity session <= SESSION_TIMEOUT ->
     fst (addFileToSession sessionId fileKey fileData t1 t2 st) = true /\
     sessions (snd (addFileToSession sessionId fileKey fileData t1 t2 st))
     = <[sessionId := withFile sessionId fileKey fileData t2 session]> (sessions st)) /\
  (forall session,
     sessions st !! sessionId = Some session ->
     SESSION_TIMEOUT < t1 - s_lastActivity session ->
     fst (addFileToSession sessionId fileKey fileData t1 t2 st) = false /\
     sessions (snd (addFileToSession sessionId fileKey fileData t1 t2 st))
     = delete sessionId (sessions st)) /\
  (sessions st !! sessionId = None ->
   addFileToSession sessionId fileKey fileData t1 t2 st = (false, st)).
Proof.
  split; [|split].
  - intros session Hs Hfresh. unfold addFileToSession.
    destruct (getSession_fresh _ _ _ _ Hs Hfresh) as [Hget Hsess].
    destruct (getSession sessionId t1 st) as [got st1]. cbn [fst snd] in Hget, Hsess.
    subst got.
    assert (Hs1 : sessions st1 !! sessionId = Some (set_lastActivity t1 session)).
    { rewrite Hsess. apply lookup_insert_eq. }
    destruct (updateSession_present sessionId
                (filesUpdate (setFile fileKey fileData (s_files (set_lastActivity t1 session))))
                t2 st1 _ Hs1) as [Hok Hup].
    split; [exact Hok|]. rewrite Hup, Hsess, insert_insert_eq. reflexivity.
  - intros session Hs Hstale. unfold addFileToSession.
    destruct (getSession_stale _ _ _ _ Hs Hstale) as [Hget Hsess].
    destruct (getSession sessionId t1 st) as [got st1]. cbn [fst snd] in Hget, Hsess.
    subst got. auto.
  - intros Hs. unfold addFileToSession. now rewrite (getSession_absent _ _ _ Hs).
Qed.

(** X11.  After a file has been added under each key, each call within
    the timeout of the one before, [hasBothFiles] is true. *)
Theorem both_files_after_two_uploads (sessionId : string) (data1 data2 : FileData)
    (t1 t2 t3 t4 t5 : Z) (st : Store) (session : UserSession) :
  sessions st !! sessionId = Some session ->
  t1 - s_lastActivity session <= SESSION_TIMEOUT ->
  t3 - t2 <= SESSION_TIMEOUT ->
  t5 - t4 <= SESSION_TIMEOUT ->
  fst (hasBothFiles sessionId t5
         (snd (addFileToSession sessionId key_file2 data2 t3 t4
                 (snd (addFileToSession sessionId key_file1 data1 t1 t2 st)))))
  = true.
Proof.
  intros Hs H1 H3 H5.
  destruct (proj1 (addFileToSession_stores_the_file sessionId key_file1 data1 t1 t2 st)
              session Hs H1) as [_ Hst1].
  set (st1 := snd (addFileToSession sessionId key_file1 data1 t1 t2 st)) in *.
  assert (Hs1 : sessions st1 !! sessionId
                = Some (withFile sessionId key_file1 data1 t2 session)).
  { rewrite Hst1. apply lookup_insert_eq. }
  destruct (proj1 (addFileToSession_stores_the_file sessionId key_file2 data2 t3 t4 st1)
              _ Hs1 H3) as [_ Hst2].
  set (st2 := snd (addFileToSession sessionId key_file2 data2 t3 t4 st1)) in *.
  assert (Hs2 : sessions st2 !! sessionId
                = Some (withFile sessionId key_file2 data2 t4
                          (withFile sessionId key_file1 data1 t2 session))).
  { rewrite Hst2. apply lookup_insert_eq. }
  unfold hasBothFiles.
  destruct (getSession_fresh sessionId t5 st2 _ Hs2 H5) as [Hget _].
  destruct (getSession sessionId t5 st2) as [got st3]. cbn [fst] in Hget. subst got.
  reflexivity.
Qed.

(** X12.  [getRemainingTime] measures from the [lastActivity] that its
    own [getSession] has just set, so for a session that is found the
    result depends only on the time between its two clock reads: 15 when
    they agree, 14 up to a minute apart; so [needsExpirationWarning] is
    false whenever the two reads are at most nine minutes apart. *)
Theorem remaining_time_restarts (sessionId : string) (t1 t2 : Z) (st : Store)
    (session : UserSession) :
  sessions st !! sessionId = Some session ->
  t1 - s_lastActivity session <= SESSION_TIMEOUT ->
  fst (getRemainingTime sessionId t1 t2 st)
  = Z.max 0 ((SESSION_TIMEOUT - (t2 - t1)) / 60000) /\
  (t2 = t1 -> fst (getRemainingTime sessionId t1 t2 st) = 15) /\
  (0 <= t2 - t1 <= 540000 ->
   fst (needsExpirationWarning sessionId t1 t2 st) = false).
Proof.
  intros Hs Hfresh.
  assert (Hrem : fst (getRemainingTime sessionId t1 t2 st)
                 = Z.max 0 ((SESSION_TIMEOUT - (t2 - t1)) / 60000)).
  { unfold getRemainingTime.
    destruct (getSession_fresh _ _ _ _ Hs Hfresh) as [Hget _].
    destruct (getSession sessionId t1 st) as [got st1]. cbn [fst] in Hget. subst got.
    reflexivity. }
  split; [exact Hrem|]. split.
  - intros ->. rewrite Hrem. replace (t1 - t1) with 0 by lia. reflexivity.
  - intros Hgap. unfold needsExpirationWarning.
    destruct (getRemainingTime sessionId t1 t2 st) as [remaining st1].
    cbn [fst] in Hrem |- *. subst remaining.
    assert (6 <= (SESSION_TIMEOUT - (t2 - t1)) / 60000).
    { apply Z.div_le_lower_bound; unfold SESSION_TIMEOUT; lia. }
    apply andb_false_iff. left. apply Z.leb_gt. lia.
Qed.

End SessionUtilsFacts.

Module InputFacts.
Import Js DuplicateChecker InputSpecs Samples.

Lemma check_Returns (failed : bool) (message : string) :
  check failed message = Returns tt <-> failed = false.
Proof. destruct failed; cbn; split; congruence. Qed.

Lemma seq_Returns (c k : outcome unit) :
  (c ;;; k) = Returns tt <-> c = Returns tt /\ k = Returns tt.
Proof.
  destruct c as [[]|message]; cbn; split; try tauto; try congruence.
Qed.

Lemma forEach_check_Returns {A : Type} (body : A -> outcome unit) (l : list A) :
  forEach_check body l = Returns tt <-> forall x, In x l -> body x = Returns tt.
Proof.
  induction l as [|x l IH]; cbn [forEach_check].
  - split; [intros _ x []|reflexivity].
  - rewrite seq_Returns, IH. split.
    + intros [Hx Hl] y [<-|Hy]; auto.
    + intros H. split; [apply H; now left|intros y Hy; apply H; now right].
Qed.

Lemma includes_In (name : string) (columns : list string) :
  includes name columns = true <-> In name columns.
Proof.
  unfold includes. rewrite existsb_exists. split.
  - intros (x & Hx & Heq). apply String.eqb_eq in Heq. now subst.
  - intros H. exists name. split; [exact H|apply String.eqb_refl].
Qed.

Lemma eqb_empty_false (s : string) : String.eqb s "" = false <-> s <> ""%string.
Proof. apply String.eqb_neq. Qed.

Lemma length_eqb_0 {A : Type} (l : list A) :
  Nat.eqb (length l) 0 = false <-> l <> [].
Proof. destruct l; cbn; split; congruence. Qed.

Lemma validateProcessingInputs_Returns (file1 file2 : FileData)
    (columnMapping : ColumnMapping) (mergeOptions : MergeOptions) :
  validateProcessingInputs file1 file2 columnMapping mergeOptions = Returns tt
  <-> acceptable file1 file2 columnMapping mergeOptions.
Proof.
  unfold validateProcessingInputs, acceptable, namesColumn.
  rewrite !seq_Returns, !check_Returns, !length_eqb_0, orb_false_iff,
    !negb_false_iff, !includes_In, !eqb_empty_false, forEach_check_Returns.
  assert (Hops :
    (if hasMergeAll mergeOptions then Returns tt
     else forEach_check
       (fun op =>
          check (String.eqb (column op) "" || String.eqb (operation op) "")
                "Invalid merge operation configuration" ;;;
          check (negb (includes (column op) (fd_columns file1 ++ fd_columns file2)))
                ("Column '" +:+ column op
                 +:+ "' specified in merge operations not found in either file"))
       (operations mergeOptions)) = Returns tt
    <-> (hasMergeAll mergeOptions = true \/
         forall op, In op (operations mergeOptions) ->
           (column op <> ""%string /\ operation op <> ""%string) /\
           In (column op) (fd_columns file1 ++ fd_columns file2))).
  { destruct (hasMergeAll mergeOptions).
    - split; [now left|reflexivity].
    - rewrite forEach_check_Returns. split.
      + intros H. right. intros op Hop. specialize (H op Hop).
        rewrite seq_Returns, !check_Returns, orb_false_iff, negb_false_iff,
          includes_In, !eqb_empty_false in H. exact H.
      + intros [Habs|H]; [discriminate|]. intros op Hop. specialize (H op Hop).
        rewrite seq_Returns, !check_Returns, orb_false_iff, negb_false_iff,
          includes_In, !eqb_empty_false. exact H. }
  rewrite Hops.
  assert (Hlast :
    (forall x, In x (operations mergeOptions) ->
       check (String.eqb (operation x) "")
         "Invalid merge operation configuration - missing operation" = Returns tt)
    <-> (forall op, In op (operations mergeOptions) -> operation op <> ""%string)).
  { split; intros H op Hop; specialize (H op Hop);
      rewrite check_Returns, eqb_empty_false in *; exact H. }
  rewrite Hlast. clear Hops Hlast.
  split.
  - intros (H1 & H2 & [H3 H4] & H5 & H6 & H7 & H8 & H9).
    repeat split; auto.
    destruct H8 as [H8|H8]; [now left|right]. intros op Hop.
    specialize (H8 op Hop). tauto.
  - intros (H1 & H2 & H3 & H4 & H5 & H6 & H7 & H9 & H8).
    repeat split; auto.
    destruct H8 as [H8|H8]; [now left|right]. intros op Hop.
    specialize (H8 op Hop). specialize (H9 op Hop). tauto.
Qed.

(** X13.  [processDuplicates] returns a result exactly on the inputs
    that [validateProcessingInputs] lets through: both files have rows, both
    key columns are named and are columns of their files, there is at least
    one operation, every operation has an operation name, and either some
    operation is MERGE_ALL or every operation names a column of one of the
    files.  On every other input it throws an error whose message begins
    with "Duplicate processing failed: ". *)
Theorem processDuplicates_accepts_iff (next : nat) (now : Z)
    (file1 file2 : FileData) (columnMapping : ColumnMapping)
    (mergeOptions : MergeOptions) :
  ((exists result,
      processDuplicates next now file1 file2 columnMapping mergeOptions
      = Returns result)
   <-> acceptable file1 file2 columnMapping mergeOptions) /\
  ((exists message,
      processDuplicates next now file1 file2 columnMapping mergeOptions
      = Throws ("Duplicate processing failed: " +:+ message))
   <-> ~ acceptable file1 file2 columnMapping mergeOptions).
Proof.
  rewrite <- (validateProcessingInputs_Returns file1 file2 columnMapping mergeOptions).
  unfold processDuplicates, processDuplicates_body.
  destruct (validateProcessingInputs file1 file2 columnMapping mergeOptions)
    as [[]|message]; cbn [bind].
  - split; split.
    + reflexivity.
    + intros _. eexists. reflexivity.
    + intros [message H]. discriminate.
    + intros H. now contradiction H.
  - split; split.
    + intros [result H]. discriminate.
    + discriminate.
    + discriminate.
    + intros _. exists message. reflexivity.
Qed.

Lemma processDuplicates_accepts_iff_witness :
  (exists result,
     processDuplicates 100 0 fileA fileB by_key sum_qty = Returns result) /\
  (exists message,
     processDuplicates 100 0 fileA fileB by_key {| operations := [] |}
     = Throws ("Duplicate processing failed: " +:+ message)).
Proof.
  split.
  - apply (proj1 (processDuplicates_accepts_iff 100 0 fileA fileB by_key sum_qty)).
    unfold acceptable, namesColumn. vm_compute.
    repeat split; try discriminate; try tauto.
    + intros op [<-|[]]. discriminate.
    + right. intros op [<-|[]]. split; [discriminate|tauto].
  - apply (proj2 (processDuplicates_accepts_iff 100 0 fileA fileB by_key
                    {| operations := [] |})).
    unfold acceptable. cbn. tauto.
Defined.

End InputFacts.

Module SessionUtilsExamples.
Import DuplicateChecker SessionStore SessionStoreFacts SessionSweep SessionUtils
  SweepSpecs SessionSpecs SweepFacts SessionUtilsFacts Samples SessionSamples.

Lemma sweep_removes_the_stale_witness :
  sessions (snd (cleanupExpiredSessions 1000000 twoSessions)) !! "a"%string = None /\
  fst (cleanupExpiredSessions 1000000 twoSessions) = 1%nat.
Proof.
  unfold cleanupExpiredSessions.
  destruct (sweep_removes_the_stale 1000000 (map_to_list (sessions twoSessions))
              twoSessions (Permutation_refl _)) as [Hk Hcount].
  split.
  - rewrite Hk. vm_compute. reflexivity.
  - rewrite Hcount. vm_compute. reflexivity.
Defined.

Lemma addFileToSession_stores_the_file_witness :
  fst (addFileToSession "s" key_file1 fileA 1000 1001 oneSession) = true /\
  addFileToSession "t" key_file1 fileA 1000 1001 oneSession = (false, oneSession).
Proof.
  split.
  - refine (proj1 (proj1 (addFileToSession_stores_the_file "s" key_file1 fileA
                            1000 1001 oneSession) newSession _ _)).
    + vm_compute. reflexivity.
    + vm_compute. discriminate.
  - apply (proj2 (proj2 (addFileToSession_stores_the_file "t" key_file1 fileA
                           1000 1001 oneSession))).
    vm_compute. reflexivity.
Defined.

Lemma both_files_after_two_uploads_witness :
  fst (hasBothFiles "s" 3000
         (snd (addFileToSession "s" key_file2 fileB 2000 2001
                 (snd (addFileToSession "s" key_file1 fileA 1000 1001 oneSession)))))
  = true.
Proof.
  apply (both_files_after_two_uploads "s" fileA fileB 1000 1001 2000 2001 3000
           oneSession newSession).
  - vm_compute. reflexivity.
  - vm_compute. discriminate.
  - vm_compute. discriminate.
  - vm_compute. discriminate.
Defined.

Lemma remaining_time_restarts_witness :
  fst (getRemainingTime "s" 840000 840000 oneSession) = 15 /\
  fst (needsExpirationWarning "s" 840000 840001 oneSession) = false.
Proof.
  split.
  - refine (proj1 (proj2 (remaining_time_restarts "s" 840000 840000 oneSession
                            newSession _ _)) eq_refl).
    + vm_compute. reflexivity.
    + vm_compute. discriminate.
  - refine (proj2 (proj2 (remaining_time_restarts "s" 840000 840001 oneSession
                            newSession _ _)) _).
    + vm_compute. reflexivity.
    + vm_compute. discriminate.
    + lia.
Defined.

End SessionUtilsExamples.

Module SessionQueryFacts.
Import DuplicateChecker SessionStore SessionStoreFacts SessionUtils SessionUtilsFacts
  SessionSamples.

(** X14.  The four session queries of session-utils are not read-only:
    on a stored session that is not stale, each of [hasBothFiles],
    [getRemainingTime], [needsExpirationWarning] and [validateSession]
    leaves the session with [lastActivity] set to the time of the call, and
    changes nothing else of it; so a client that polls any of them at least
    every 15 minutes keeps its session alive. *)
Theorem session_queries_refresh (sessionId : string) (t1 t2 : Z) (st : Store)
    (session : UserSession) :
  sessions st !! sessionId = Some session ->
  t1 - s_lastActivity session <= SESSION_TIMEOUT ->
  sessions (snd (hasBothFiles sessionId t1 st)) !! sessionId
  = Some (set_lastActivity t1 session) /\
  sessions (snd (getRemainingTime sessionId t1 t2 st)) !! sessionId
  = Some (set_lastActivity t1 session) /\
  sessions (snd (needsExpirationWarning sessionId t1 t2 st)) !! sessionId
  = Some (set_lastActivity t1 session) /\
  (sessionId <> ""%string ->
   validateSession sessionId t1 st
   = ({| sc_valid := true; sc_error := None |}, snd (getSession sessionId t1 st)) /\
   sessions (snd (validateSession sessionId t1 st)) !! sessionId
   = Some (set_lastActivity t1 session)).
Proof.
  intros Hs Hfresh.
  destruct (getSession_fresh _ _ _ _ Hs Hfresh) as [Hget Hsess].
  assert (Hlook : sessions (snd (getSession sessionId t1 st)) !! sessionId
                  = Some (set_lastActivity t1 session)).
  { rewrite Hsess. apply lookup_insert_eq. }
  unfold needsExpirationWarning, hasBothFiles, getRemainingTime, validateSession.
  destruct (getSession sessionId t1 st) as [got st1]. cbn [fst snd] in *. subst got.
  split; [exact Hlook|]. split; [exact Hlook|]. split; [exact Hlook|].
  intros Hne. apply String.eqb_neq in Hne. rewrite Hne. cbn [snd].
  split; [reflexivity|exact Hlook].
Qed.

Lemma session_queries_refresh_witness :
  sessions (snd (hasBothFiles "s" 840000 oneSession)) !! "s"%string
  = Some (set_lastActivity 840000 newSession).
Proof.
  refine (proj1 (session_queries_refresh "s" 840000 840000 oneSession newSession _ _)).
  - vm_compute. reflexivity.
  - vm_compute. discriminate.
Defined.

End SessionQueryFacts.

Module JsTextFacts.
Import Js JsText.

Lemma existsb_eqb_In (item : string) (set : list string) :
  existsb (String.eqb item) set = true <-> In item set.
Proof.
  rewrite existsb_exists. split.
  - intros (y & Hy & Heq). apply String.eqb_eq in Heq. now subst.
  - intros H. exists item. split; [exact H|apply String.eqb_refl].
Qed.

Lemma Set_add_In (set : list string) (item x : string) :
  In x (Set_add set item) <-> In x set \/ x = item.
Proof.
  unfold Set_add. destruct (existsb (String.eqb item) set) eqn:Hex.
  - apply existsb_eqb_In in Hex. split; [tauto|]. intros [H| ->]; assumption.
  - rewrite in_app_iff. cbn. intuition congruence.
Qed.

Lemma Set_fold_In (items set : list string) (x : string) :
  In x (fold_left Set_add items set) <-> In x set \/ In x items.
Proof.
  revert set. induction items as [|item items IH]; intros set; cbn [fold_left].
  - cbn. tauto.
  - rewrite IH, Set_add_In. cbn. intuition congruence.
Qed.

Lemma Set_fold_NoDup (items set : list string) :
  List.NoDup set -> List.NoDup (fold_left Set_add items set).
Proof.
  revert set. induction items as [|item items IH]; intros set Hset; cbn [fold_left].
  - exact Hset.
  - apply IH. unfold Set_add. destruct (existsb (String.eqb item) set) eqn:Hex.
    + exact Hset.
    + apply List.NoDup_app; [exact Hset|repeat constructor; intros []|].
      intros a Ha [<-|[]]. apply existsb_eqb_In in Ha. congruence.
Qed.

Lemma Set_fold_length (items set : list string) :
  (length (fold_left Set_add items set) <= length set + length items)%nat /\
  (length (fold_left Set_add items set) = (length set + length items)%nat
   <-> List.NoDup items /\ forall x, In x items -> ~ In x set).
Proof.
  revert set. induction items as [|item items IH]; intros set; cbn [fold_left length].
  - split; [lia|]. split; [intros _; split; [constructor|intros x []]|lia].
  - destruct (IH (Set_add set item)) as [Hle Hiff]. unfold Set_add in *.
    destruct (existsb (String.eqb item) set) eqn:Hex.
    + apply existsb_eqb_In in Hex. split; [lia|]. split; [lia|].
      intros [_ H]. exfalso. apply (H item); [now left|exact Hex].
    + assert (Hnotin : ~ In item set).
      { intros H. apply existsb_eqb_In in H. congruence. }
      rewrite length_app in *. cbn [length] in *. split; [lia|].
      replace (length set + S (length items))%nat
        with (length set + 1 + length items)%nat by lia.
      rewrite Hiff. rewrite List.NoDup_cons_iff. split.
      * intros [Hnd H]. split; [split; [|exact Hnd]|].
        -- intros Hin. apply (H item Hin). apply in_or_app. right. now left.
        -- intros x [<-|Hx]; [exact Hnotin|].
           intros Hset. apply (H x Hx). apply in_or_app. now left.
      * intros [[Hitem Hnd] H]. split; [exact Hnd|].
        intros x Hx Hin. apply in_app_or in Hin as [Hin|[<-|[]]].
        -- apply (H x); [now right|exact Hin].
        -- contradiction.
Qed.

(** A [Set] built from a list has as many elements as the list exactly when
    the list has no element twice. *)
Lemma Set_of_size (items : list string) :
  length (Set_of items) = length items <-> List.NoDup items.
Proof.
  unfold Set_of. destruct (Set_fold_length items []) as [_ H]. cbn [length] in H.
  rewrite H. split; [tauto|]. intros Hnd. split; [exact Hnd|]. intros x _ [].
Qed.

Lemma Set_of_In (items : list string) (x : string) :
  In x (Set_of items) <-> In x items.
Proof. unfold Set_of. rewrite Set_fold_In. cbn. tauto. Qed.

Lemma Set_of_NoDup (items : list string) : List.NoDup (Set_of items).
Proof. apply Set_fold_NoDup. constructor. Qed.

End JsTextFacts.

Module DataValidatorFacts.
Import Js JsText DuplicateChecker ResultProcessor DataValidator DataValidatorSpecs
  JsTextFacts InputFacts Samples.

Lemma push_if_app (failed : bool) (message : string) (errors : list string) :
  push_if failed message errors = errors ++ (if failed then [message] else []).
Proof. unfold push_if. destruct failed; [reflexivity|now rewrite app_nil_r]. Qed.

Lemma checkRows_app (columns : list string) (rows : list Row) (i : nat)
    (errors : list string) :
  checkRows columns rows i errors = errors ++ checkRows columns rows i [].
Proof.
  revert i errors. induction rows as [|row rows IH]; intros i errors; cbn [checkRows].
  - now rewrite app_nil_r.
  - destruct (Nat.eqb (length (keys (row_fields row))) 0).
    + rewrite IH, (IH _ ([] ++ _)). cbn [app]. now rewrite <- app_assoc.
    + rewrite IH, (IH _ (push_if _ _ [])), !push_if_app. cbn [app].
      now rewrite <- app_assoc.
Qed.

Lemma filter_nil_iff {A : Type} (p : A -> bool) (l : list A) :
  List.filter p l = [] <-> forall x, In x l -> p x = false.
Proof.
  induction l as [|x l IH]; cbn; [tauto|].
  destruct (p x) eqn:Hp.
  - split; [discriminate|]. intros H. specialize (H x (or_introl eq_refl)). congruence.
  - rewrite IH. split; [intros H y [<-|Hy]; auto|intros H y Hy; apply H; now right].
Qed.

Lemma checkRows_nil (columns : list string) (rows : list Row) (i : nat) :
  checkRows columns rows i [] = [] <-> forall row, In row rows -> rowFits columns row.
Proof.
  revert i. induction rows as [|row rows IH]; intros i; cbn [checkRows].
  - split; [intros _ row []|reflexivity].
  - destruct (keys (row_fields row)) as [|key rowKeys] eqn:Hkeys; cbn [length Nat.eqb].
    + rewrite checkRows_app. split.
      * intros H. apply app_eq_nil in H as [H _]. discriminate.
      * intros H. destruct (H row (or_introl eq_refl)) as [Hne _]. congruence.
    + rewrite checkRows_app, push_if_app. cbn [app].
      split.
      * intros H. apply app_eq_nil in H as [Hrow Hrest].
        pose proof (proj1 (IH _) Hrest) as Hrest'. intros row' [<-|Hin]; [|now apply Hrest'].
        unfold rowFits. rewrite Hkeys. split; [discriminate|].
        intros k Hk. apply includes_In.
        destruct (List.filter _ (key :: rowKeys)) as [|u us] eqn:Hf; [|discriminate].
        pose proof (proj1 (filter_nil_iff _ _) Hf k Hk) as Hn.
        now apply negb_false_iff in Hn.
      * intros H.
        assert (Hf : List.filter (fun key0 => negb (includes key0 columns))
                       (key :: rowKeys) = []).
        { apply filter_nil_iff. intros k Hk. apply negb_false_iff, includes_In.
          destruct (H row (or_introl eq_refl)) as [_ Hall]. apply Hall.
          now rewrite Hkeys. }
        rewrite Hf. cbn. apply (proj2 (IH _)). intros row' Hin. apply H. now right.
Qed.

Lemma finish_valid (errors : list string) :
  finish errors = Return {| valid := true; errors := [] |} <-> errors = [].
Proof.
  unfold finish. split.
  - intros H. now inversion H.
  - intros ->. reflexivity.
Qed.

Lemma firstn_min_100 {A : Type} (l : list A) :
  firstn (Nat.min 100 (length l)) l = firstn 100 l.
Proof.
  destruct (Nat.le_gt_cases 100 (length l)) as [H|H].
  - now rewrite Nat.min_l.
  - rewrite Nat.min_r by lia. rewrite !firstn_all2 by lia. reflexivity.
Qed.

(** X15.  [validateFileData] answers valid, with no error, exactly when
    [columns] and [data] are there and: there is a row and a column; no two
    column names agree after lower-casing and trimming; no column name is
    blank; [rowCount] is the number of rows, at most 100000; and each of the
    first 100 rows has a key and only keys that are columns.  It throws a
    TypeError, rather than report, exactly when [columns] or [data] is
    missing. *)
Theorem validateFileData_valid_iff (fileData : RawFileData) :
  (validateFileData fileData = Return {| valid := true; errors := [] |}
   <-> exists columns data,
         raw_columns fileData = Some columns /\ raw_data fileData = Some data /\
         wellFormed columns data (raw_rowCount fileData)) /\
  (validateFileData fileData = TypeError
   <-> raw_columns fileData = None \/ raw_data fileData = None) /\
  (forall v, validateFileData fileData = Return v -> valid v = true -> errors v = []).
Proof.
  unfold validateFileData.
  destruct (raw_columns fileData) as [columns|]; cycle 1.
  { split; [|split].
    - split; [discriminate|]. intros (c & d & H & _). discriminate.
    - split; [now left|reflexivity].
    - discriminate. }
  destruct (raw_data fileData) as [data|]; cycle 1.
  { split; [|split].
    - split; [discriminate|]. intros (c & d & _ & H & _). discriminate.
    - split; [now right|reflexivity].
    - discriminate. }
  split; [|split].
  - rewrite finish_valid. unfold wellFormed, missingOrEmpty.
    rewrite firstn_min_100.
    assert (Hrows :
      (if Nat.ltb 0 (length data) then checkRows columns (firstn 100 data) 0 [] else [])
      = [] <-> forall row, In row (firstn 100 data) -> rowFits columns row).
    { destruct data as [|row data]; [cbn; split; [intros _ r []|reflexivity]|].
      cbn [length Nat.ltb Nat.leb]. apply checkRows_nil. }
    split.
    + intros H.
      destruct (Nat.ltb 0 (length data)) eqn:Hlen in H.
      * rewrite checkRows_app in H. rewrite !push_if_app in H.
        repeat (apply app_eq_nil in H as [H ?]).
        exists columns, data. split; [reflexivity|]. split; [reflexivity|].
        destruct (Nat.eqb (length data) 0) eqn:Hd; [discriminate|].
        destruct (Nat.eqb (length columns) 0) eqn:Hc; [discriminate|].
        destruct (Nat.eqb (length (Set_of (map (fun col => trim (toLowerCase col)) columns)))
                    (length columns)) eqn:Hu; [|discriminate].
        destruct (Nat.ltb 0 (length (List.filter _ columns))) eqn:He; [discriminate|].
        destruct (raw_rowCount fileData =? Z.of_nat (length data)) eqn:Hr; [|discriminate].
        destruct (100000 <? Z.of_nat (length data)) eqn:Hm; [discriminate|].
        apply length_eqb_0 in Hd, Hc. apply Nat.eqb_eq in Hu.
        rewrite <- (length_map (fun col => trim (toLowerCase col)) columns) in Hu.
        apply Set_of_size in Hu. apply Z.eqb_eq in Hr. apply Z.ltb_ge in Hm.
        split; [exact Hd|]. split; [exact Hc|]. split; [exact Hu|].
        split; [|split; [exact Hr|split; [exact Hm|]]].
        -- intros col Hcol Hblank.
           apply Nat.ltb_ge in He.
           assert (Hin : In col (List.filter
                     (fun col => String.eqb col "" || String.eqb (trim col) "") columns)).
           { apply filter_In. split; [exact Hcol|]. rewrite Hblank.
             apply orb_true_r. }
           destruct (List.filter _ columns); [destruct Hin|cbn in He; lia].
        -- apply Hrows. now rewrite Hlen.
      * rewrite !push_if_app in H. repeat (apply app_eq_nil in H as [H ?]).
        destruct data; [discriminate|discriminate].
    + intros (c & d & [= <-] & [= <-] & Hd & Hc & Hu & Hblank & Hr & Hm & Hfit).
      assert (Hfilter : List.filter
                (fun col => String.eqb col "" || String.eqb (trim col) "") columns = []).
      { apply filter_nil_iff. intros col Hcol. apply orb_false_iff. split.
        - apply String.eqb_neq. intros ->. now apply (Hblank ""%string Hcol).
        - apply String.eqb_neq. now apply Hblank. }
      apply Set_of_size in Hu. rewrite length_map in Hu.
      apply length_eqb_0 in Hd, Hc.
      assert (Hlt : Nat.ltb (length columns) 1 = false).
      { destruct columns; [discriminate|reflexivity]. }
      rewrite Hd, Hc, Hlt, Hu, Nat.eqb_refl, Hfilter, Hr, Z.eqb_refl.
      replace (100000 <? Z.of_nat (length data)) with false
        by (symmetry; apply Z.ltb_ge; lia).
      cbn [push_if negb length Nat.ltb Nat.leb].
      apply Hrows. exact Hfit.
  - split; [discriminate|]. intros [H|H]; discriminate.
  - intros v [= <-]. cbn [valid errors]. intros H. apply Nat.eqb_eq in H.
    now apply length_zero_iff_nil.
Qed.

End DataValidatorFacts.

Module TrimFacts.
Import Js JsText DataValidatorSpecs.

Lemma trimStart_chars (s : string) :
  chars (trimStart s) = dropWhiteSpace (chars s).
Proof.
  unfold chars. induction s as [|c s IH]; cbn; [reflexivity|].
  destruct (isWhiteSpace c); [exact IH|reflexivity].
Qed.

Lemma chars_inj (s t : string) : chars s = chars t -> s = t.
Proof.
  unfold chars. intros H.
  rewrite <- (string_of_list_ascii_of_string s), <- (string_of_list_ascii_of_string t).
  now rewrite H.
Qed.

Lemma chars_reverse_string (s : string) : chars (reverse_string s) = rev (chars s).
Proof. unfold chars, reverse_string. apply list_ascii_of_string_of_list_ascii. Qed.

Lemma trimEnd_chars (s : string) :
  chars (trimEnd s) = rev (dropWhiteSpace (rev (chars s))).
Proof.
  unfold trimEnd. now rewrite chars_reverse_string, trimStart_chars, chars_reverse_string.
Qed.

Lemma trim_chars (s : string) :
  chars (trim s) = rev (dropWhiteSpace (rev (dropWhiteSpace (chars s)))).
Proof. unfold trim. now rewrite trimEnd_chars, trimStart_chars. Qed.

Lemma dropWhiteSpace_idem (l : list ascii) :
  dropWhiteSpace (dropWhiteSpace l) = dropWhiteSpace l.
Proof.
  induction l as [|c l IH]; cbn; [reflexivity|].
  destruct (isWhiteSpace c) eqn:Hc; [exact IH|]. cbn. now rewrite Hc.
Qed.

(** What [dropWhiteSpace] leaves is empty or begins with a code unit that
    is no white space. *)
Lemma dropWhiteSpace_head (l : list ascii) :
  dropWhiteSpace l = [] \/
  exists c rest, dropWhiteSpace l = c :: rest /\ isWhiteSpace c = false.
Proof.
  induction l as [|c l IH]; cbn; [now left|].
  destruct (isWhiteSpace c) eqn:Hc; [exact IH|]. right. now exists c, l.
Qed.

Lemma dropWhiteSpace_fixed (c : ascii) (l : list ascii) :
  isWhiteSpace c = false -> dropWhiteSpace (c :: l) = c :: l.
Proof. intros Hc. cbn. now rewrite Hc. Qed.

(** Dropping white space at the end keeps the head of a list that begins
    with a code unit that is no white space. *)
Lemma dropWhiteSpace_snoc (l : list ascii) (c : ascii) :
  isWhiteSpace c = false ->
  exists l', dropWhiteSpace (l ++ [c]) = l' ++ [c].
Proof.
  intros Hc. induction l as [|d l IH]; cbn.
  - rewrite Hc. now exists [].
  - destruct (isWhiteSpace d); [exact IH|]. now exists (d :: l).
Qed.

Lemma dropEnd_head (c : ascii) (l : list ascii) :
  isWhiteSpace c = false ->
  exists rest, rev (dropWhiteSpace (rev (c :: l))) = c :: rest.
Proof.
  intros Hc. cbn [rev]. destruct (dropWhiteSpace_snoc (rev l) c Hc) as [l' ->].
  rewrite rev_app_distr. cbn. now exists (rev l').
Qed.

(** A trimmed string is empty or begins with a code unit that is no white
    space. *)
Lemma trim_head (s : string) :
  trim s = ""%string \/
  exists c rest, trim s = String c rest /\ isWhiteSpace c = false.
Proof.
  destruct (dropWhiteSpace_head (chars s)) as [Hnil|(c & rest & Hd & Hc)].
  - left. apply chars_inj. rewrite trim_chars, Hnil. reflexivity.
  - right. destruct (dropEnd_head c rest Hc) as [rest' Hrest].
    exists c, (string_of_list_ascii rest'). split; [|exact Hc].
    apply chars_inj. rewrite trim_chars, Hd, Hrest. unfold chars. cbn.
    now rewrite list_ascii_of_string_of_list_ascii.
Qed.

Lemma trim_idem (s : string) : trim (trim s) = trim s.
Proof.
  apply chars_inj. rewrite (trim_chars (trim s)), trim_chars.
  set (t := dropWhiteSpace (chars s)).
  assert (Hstart : dropWhiteSpace (rev (dropWhiteSpace (rev t)))
                   = rev (dropWhiteSpace (rev t))).
  { destruct (dropWhiteSpace_head (chars s)) as [Hnil|(c & rest & Hd & Hc)];
      fold t in Hnil || fold t in Hd.
    - rewrite Hnil. reflexivity.
    - rewrite Hd. destruct (dropEnd_head c rest Hc) as [rest' ->].
      now apply dropWhiteSpace_fixed. }
  rewrite Hstart, rev_involutive, dropWhiteSpace_idem. reflexivity.
Qed.



Lemma dropWhiteSpace_length (l : list ascii) :
  (length (dropWhiteSpace l) <= length l)%nat.
Proof.
  induction l as [|d l IH]; cbn; [lia|]. destruct (isWhiteSpace d); cbn; lia.
Qed.

Lemma chars_length (s : string) : length (chars s) = String.length s.
Proof. unfold chars. induction s; cbn; congruence. Qed.

Lemma trim_length (s : string) : (String.length (trim s) <= String.length s)%nat.
Proof.
  rewrite <- !chars_length, trim_chars, length_rev.
  etransitivity; [apply dropWhiteSpace_length|]. rewrite length_rev.
  apply dropWhiteSpace_length.
Qed.

(** *** slice, and the replacements *)

Lemma slice0_length (n : nat) (s : string) : (String.length (slice0 n s) <= n)%nat.
Proof.
  revert s. induction n as [|n IH]; intros [|c s]; cbn; try lia.
  specialize (IH s). lia.
Qed.

Lemma slice0_incl (n : nat) (s : string) (c : ascii) :
  In c (chars (slice0 n s)) -> In c (chars s).
Proof.
  unfold chars. revert s. induction n as [|n IH]; intros [|d s]; cbn; try tauto.
  intros [H|H]; [now left|right; now apply IH].
Qed.

Lemma slice0_head (n : nat) (c : ascii) (s : string) :
  slice0 (S n) (String c s) = String c (slice0 n s).
Proof. reflexivity. Qed.

Lemma slice0_all (n : nat) (s : string) :
  (String.length s <= n)%nat -> slice0 n s = s.
Proof.
  revert s. induction n as [|n IH]; intros [|c s]; cbn; try reflexivity; try lia.
  intros H. f_equal. apply IH. lia.
Qed.

Lemma removeChars_In (class : ascii -> bool) (s : string) (c : ascii) :
  In c (chars (removeChars class s)) <-> In c (chars s) /\ class c = false.
Proof.
  unfold chars. induction s as [|d s IH]; cbn; [tauto|].
  destruct (class d) eqn:Hd; cbn; rewrite IH; intuition congruence.
Qed.


Lemma replaceChars_In (class : ascii -> bool) (r : ascii) (s : string) (c : ascii) :
  In c (chars (replaceChars class r s)) ->
  (In c (chars s) /\ class c = false) \/ c = r.
Proof.
  unfold chars. induction s as [|d s IH]; cbn; [tauto|].
  intros [H|H].
  - destruct (class d) eqn:Hd; [now right|]. left. subst. split; [now left|exact Hd].
  - destruct (IH H) as [[? ?]|?]; [left; split; [now right|assumption]|now right].
Qed.


Lemma replaceWhiteSpaceRuns_In (inRun : bool) (s : string) (c : ascii) :
  In c (chars (replaceWhiteSpaceRuns inRun s)) ->
  (In c (chars s) /\ isWhiteSpace c = false) \/ c = " "%char.
Proof.
  unfold chars. revert inRun. induction s as [|d s IH]; intros inRun; cbn; [tauto|].
  destruct (isWhiteSpace d) eqn:Hd.
  - destruct inRun; cbn.
    + intros H. destruct (IH _ H) as [[? ?]|?]; [left; split; [now right|assumption]|now right].
    + intros [H|H]; [now right|].
      destruct (IH _ H) as [[? ?]|?]; [left; split; [now right|assumption]|now right].
  - cbn. intros [H|H]; [left; subst; split; [now left|assumption]|].
    destruct (IH _ H) as [[? ?]|?]; [left; split; [now right|assumption]|now right].
Qed.

End TrimFacts.

Module SanitizeFacts.
Import Js JsText DuplicateChecker ResultProcessor DataValidator DataValidatorSpecs
  JsTextFacts InputFacts MergeFacts TrimFacts DataValidatorFacts Samples DataSamples.

Lemma validateFileData_valid_iff_witness :
  validateFileData (rawFile [fittingRow]) = Return {| valid := true; errors := [] |}.
Proof.
  apply (proj1 (validateFileData_valid_iff (rawFile [fittingRow]))).
  exists ["key"%string], [fittingRow]. split; [reflexivity|]. split; [reflexivity|].
  unfold wellFormed, rowFits. cbn.
  repeat split; try discriminate; try lia.
  - repeat constructor. intros [].
  - intros col [<-|[]]. vm_compute. discriminate.
  - destruct H as [<-|[]]. discriminate.
  - destruct H as [<-|[]]. cbn. tauto.
Defined.

(** X16.  [validateFileData] inspects the first 100 rows only: two
    files that agree on their columns, their row count and their first 100
    rows, and have as many rows, get the same answer, whatever the rows
    after the first 100 hold. *)
Theorem validateFileData_samples_100 (columns : option (list string)) (rowCount : Z)
    (sampled rest rest' : list Row) :
  length sampled = 100%nat ->
  length rest = length rest' ->
  validateFileData {| raw_data := Some (sampled ++ rest); raw_columns := columns;
                      raw_rowCount := rowCount |}
  = validateFileData {| raw_data := Some (sampled ++ rest'); raw_columns := columns;
                        raw_rowCount := rowCount |}.
Proof.
  intros Hsampled Hrest. unfold validateFileData, missingOrEmpty.
  cbn [raw_data raw_columns raw_rowCount].
  destruct columns as [columns|]; [|reflexivity].
  rewrite !firstn_min_100, !length_app, Hrest.
  rewrite !firstn_app, Hsampled, Nat.sub_diag, !firstn_O. reflexivity.
Qed.

Lemma validateFileData_samples_100_witness :
  validateFileData (rawFile (hundredRows ++ [strayRow]))
  = Return {| valid := true; errors := [] |}.
Proof.
  unfold rawFile.
  replace (length (hundredRows ++ [strayRow])) with (length (hundredRows ++ [fittingRow]))
    by reflexivity.
  rewrite (validateFileData_samples_100 (Some ["key"%string])
             (Z.of_nat (length (hundredRows ++ [fittingRow])))
             hundredRows [strayRow] [fittingRow] eq_refl eq_refl).
  vm_compute. reflexivity.
Defined.

(** *** sanitizeColumnName *)

Lemma code_inj (c : ascii) (n : Z) : code c = n -> c = ascii_of_nat (Z.to_nat n).
Proof.
  unfold code. intros <-. now rewrite Nat2Z.id, ascii_nat_embedding.
Qed.

Lemma isSpecialChar_false (c : ascii) :
  isSpecialChar c = false ->
  isWordChar c = true \/ isWhiteSpace c = true \/ c = "."%char \/ c = "-"%char.
Proof.
  unfold isSpecialChar. rewrite negb_false_iff, !orb_true_iff.
  intros [[[H|H]|H]|H]; auto.
  - right. right. left. apply Z.eqb_eq in H. exact (code_inj c 46 H).
  - right. right. right. apply Z.eqb_eq in H. exact (code_inj c 45 H).
Qed.

(** X17.  A sanitised column name has at most 100 code units, each of
    them a letter of A-Z or a-z, a digit, an underscore, a space, a dot or a
    dash: tabs and line breaks have become spaces and every other character
    is gone. *)
Theorem sanitizeColumnName_safe (columnName : string) :
  (String.length (sanitizeColumnName columnName) <= 100)%nat /\
  forall c, In c (chars (sanitizeColumnName columnName)) -> nameChar c.
Proof.
  unfold sanitizeColumnName.
  destruct (String.eqb columnName ""); [cbn; split; [lia|tauto]|].
  split; [apply slice0_length|].
  intros c Hc. apply slice0_incl in Hc. apply removeChars_In in Hc as [Hc Hclass].
  unfold nameChar.
  apply replaceWhiteSpaceRuns_In in Hc as [[_ Hws]| ->]; [|tauto].
  destruct (isSpecialChar_false c Hclass) as [H|[H|H]]; [tauto|congruence|tauto].
Qed.

(** *** sanitizeValue *)

Lemma clean_text (dateTime : nat -> option number) (s : string) :
  String.eqb (trim s) "" = false ->
  cleanCell dateTime (VString (slice0 1000 (trim s))).
Proof.
  intros Hne. apply String.eqb_neq in Hne.
  destruct (trim_head s) as [H|(c & rest & H & Hc)]; [congruence|].
  rewrite H. cbn [cleanCell]. change (slice0 1000 (String c rest))
    with (String c (slice0 999 rest)).
  split.
  - cbn [String.length]. pose proof (slice0_length 999 rest). lia.
  - now exists c, (slice0 999 rest).
Qed.

End SanitizeFacts.

Module SanitizeRowFacts.
Import Js JsText DuplicateChecker ResultProcessor DataValidator DataValidatorSpecs
  JsTextFacts InputFacts MergeFacts TrimFacts DataValidatorFacts SanitizeFacts
  Samples DataSamples.

(** X18.  Whatever a cell holds, [sanitizeValue] leaves null, a boolean,
    a finite number, a valid date, or a text of 1 to 1000 code units that
    begins with no white space (never [undefined], NaN, an infinity or an
    empty text); and it changes no such cell whose text, if it is one, has
    no white space at its end either. *)
Theorem sanitizeValue_clean (dateTime : nat -> option number) (value : Value) :
  cleanCell dateTime (sanitizeValue dateTime value) /\
  (cleanCell dateTime value ->
   (forall s, value = VString s -> trim s = s) ->
   sanitizeValue dateTime value = value).
Proof.
  split.
  - destruct value as [| |b|x|s|ref text]; cbn [sanitizeValue]; try exact I.
    + destruct x; cbn; auto.
    + destruct (String.eqb (trim s) "") eqn:Hs; [exact I|]. now apply clean_text.
    + destruct (dateTime ref) as [time|] eqn:Hd.
      * destruct (isNaN time) eqn:Ht; [exact I|]. cbn. rewrite Hd. now exists time.
      * destruct (String.eqb (trim text) "") eqn:Hs; [exact I|]. now apply clean_text.
  - intros Hclean Htrim.
    destruct value as [| |b|x|s|ref text]; cbn [sanitizeValue cleanCell] in *;
      try reflexivity; try contradiction.
    + destruct Hclean as [-> ->]. reflexivity.
    + rewrite (Htrim s eq_refl). destruct Hclean as [Hlen (c & rest & -> & Hc)].
      cbn [String.eqb]. now rewrite slice0_all by lia.
    + destruct Hclean as (time & -> & ->). reflexivity.
Qed.

Lemma sanitizeValue_clean_witness :
  sanitizeValue noDates (VNumber (of_Z 3)) = VNumber (of_Z 3).
Proof.
  apply (proj2 (sanitizeValue_clean noDates (VNumber (of_Z 3)))).
  - vm_compute. split; reflexivity.
  - intros s Hs. discriminate.
Defined.

(** *** sanitizeDataRow *)

Section Rows.
Variable g : string -> Value.

Lemma fold_setColumn_notin (columns : list string) (acc : Fields) (key : string) :
  ~ In key columns ->
  lookup_field key (fold_left (setColumn g) columns acc) = lookup_field key acc.
Proof.
  revert acc. induction columns as [|c columns IH]; intros acc Hnotin; cbn [fold_left].
  - reflexivity.
  - rewrite IH by (intros H; apply Hnotin; now right).
    unfold setColumn. apply lookup_set_field_ne. intros ->. apply Hnotin. now left.
Qed.

Lemma fold_setColumn_in (columns : list string) (acc : Fields) (key : string) :
  In key columns ->
  lookup_field key (fold_left (setColumn g) columns acc) = Some (g key).
Proof.
  revert acc. induction columns as [|c columns IH]; intros acc Hin; cbn [fold_left].
  - destruct Hin.
  - destruct (in_dec string_dec key columns) as [Hlater|Hnot].
    + now apply IH.
    + destruct Hin as [->|Hin]; [|contradiction].
      rewrite fold_setColumn_notin by exact Hnot.
      unfold setColumn. apply lookup_set_field_eq.
Qed.

Lemma lookup_field_keys (key : string) (fs : Fields) :
  In key (keys fs) <-> lookup_field key fs <> None.
Proof.
  rewrite <- has_In. unfold has. destruct (lookup_field key fs); split; congruence.
Qed.

Lemma fold_setColumn_keys (columns : list string) (key : string) :
  In key (keys (fold_left (setColumn g) columns [])) <-> In key columns.
Proof.
  rewrite lookup_field_keys.
  destruct (in_dec string_dec key columns) as [Hin|Hnot].
  - rewrite fold_setColumn_in by exact Hin. split; [intros _; exact Hin|discriminate].
  - rewrite fold_setColumn_notin by exact Hnot. cbn. tauto.
Qed.

Lemma fold_setColumn_NoDup (columns : list string) (acc : Fields) :
  List.NoDup (keys acc) -> List.NoDup (keys (fold_left (setColumn g) columns acc)).
Proof.
  revert acc. induction columns as [|c columns IH]; intros acc Hacc; cbn [fold_left].
  - exact Hacc.
  - apply IH. unfold setColumn. rewrite keys_set_field.
    destruct (has c acc) eqn:Hhas; [exact Hacc|].
    apply List.NoDup_app; [exact Hacc|repeat constructor; intros []|].
    intros a Ha [<-|[]]. apply has_In in Ha. congruence.
Qed.

End Rows.

Lemma sanitizeDataRow_fields (dateTime : nat -> option number) (ref : nat)
    (row : Row) (validColumns : list string) :
  row_ref (sanitizeDataRow dateTime ref row validColumns) = ref /\
  List.NoDup (keys (row_fields (sanitizeDataRow dateTime ref row validColumns))) /\
  (forall column,
     In column (keys (row_fields (sanitizeDataRow dateTime ref row validColumns)))
     <-> In column validColumns) /\
  (forall column, In column validColumns ->
     get (row_fields (sanitizeDataRow dateTime ref row validColumns)) column
     = sanitizeValue dateTime (get (row_fields row) column)).
Proof.
  unfold sanitizeDataRow. cbn [row_ref row_fields].
  set (g := fun column => sanitizeValue dateTime (get (row_fields row) column)).
  change (fun sanitized column => set_field column
            (sanitizeValue dateTime (get (row_fields row) column)) sanitized)
    with (setColumn g).
  split; [reflexivity|]. split; [apply fold_setColumn_NoDup; constructor|].
  split; [intros column; apply fold_setColumn_keys|].
  intros column Hin. unfold get. now rewrite fold_setColumn_in.
Qed.

Lemma sanitizeRows_nth (dateTime : nat -> option number) (data : list Row)
    (cleanedColumns : list string) (next i : nat) :
  nth_error (sanitizeRows dateTime next data cleanedColumns) i
  = option_map (fun row => sanitizeDataRow dateTime (next + i) row cleanedColumns)
      (nth_error data i).
Proof.
  revert next i. induction data as [|row data IH]; intros next [|i]; cbn;
    try reflexivity.
  - now rewrite Nat.add_0_r.
  - rewrite IH. now replace (S next + i)%nat with (next + S i)%nat by lia.
Qed.

Lemma sanitizeRows_length (dateTime : nat -> option number) (data : list Row)
    (cleanedColumns : list string) (next : nat) :
  length (sanitizeRows dateTime next data cleanedColumns) = length data.
Proof. revert next. induction data; intros next; cbn; [reflexivity|now rewrite IHdata]. Qed.

(** The filter that should remove the empty rows keeps every row when a
    column is left, and no row when none is. *)
Lemma sanitizeRows_filter (dateTime : nat -> option number) (data : list Row)
    (cleanedColumns : list string) (next : nat) :
  List.filter (fun row => Nat.ltb 0 (length (keys (row_fields row))))
    (sanitizeRows dateTime next data cleanedColumns)
  = match cleanedColumns with
    | [] => []
    | _ :: _ => sanitizeRows dateTime next data cleanedColumns
    end.
Proof.
  revert next. induction data as [|row data IH]; intros next; cbn [sanitizeRows List.filter].
  - now destruct cleanedColumns.
  - rewrite IH.
    destruct (sanitizeDataRow_fields dateTime next row cleanedColumns)
      as (_ & _ & Hkeys & _).
    destruct cleanedColumns as [|c cs].
    + destruct (keys _) as [|k ks]; [reflexivity|].
      exfalso. apply (proj1 (Hkeys k)). now left.
    + destruct (keys _) as [|k ks]; [|reflexivity].
      exfalso. apply (proj2 (Hkeys c)). now left.
Qed.

(** The row of the result at the index of a row of the file. *)
Lemma sanitizeFileData_row_at (dateTime : nat -> option number) (next : nat)
    (fileData : FileData) (i : nat) (row : Row) :
  fd_columns (sanitizeFileData dateTime next fileData) <> [] ->
  nth_error (fd_data fileData) i = Some row ->
  nth_error (fd_data (sanitizeFileData dateTime next fileData)) i
  = Some (sanitizeDataRow dateTime (next + i) row
            (fd_columns (sanitizeFileData dateTime next fileData))).
Proof.
  unfold sanitizeFileData. cbn [fd_columns fd_data]. intros Hcols Hrow.
  rewrite sanitizeRows_filter.
  destruct (List.filter _ (map sanitizeColumnName (fd_columns fileData)))
    as [|c cs] eqn:Hclean; [congruence|].
  rewrite sanitizeRows_nth, Hrow. reflexivity.
Qed.

(** X19.  [sanitizeFileData] keeps the rows one for one, unless no
    column name survives the cleaning, in which case it returns no row at
    all: the filter for empty rows never removes one row and keeps another,
    since every new row has exactly the cleaned columns as its keys, a row
    of empty cells being kept as a row of nulls.  [rowCount] is the number
    of rows returned, and each cell is [sanitizeValue] of what the old row
    holds under the cleaned column name. *)
Theorem sanitizeFileData_rows (dateTime : nat -> option number) (next : nat)
    (fileData : FileData) :
  fd_rowCount (sanitizeFileData dateTime next fileData)
  = Z.of_nat (length (fd_data (sanitizeFileData dateTime next fileData))) /\
  (fd_columns (sanitizeFileData dateTime next fileData) = [] ->
   fd_data (sanitizeFileData dateTime next fileData) = []) /\
  (fd_columns (sanitizeFileData dateTime next fileData) <> [] ->
   length (fd_data (sanitizeFileData dateTime next fileData))
   = length (fd_data fileData) /\
   forall i row, nth_error (fd_data fileData) i = Some row ->
     exists row',
       nth_error (fd_data (sanitizeFileData dateTime next fileData)) i = Some row' /\
       row_ref row' = (next + i)%nat /\
       List.NoDup (keys (row_fields row')) /\
       (forall column,
          In column (keys (row_fields row'))
          <-> In column (fd_columns (sanitizeFileData dateTime next fileData))) /\
       (forall column,
          In column (fd_columns (sanitizeFileData dateTime next fileData)) ->
          get (row_fields row') column
          = sanitizeValue dateTime (get (row_fields row) column))).
Proof.
  split; [reflexivity|]. split.
  - unfold sanitizeFileData. cbn [fd_columns fd_data]. intros ->.
    now rewrite sanitizeRows_filter.
  - intros Hcols. split.
    + revert Hcols. unfold sanitizeFileData. cbn [fd_columns fd_data]. intros Hcols.
      rewrite sanitizeRows_filter.
      destruct (List.filter _ (map sanitizeColumnName (fd_columns fileData)));
        [congruence|apply sanitizeRows_length].
    + intros i row Hrow. eexists. split; [exact (sanitizeFileData_row_at _ _ _ _ _ Hcols Hrow)|].
      apply sanitizeDataRow_fields.
Qed.

Lemma sanitizeFileData_rows_witness :
  length (fd_data (sanitizeFileData noDates 10 priced)) = 2%nat.
Proof.
  refine (proj1 (proj2 (proj2 (sanitizeFileData_rows noDates 10 priced)) _)).
  vm_compute. discriminate.
Defined.

(** X20.  A column whose header changes under [sanitizeColumnName]
    loses its data: the rows are read under the cleaned name, so when a row
    has no property of that name its cell in the result is null, whatever
    it holds under the header of the file. *)
Theorem sanitizeFileData_renamed_column_is_null (dateTime : nat -> option number)
    (next : nat) (fileData : FileData) (column : string) (i : nat) (row : Row) :
  In column (fd_columns fileData) ->
  sanitizeColumnName column <> ""%string ->
  nth_error (fd_data fileData) i = Some row ->
  has (sanitizeColumnName column) (row_fields row) = false ->
  In (sanitizeColumnName column)
     (fd_columns (sanitizeFileData dateTime next fileData)) /\
  exists row',
    nth_error (fd_data (sanitizeFileData dateTime next fileData)) i = Some row' /\
    get (row_fields row') (sanitizeColumnName column) = VNull.
Proof.
  intros Hcol Hclean Hrow Hhas.
  assert (Hin : In (sanitizeColumnName column)
                  (fd_columns (sanitizeFileData dateTime next fileData))).
  { unfold sanitizeFileData. cbn [fd_columns]. apply filter_In. split.
    - now apply in_map.
    - apply negb_true_iff, String.eqb_neq. exact Hclean. }
  split; [exact Hin|].
  eexists. split.
  - apply sanitizeFileData_row_at; [|exact Hrow]. intros Hnil. now rewrite Hnil in Hin.
  - destruct (sanitizeDataRow_fields dateTime (next + i) row
                (fd_columns (sanitizeFileData dateTime next fileData)))
      as (_ & _ & _ & Hget).
    rewrite (Hget _ Hin). unfold get, has in *.
    destruct (lookup_field (sanitizeColumnName column) (row_fields row)); [discriminate|].
    reflexivity.
Qed.

Lemma sanitizeFileData_renamed_column_is_null_witness :
  exists row',
    nth_error (fd_data (sanitizeFileData noDates 10 priced)) 0 = Some row' /\
    get (row_fields row') "Price "%string = VNull.
Proof.
  refine (proj2 (sanitizeFileData_renamed_column_is_null noDates 10 priced
                   "Price ($)" 0 (row 0 [("Item"%string, VString " pen ");
                                       ("Price ($)"%string, VNumber (of_Z 3))])
                   _ _ _ _)).
  - cbn. tauto.
  - vm_compute. discriminate.
  - reflexivity.
  - vm_compute. reflexivity.
Defined.

End SanitizeRowFacts.

Module FileProcessorFacts.
Import Js JsText DuplicateChecker DataValidatorSpecs FileProcessor FileProcessorSpecs
  JsTextFacts InputFacts MergeFacts TrimFacts SanitizeFacts Samples.

(** *** The extension of a file name *)






Lemma append_cons (c : ascii) (s t : string) :
  (String c s +:+ t)%string = String c (s +:+ t).
Proof. reflexivity. Qed.









End FileProcessorFacts.

Module FileNameFacts.
Import Js JsText DuplicateChecker DataValidatorSpecs FileProcessor FileProcessorSpecs
  JsTextFacts MergeFacts TrimFacts SanitizeFacts FileProcessorFacts Samples.


(** *** generateFileName *)

Lemma chars_append (s t : string) : chars (s +:+ t) = chars s ++ chars t.
Proof.
  unfold chars. induction s as [|c s IH]; [reflexivity|].
  rewrite append_cons. cbn. now rewrite IH.
Qed.

Lemma uint_chars (d : Decimal.uint) (c : ascii) :
  In c (chars (NilEmpty.string_of_uint d)) -> 48 <= code c <= 57.
Proof.
  unfold chars. induction d; cbn; try tauto;
    (intros [<-|H]; [vm_compute; split; discriminate|now apply IHd]).
Qed.

Lemma digits_of_chars (n : Z) (c : ascii) :
  In c (chars (digits_of n)) -> 48 <= code c <= 57.
Proof.
  unfold digits_of, NilZero.string_of_uint.
  destruct (N.to_uint (Z.to_N n)) eqn:Hd; try (rewrite <- Hd; apply uint_chars).
  unfold chars. cbn. intros [<-|[]]. vm_compute. split; discriminate.
Qed.

Lemma lower_char_generated (c : ascii) :
  isFileNameChar c = true \/ code c = 95 -> generatedChar (lower_char c).
Proof.
  unfold generatedChar.
  destruct c as [[] [] [] [] [] [] [] []]; vm_compute;
    intros [H|H]; try discriminate; intuition discriminate.
Qed.

Lemma toLowerCase_In (s : string) (c : ascii) :
  In c (chars (toLowerCase s)) -> exists d, In d (chars s) /\ c = lower_char d.
Proof.
  unfold chars. induction s as [|d s IH]; cbn; [tauto|].
  intros [<-|H]; [exists d; tauto|].
  destruct (IH H) as (d' & ? & ?). exists d'. tauto.
Qed.

Lemma toLowerCase_length (s : string) :
  String.length (toLowerCase s) = String.length s.
Proof. induction s; cbn; congruence. Qed.

Lemma collapseUnderscores_In (inRun : bool) (s : string) (c : ascii) :
  In c (chars (collapseUnderscores inRun s)) -> In c (chars s).
Proof.
  unfold chars. revert inRun. induction s as [|d s IH]; intros inRun; cbn; [tauto|].
  destruct (code d =? 95); [destruct inRun|]; cbn; intros H;
    try (destruct H as [H|H]; [now left|]); right; eapply IH; exact H.
Qed.

Lemma collapseUnderscores_length (inRun : bool) (s : string) :
  (String.length (collapseUnderscores inRun s) <= String.length s)%nat.
Proof.
  revert inRun. induction s as [|d s IH]; intros inRun; cbn; [lia|].
  pose proof (IH true). pose proof (IH false).
  destruct (code d =? 95); [destruct inRun|]; cbn; lia.
Qed.

Lemma replaceChars_length (class : ascii -> bool) (r : ascii) (s : string) :
  String.length (replaceChars class r s) = String.length s.
Proof. induction s; cbn; congruence. Qed.

(** X22.  A generated file name is made of the letters a-z, digits,
    dots, dashes and underscores only, whatever the name of the upload, and
    what follows the time stamp and its underscore is no longer than that
    name. *)
Theorem generateFileName_safe (timestamp : Z) (originalName : string) :
  (forall c, In c (chars (generateFileName timestamp originalName)) -> generatedChar c) /\
  (String.length (safeName originalName) <= String.length originalName)%nat /\
  String.length (generateFileName timestamp originalName)
  = (String.length (digits_of timestamp) + 1 + String.length (safeName originalName))%nat.
Proof.
  split; [|split].
  - intros c. unfold generateFileName. rewrite !chars_append, !in_app_iff.
    intros [H|[H|H]].
    + apply digits_of_chars in H. unfold generatedChar. lia.
    + unfold chars in H. cbn in H. destruct H as [<-|[]]. unfold generatedChar.
      vm_compute. intuition discriminate.
    + unfold safeName in H. apply toLowerCase_In in H as (d & Hd & ->).
      apply collapseUnderscores_In, replaceChars_In in Hd.
      apply lower_char_generated.
      destruct Hd as [[_ Hd]| ->]; [left; now apply negb_false_iff in Hd|now right].
  - unfold safeName. rewrite toLowerCase_length.
    etransitivity; [apply collapseUnderscores_length|].
    now rewrite replaceChars_length.
  - unfold generateFileName. rewrite <- !chars_length, !chars_append, !length_app.
    unfold chars at 2. cbn [list_ascii_of_string length]. lia.
Qed.

(** *** cleanDataRow *)

Lemma set_field_In (key : string) (v : Value) (fs : Fields) (entry : string * Value) :
  In entry (set_field key v fs) -> entry = (key, v) \/ In entry fs.
Proof.
  induction fs as [|[k w] fs IH]; cbn.
  - intros [<-|[]]. now left.
  - destruct (String.eqb_spec key k) as [->|Hne]; cbn.
    + intros [<-|H]; [now left|right; now right].
    + intros [<-|H]; [right; now left|]. destruct (IH H); [now left|right; now right].
Qed.

Lemma cleanValue_tidy (value : Value) : tidyCell (cleanValue value).
Proof.
  destruct value as [| |b|x|s|ref text]; cbn; try exact I.
  apply trim_idem.
Qed.

Lemma fold_cleanEntry_tidy (fields acc : Fields) :
  (forall key value, In (key, value) acc ->
     key <> ""%string /\ trim key = key /\ tidyCell value) ->
  forall key value, In (key, value) (fold_left cleanEntry fields acc) ->
    key <> ""%string /\ trim key = key /\ tidyCell value.
Proof.
  revert acc. induction fields as [|[k v] fields IH]; intros acc Hacc; cbn [fold_left].
  - exact Hacc.
  - apply IH. unfold cleanEntry.
    destruct (String.eqb_spec (trim k) "") as [Hk|Hk]; [exact Hacc|].
    intros key value Hin. apply set_field_In in Hin as [[= -> ->]|Hin].
    + split; [exact Hk|]. split; [apply trim_idem|apply cleanValue_tidy].
    + now apply Hacc.
Qed.

Lemma fold_cleanEntry_other (fields acc : Fields) (cleanKey : string) :
  (forall key value, In (key, value) fields -> trim key <> cleanKey) ->
  lookup_field cleanKey (fold_left cleanEntry fields acc) = lookup_field cleanKey acc.
Proof.
  revert acc. induction fields as [|[k v] fields IH]; intros acc Hother; cbn [fold_left].
  - reflexivity.
  - rewrite IH by (intros key value H; apply (Hother key value); now right).
    unfold cleanEntry. destruct (String.eqb (trim k) ""); [reflexivity|].
    apply lookup_set_field_ne. apply (Hother k v). now left.
Qed.

(** X23.  In a row that [cleanDataRow] returns every key is trimmed
    and not empty, no cell is [undefined] and every text cell is trimmed.
    Of the entries whose keys agree after trimming the last one gives the
    cell; a text cell is stored trimmed, so a blank text becomes the empty
    text and not null (the test [value === ""] of the second branch is never
    true there), and only null and [undefined] become null. *)
Theorem cleanDataRow_tidy (ref : nat) (row : Row) :
  (forall key value, In (key, value) (row_fields (cleanDataRow ref row)) ->
     key <> ""%string /\ trim key = key /\ tidyCell value) /\
  (forall before after key value,
     row_fields row = before ++ (key, value) :: after ->
     trim key <> ""%string ->
     (forall key' value', In (key', value') after -> trim key' <> trim key) ->
     get (row_fields (cleanDataRow ref row)) (trim key)
     = match value with
       | VString s => VString (trim s)
       | VUndefined | VNull => VNull
       | _ => value
       end).
Proof.
  split.
  - apply fold_cleanEntry_tidy. intros key value [].
  - intros before after key value Hrow Hkey Hafter.
    unfold cleanDataRow, get. cbn [row_fields]. rewrite Hrow, fold_left_app.
    cbn [fold_left]. rewrite fold_cleanEntry_other by exact Hafter.
    unfold cleanEntry at 1. apply String.eqb_neq in Hkey. rewrite Hkey.
    rewrite lookup_set_field_eq. cbn [default].
    destruct value as [| |b|x|s|ref' text]; reflexivity.
Qed.

Lemma cleanDataRow_tidy_witness :
  get (row_fields (cleanDataRow 5 (row 0 [(" note "%string, VString "   ")]))) "note"
  = VString "".
Proof.
  apply (proj2 (cleanDataRow_tidy 5 (row 0 [(" note "%string, VString "   ")]))
           [] [] " note "%string (VString "   ")).
  - reflexivity.
  - vm_compute. discriminate.
  - intros key' value' [].
Defined.

End FileNameFacts.

Module ResultViewFacts.
Import Js JsText DuplicateChecker DataValidatorSpecs ResultViews ExportLib ViewSpecs
  JsTextFacts MergeFacts TrimFacts Samples.

(** *** The order of [sort] *)

Lemma before_trans (a b c : string) : before a b -> before b c -> before a c.
Proof.
  unfold before. revert b c. induction a as [|x a IH]; intros [|y b] [|z c]; cbn;
    try discriminate; try reflexivity.
  destruct (Ascii.compare x y) eqn:Hxy; try discriminate.
  - apply Ascii.compare_eq_iff in Hxy. subst y.
    destruct (Ascii.compare x z); try discriminate; [apply IH|reflexivity].
  - intros _. destruct (Ascii.compare y z) eqn:Hyz; try discriminate.
    + apply Ascii.compare_eq_iff in Hyz. subst z. now rewrite Hxy.
    + intros _. unfold Ascii.compare in *. rewrite N.compare_lt_iff in Hxy, Hyz.
      assert (H : (N_of_ascii x < N_of_ascii z)%N) by lia.
      apply N.compare_lt_iff in H. now rewrite H.
Qed.

Lemma sort_insert_In (item x : string) (sorted : list string) :
  In x (sort_insert item sorted) <-> x = item \/ In x sorted.
Proof.
  induction sorted as [|head rest IH]; cbn; [intuition congruence|].
  destruct (String.compare item head); cbn; rewrite ?IH; intuition congruence.
Qed.

Lemma sort_insert_sorted (item : string) (sorted : list string) :
  StronglySorted before sorted -> ~ In item sorted ->
  StronglySorted before (sort_insert item sorted).
Proof.
  induction sorted as [|head rest IH]; intros Hsorted Hnotin; cbn.
  - repeat constructor.
  - apply StronglySorted_inv in Hsorted as [Hrest Hhead].
    destruct (String.compare item head) eqn:Hcmp.
    + apply String.compare_eq_iff in Hcmp. subst. exfalso. apply Hnotin. now left.
    + constructor; [now constructor|]. constructor; [exact Hcmp|].
      eapply Forall_impl; [exact Hhead|]. intros x Hx. cbn.
      now apply (before_trans item head x).
    + constructor.
      * apply IH; [exact Hrest|]. intros H. apply Hnotin. now right.
      * apply Forall_forall. intros x Hx. apply list_elem_of_In in Hx.
        apply sort_insert_In in Hx as [->|Hx].
        -- unfold before. rewrite String.compare_antisym, Hcmp. reflexivity.
        -- rewrite Forall_forall in Hhead. apply Hhead. now apply list_elem_of_In.
Qed.

Lemma sort_In (items : list string) (x : string) : In x (sort items) <-> In x items.
Proof.
  unfold sort. induction items as [|item items IH]; cbn; [tauto|].
  rewrite sort_insert_In, IH. intuition congruence.
Qed.

Lemma sort_sorted (items : list string) :
  List.NoDup items -> StronglySorted before (sort items).
Proof.
  unfold sort. induction 1 as [|item items Hnotin Hnd IH]; cbn; [constructor|].
  apply sort_insert_sorted; [exact IH|]. intros H. apply Hnotin.
  now apply (sort_In items item).
Qed.

(** X24.  [getResultsColumns] returns the column names in strictly
    ascending order of their code units, so each name once, and a name is
    returned exactly when it is a key of some row of [duplicates],
    [uniqueInFile1], [uniqueInFile2] or [merged]. *)
Theorem getResultsColumns_sorted (results : ProcessedData) :
  StronglySorted before (getResultsColumns results) /\
  forall column,
    In column (getResultsColumns results)
    <-> exists row, In row (rowsOf results) /\ In column (keys (row_fields row)).
Proof.
  unfold getResultsColumns. fold (rowsOf results). split.
  - apply sort_sorted, Set_of_NoDup.
  - intros column. rewrite sort_In, Set_of_In, in_flat_map. reflexivity.
Qed.

End ResultViewFacts.

Module ExportFacts.
Import Js JsText DuplicateChecker DataValidatorSpecs ResultViews ExportLib ViewSpecs
  JsTextFacts MergeFacts TrimFacts Samples.





End ExportFacts.

Module ProcessRouteFacts.
Import Js JsText DuplicateChecker ResultProcessor SessionStore SessionUtils
  ProcessRoute InputSpecs InputFacts ResultProcessorFacts SessionStoreFacts
  Samples SessionSamples RouteSamples.





End ProcessRouteFacts.

Module FilterFacts.
Import Js JsText DuplicateChecker DataValidatorSpecs ResultViews ExportLib ViewSpecs
  ExportSpecs JsTextFacts MergeFacts TrimFacts FileNameFacts Samples.

(** *** Lower case and trimming *)

Lemma lower_char_idem (c : ascii) : lower_char (lower_char c) = lower_char c.
Proof. destruct c as [[] [] [] [] [] [] [] []]; vm_compute; reflexivity. Qed.

Lemma isWhiteSpace_lower_char (c : ascii) :
  isWhiteSpace (lower_char c) = isWhiteSpace c.
Proof. destruct c as [[] [] [] [] [] [] [] []]; vm_compute; reflexivity. Qed.

Lemma toLowerCase_idem (s : string) : toLowerCase (toLowerCase s) = toLowerCase s.
Proof. induction s as [|c s IH]; cbn; [reflexivity|]. now rewrite lower_char_idem, IH. Qed.

Lemma toLowerCase_chars (s : string) :
  chars (toLowerCase s) = map lower_char (chars s).
Proof. unfold chars. induction s as [|c s IH]; cbn; [reflexivity|]. now rewrite IH. Qed.

Lemma dropWhiteSpace_lower (l : list ascii) :
  dropWhiteSpace (map lower_char l) = map lower_char (dropWhiteSpace l).
Proof.
  induction l as [|c l IH]; cbn; [reflexivity|].
  rewrite isWhiteSpace_lower_char. destruct (isWhiteSpace c); [exact IH|reflexivity].
Qed.

Lemma trim_toLowerCase (s : string) : trim (toLowerCase s) = toLowerCase (trim s).
Proof.
  apply chars_inj.
  rewrite trim_chars, !toLowerCase_chars, trim_chars.
  now rewrite dropWhiteSpace_lower, <- map_rev, dropWhiteSpace_lower, <- map_rev.
Qed.

Lemma toLowerCase_empty (s : string) : toLowerCase s = ""%string <-> s = ""%string.
Proof. destruct s; cbn; split; congruence. Qed.

Lemma filter_sublist {A : Type} (p : A -> bool) (l : list A) :
  sublist (List.filter p l) l.
Proof.
  induction l as [|x l IH]; cbn; [constructor|].
  destruct (p x); [now apply sublist_skip|now apply sublist_cons].
Qed.

(** X27.  [filterResults] returns the rows themselves for a blank
    search term; otherwise some of the rows, in their order, and with the
    same answer whatever the case of the letters of the term.  When no
    columns are given a row is kept only if it matches in a column that
    the first row has: what it holds in its other columns is not searched. *)
Theorem filterResults_search (data : list Row) (searchTerm : string)
    (columns : option (list string)) :
  (trim searchTerm = ""%string -> filterResults data searchTerm columns = data) /\
  sublist (filterResults data searchTerm columns) data /\
  filterResults data (toLowerCase searchTerm) columns
  = filterResults data searchTerm columns /\
  (forall first rest row,
     data = first :: rest ->
     trim searchTerm <> ""%string ->
     In row (filterResults data searchTerm None) ->
     exists column,
       In column (keys (row_fields first)) /\
       isNullish (get (row_fields row) column) = false /\
       String_includes (toLowerCase (String_ (get (row_fields row) column)))
         (trim (toLowerCase searchTerm)) = true).
Proof.
  split; [|split; [|split]].
  - intros Hblank. unfold filterResults. now rewrite Hblank.
  - unfold filterResults. destruct (String.eqb (trim searchTerm) "");
      [reflexivity|apply filter_sublist].
  - unfold filterResults. rewrite toLowerCase_idem, !trim_toLowerCase.
    destruct (String.eqb_spec (trim searchTerm) "") as [->|Hne]; [reflexivity|].
    destruct (String.eqb_spec (toLowerCase (trim searchTerm)) "") as [Hl|_];
      [|reflexivity].
    apply (proj1 (toLowerCase_empty _)) in Hl. contradiction.
  - intros first rest row -> Hterm Hin. unfold filterResults in Hin.
    apply String.eqb_neq in Hterm. rewrite Hterm in Hin.
    apply filter_In in Hin as [_ Hmatch]. unfold rowMatches in Hmatch.
    apply existsb_exists in Hmatch as (column & Hcol & Hvalue).
    exists column. split; [exact Hcol|].
    destruct (isNullish (get (row_fields row) column)); [discriminate|].
    split; [reflexivity|exact Hvalue].
Qed.

Lemma filterResults_search_witness :
  filterResults [row 0 [("key"%string, VString "X")]] "   " None
  = [row 0 [("key"%string, VString "X")]].
Proof.
  apply (proj1 (filterResults_search [row 0 [("key"%string, VString "X")]] "   " None)).
  vm_compute. reflexivity.
Defined.

End FilterFacts.

Module CompleteExportFacts.
Import Js JsText DuplicateChecker DataValidatorSpecs ResultViews ExportLib ViewSpecs
  ExportSpecs JsTextFacts MergeFacts TrimFacts Samples.

Lemma tagged_taggedAs (tag : string) (ref : nat) (row : Row) :
  taggedAs tag row (tagged tag ref row).
Proof.
  unfold taggedAs, tagged, get. cbn [row_fields]. split.
  - now rewrite lookup_set_field_eq.
  - intros column Hne. rewrite lookup_set_field_ne by congruence. reflexivity.
Qed.

Lemma tagAll_taggedAs (tag : string) (next : nat) (rows : list Row) :
  Forall2 (taggedAs tag) rows (tagAll tag next rows).
Proof.
  revert next. induction rows as [|row rows IH]; intros next; cbn; constructor.
  - apply tagged_taggedAs.
  - apply IH.
Qed.

Lemma tagAll_length (tag : string) (next : nat) (rows : list Row) :
  length (tagAll tag next rows) = length rows.
Proof. revert next. induction rows; intros next; cbn; [reflexivity|now rewrite IHrows]. Qed.

(** X28.  The complete export of a result of [processDuplicates] lists
    the duplicates, the rows unique to file 1, the rows unique to file 2 and
    the merged records, in this order, each row with its other columns as
    they are and its [_record_type] set to the name of its list (a column
    of that name in the data is overwritten).  In column-operation mode it
    has one row for every row of the two files: a pair is listed once as a
    duplicate and once merged. *)
Theorem complete_export_lists_all (isoNow : string) (next next' : nat) (now : Z)
    (file1 file2 : FileData) (columnMapping : ColumnMapping)
    (mergeOptions : MergeOptions) (results : ProcessedData) :
  processDuplicates next now file1 file2 columnMapping mergeOptions = Returns results ->
  exists d u1 u2 m name,
    getExportData isoNow next' results "all"
    = Returns {| export_data := d ++ u1 ++ u2 ++ m; export_fileName := name |} /\
    Forall2 (taggedAs "duplicate") (duplicates results) d /\
    Forall2 (taggedAs "unique_file1") (uniqueInFile1 results) u1 /\
    Forall2 (taggedAs "unique_file2") (uniqueInFile2 results) u2 /\
    Forall2 (taggedAs "merged") (merged results) m /\
    (hasMergeAll mergeOptions = false ->
     length (d ++ u1 ++ u2 ++ m)
     = (length (fd_data file1) + length (fd_data file2))%nat).
Proof.
  intros Hrun. do 5 eexists. split; [reflexivity|].
  repeat (split; [apply tagAll_taggedAs|]).
  intros Hmode.
  destruct (MatchingFacts.processDuplicates_counts _ _ _ _ _ _ _ Hrun)
    as (H1 & H2 & _ & _).
  rewrite !length_app, !tagAll_length.
  assert (Hmerged : length (merged results) = length (duplicates results)).
  { unfold processDuplicates, processDuplicates_body in Hrun.
    destruct (validateProcessingInputs _ _ _ _); cbn in Hrun; [|discriminate].
    injection Hrun as <-. cbn [merged duplicates].
    apply findMergeAll_hasMergeAll in Hmode. rewrite Hmode.
    now rewrite length_mergeDuplicateRecords, length_map. }
  lia.
Qed.

Lemma complete_export_lists_all_witness :
  exists results d u1 u2 m name,
    processDuplicates 4 0 fileA fileB by_key sum_qty = Returns results /\
    getExportData "2024-01-02T03:04:05.678Z" 10 results "all"
    = Returns {| export_data := d ++ u1 ++ u2 ++ m; export_fileName := name |} /\
    length (d ++ u1 ++ u2 ++ m) = 4%nat.
Proof.
  eexists.
  destruct (complete_export_lists_all "2024-01-02T03:04:05.678Z" 4 10 0
              fileA fileB by_key sum_qty _ eq_refl)
    as (d & u1 & u2 & m & name & Hexport & _ & _ & _ & _ & Hlen).
  exists d, u1, u2, m, name. split; [reflexivity|]. split; [exact Hexport|].
  apply Hlen. reflexivity.
Defined.

End CompleteExportFacts.

Module DataTypeStatsFacts.
Import Js JsText DuplicateChecker DataTypeStats DataSamples.







End DataTypeStatsFacts.

Module LibraryExamples.
Import Js JsText DuplicateChecker DataValidator DataValidatorSpecs FileProcessor
  FileProcessorSpecs ResultViews ExportLib ViewSpecs DataTypeStats Samples DataSamples
  SanitizeFacts FileNameFacts ResultViewFacts ExportFacts DataTypeStatsFacts.

Lemma sanitizeColumnName_safe_witness : nameChar "P".
Proof.
  apply (proj2 (sanitizeColumnName_safe "Price ($)") "P"%char).
  vm_compute. now left.
Defined.

Lemma generateFileName_safe_witness : generatedChar "_".
Proof.
  apply (proj1 (generateFileName_safe 1700000000000 "My File (1).XLSX") "_"%char).
  vm_compute. do 13 right. now left.
Defined.

Lemma getResultsColumns_sorted_witness :
  In "note"%string
    (getResultsColumns
       {| duplicates := []; uniqueInFile1 := []; uniqueInFile2 := fd_data fileB;
          merged := [];
          stats := {| totalFile1 := 0; totalFile2 := 2; duplicateCount := 0;
                      uniqueFile1Count := 0; uniqueFile2Count := 2; mergedCount := 0 |};
          processedAt := 0 |}).
Proof.
  apply (proj2 (getResultsColumns_sorted _)).
  exists (row 2 [("key"%string, VString "Z"); ("qty"%string, VString "2");
                 ("note"%string, VString "n")]).
  split; [now left|]. cbn. tauto.
Defined.



End LibraryExamples.
